(** * L2C-API-Basic-Node: the users service, embedded and verified

    A shallow embedding of the request pipeline of the repository

      - [src/models/User.ts]        (validation, sanitization, constants),
      - [src/services/UserService.ts] (the five data-access operations),
      - [src/routes/userRoutes.ts]  (the five request handlers),
      - [src/utils/logger.ts]       (the levelled console logger),
      - [src/middleware/errorHandler.ts] (the error middleware),
      - the schema script           (the [users] table the statements run on),

    followed by the properties that the specification states about it, and
    by further properties of the code.

    Conventions of the embedding.

      - A value is a primitive, an array, or a plain object as [JSON.parse]
        makes them.  A JavaScript object is a finite map from property
        names to values ([gmap string value]); ['k' in o] is
        [is_Some (o !! k)] and [o.k] is the looked-up value, [undefined]
        when the key is absent.
      - A JavaScript number is [NaN], an infinity, or an exact rational.
        Every IEEE double is one of these.  Arithmetic and the reading of
        digits are exact: they agree with doubles as long as the numbers
        involved are integers up to 2^53 in size.  Where a property of the
        service below gives the value of a difference, a product, a
        quotient or a number read from digits, it does so within that
        range.  The sign of zero is not modelled.
      - A string is a sequence of code units below 256 (Latin-1).
      - An [async] method is a function from the state of the world to a
        completion (a value or a thrown error) and a new world. *)

From stdpp Require Import gmap strings list fin_maps pretty.
From Stdlib Require Import Ascii String QArith Qround Lqa Sorted.

Open Scope string_scope.
Open Scope Z_scope.

(** ** The fragment of ECMAScript that the service relies on *)

Module Js.

Inductive number : Type :=
| NaN
| Infinity (negative : bool)
| Fin (q : Q).

(** The values that [JSON.parse] and the service produce: the primitives,
    arrays, and plain objects whose properties are all their own data. *)
#[warnings="-register-all"] Inductive value : Type :=
| VUndefined
| VNull
| VBoolean (b : bool)
| VNumber (n : number)
| VString (s : string)
| VArray (items : list value)
| VObject (fields : gmap string value).

(** A thrown [Error] or [TypeError]; only its [message] is ever
    inspected. *)
Inductive exn : Type :=
| Error (message : string).

Definition message (e : exn) : string :=
  match e with Error m => m end.

(** What [ToPrimitive] throws when no method of an object yields a
    primitive. *)
Definition cannotConvert : exn :=
  Error "Cannot convert object to primitive value".

Definition int (z : Z) : number := Fin (inject_Z z).

(** [a < b] on numbers: false as soon as one side is [NaN]. *)
Definition lt (a b : number) : bool :=
  match a, b with
  | NaN, _ | _, NaN => false
  | Infinity true, Infinity true => false
  | Infinity true, _ => true
  | _, Infinity true => false
  | Infinity false, _ => false
  | _, Infinity false => true
  | Fin x, Fin y => negb (Qle_bool y x)
  end.

Definition gt (a b : number) : bool := lt b a.

(** [a <= b]. *)
Definition le (a b : number) : bool :=
  match a, b with
  | NaN, _ | _, NaN => false
  | Infinity true, _ => true
  | _, Infinity false => true
  | Infinity false, _ => false
  | _, Infinity true => false
  | Fin x, Fin y => Qle_bool x y
  end.

Definition isNaN (n : number) : bool :=
  match n with NaN => true | _ => false end.

Definition is_zero (n : number) : bool :=
  match n with Fin q => Qeq_bool q 0 | _ => false end.

Definition Math_max (a b : number) : number :=
  match a, b with
  | NaN, _ | _, NaN => NaN
  | _, _ => if lt a b then b else a
  end.

Definition Math_min (a b : number) : number :=
  match a, b with
  | NaN, _ | _, NaN => NaN
  | _, _ => if lt b a then b else a
  end.

Definition Math_floor (n : number) : number :=
  match n with
  | Fin q => int (Qfloor q)
  | _ => n
  end.

Definition Math_ceil (n : number) : number :=
  match n with
  | Fin q => int (Qceiling q)
  | _ => n
  end.

Definition sub (a b : number) : number :=
  match a, b with
  | NaN, _ | _, NaN => NaN
  | Fin x, Fin y => Fin (x - y)
  | Infinity s, Fin _ => Infinity s
  | Fin _, Infinity s => Infinity (negb s)
  | Infinity s, Infinity t => if Bool.eqb s t then NaN else Infinity s
  end.

Definition negative (n : number) : bool := lt n (int 0).

Definition mul (a b : number) : number :=
  match a, b with
  | NaN, _ | _, NaN => NaN
  | Fin x, Fin y => Fin (x * y)
  | Infinity s, Infinity t => Infinity (xorb s t)
  | Infinity s, (Fin _ as f) | (Fin _ as f), Infinity s =>
      if is_zero f then NaN else Infinity (xorb s (negative f))
  end.

Definition div (a b : number) : number :=
  match a, b with
  | NaN, _ | _, NaN => NaN
  | Infinity _, Infinity _ => NaN
  | Infinity s, Fin _ => Infinity (xorb s (negative b))
  | Fin _, Infinity _ => int 0
  | Fin x, Fin y =>
      if Qeq_bool y 0
      then (if Qeq_bool x 0 then NaN else Infinity (negative a))
      else Fin (x / y)
  end.

(** [ToBoolean]: what [!v], [v || d], [v ? a : b] and [if (v)] test. *)
Definition ToBoolean (v : value) : bool :=
  match v with
  | VUndefined | VNull => false
  | VBoolean b => b
  | VNumber NaN => false
  | VNumber (Infinity _) => true
  | VNumber (Fin q) => negb (Qeq_bool q 0)
  | VString s => negb (String.eqb s "")
  | VArray _ | VObject _ => true
  end.

(** [v || d]. *)
Definition or_else (v d : value) : value :=
  if ToBoolean v then v else d.

Definition code (c : ascii) : N := N_of_ascii c.

(** White space and line terminators among the code units below 256. *)
Definition isWhiteSpace (c : ascii) : bool :=
  let n := code c in
  ((9 <=? n) && (n <=? 13) || (n =? 32) || (n =? 160))%N.

Definition toLowerCaseChar (c : ascii) : ascii :=
  let n := code c in
  if ((65 <=? n) && (n <=? 90)
      || (192 <=? n) && (n <=? 222) && negb (n =? 215))%N
  then ascii_of_N (n + 32)
  else c.

Fixpoint toLowerCase (s : string) : string :=
  match s with
  | EmptyString => EmptyString
  | String c s' => String (toLowerCaseChar c) (toLowerCase s')
  end.

Fixpoint trimStart (s : string) : string :=
  match s with
  | EmptyString => EmptyString
  | String c s' => if isWhiteSpace c then trimStart s' else s
  end.

Fixpoint trimEnd (s : string) : string :=
  match s with
  | EmptyString => EmptyString
  | String c s' =>
      match trimEnd s' with
      | EmptyString => if isWhiteSpace c then EmptyString else String c EmptyString
      | r => String c r
      end
  end.

Definition trim (s : string) : string := trimEnd (trimStart s).

(** Does [s] contain [sub]? ([String.prototype.includes]) *)
Fixpoint includes (s sub : string) : bool :=
  String.prefix sub s ||
  match s with
  | EmptyString => false
  | String _ s' => includes s' sub
  end.

(** [Array.prototype.join] on an array of strings. *)
Fixpoint join (sep : string) (l : list string) : string :=
  match l with
  | [] => ""
  | [x] => x
  | x :: l' => x ++ sep ++ join sep l'
  end.

(** [l.push(x)] *)
Definition push {A : Type} (l : list A) (x : A) : list A := (l ++ [x])%list.

(** [a === b].  An array or an object is equal to itself only.  Where the
    service compares, one side is a string (a column of a row, or a
    constant), so two of them never meet. *)
Definition strictEquals (a b : value) : bool :=
  match a, b with
  | VUndefined, VUndefined | VNull, VNull => true
  | VBoolean x, VBoolean y => Bool.eqb x y
  | VString x, VString y => String.eqb x y
  | VNumber (Fin x), VNumber (Fin y) => Qeq_bool x y
  | VNumber (Infinity x), VNumber (Infinity y) => Bool.eqb x y
  | _, _ => false
  end.

Definition isUndefined (v : value) : bool :=
  match v with VUndefined => true | _ => false end.

(** *** [parseInt(s)] with no radix argument *)

Definition digitValue (radix : Z) (c : ascii) : option Z :=
  let n := Z.of_N (code c) in
  let d := if (48 <=? n) && (n <=? 57) then n - 48
           else if (97 <=? n) && (n <=? 122) then n - 87
           else if (65 <=? n) && (n <=? 90) then n - 55
           else radix in
  if d <? radix then Some d else None.

(** The value of the longest prefix of digits, [None] when it is empty. *)
Fixpoint digits (radix : Z) (s : string) (acc : option Z) : option Z :=
  match s with
  | EmptyString => acc
  | String c s' =>
      match digitValue radix c with
      | Some d => digits radix s' (Some (radix * default 0 acc + d))
      | None => acc
      end
  end.

Definition parseInt (input : string) : number :=
  let s := trimStart input in
  let '(sign, s) :=
    match s with
    | String "-" s' => (-1, s')
    | String "+" s' => (1, s')
    | _ => (1, s)
    end in
  let '(radix, s) :=
    match s with
    | String "0" (String "x" s') | String "0" (String "X" s') => (16, s')
    | _ => (10, s)
    end in
  match digits radix s None with
  | None => NaN
  | Some mathInt => int (sign * mathInt)
  end.

(** The conversions between numbers and strings that are not modelled
    digit by digit are taken from the host: [StringToNumber] (the
    [Number(s)] coercion of a string) and the rendering of a number that
    is not an integer below 10^21. *)
Class Host : Type := {
  StringToNumber : string -> number;
  FractionToString : Q -> string;
}.

Section Conversions.
Context `{Host}.

(** [`${n}`] *)
Definition NumberToString (n : number) : string :=
  match n with
  | NaN => "NaN"
  | Infinity false => "Infinity"
  | Infinity true => "-Infinity"
  | Fin q =>
      let r := Qred q in
      if Pos.eqb (Qden r) 1 && (Z.abs (Qnum r) <? 10 ^ 21)
      then pretty (Qnum r)
      else FractionToString q
  end.

(** [ToString], [None] when it throws the [TypeError] above.  An array is
    joined with commas, [null] and [undefined] among its elements giving
    the empty string.  A plain object has the methods of
    [Object.prototype] unless a property of its own hides them: with a
    [toString] of its own, which is data and cannot be called, no method
    is left that yields a primitive, whatever [valueOf] is. *)
Fixpoint ToString (v : value) : option string :=
  match v with
  | VUndefined => Some "undefined"
  | VNull => Some "null"
  | VBoolean b => Some (if b then "true" else "false")
  | VNumber n => Some (NumberToString n)
  | VString s => Some s
  | VArray items =>
      (fix joined (l : list value) : option string :=
         match l with
         | [] => Some ""
         | x :: l' =>
             match (match x with
                    | VUndefined | VNull => Some ""
                    | _ => ToString x
                    end) with
             | None => None
             | Some s =>
                 match l' with
                 | [] => Some s
                 | _ :: _ =>
                     match joined l' with
                     | None => None
                     | Some r => Some (s ++ "," ++ r)
                     end
                 end
             end
         end) items
  | VObject fields =>
      if bool_decide (is_Some (fields !! "toString")) then None
      else Some "[object Object]"
  end.

(** [Number(v)]: an array or an object is first brought to a primitive,
    which is the string above. *)
Definition ToNumber (v : value) : number + exn :=
  match v with
  | VUndefined => inl NaN
  | VNull => inl (int 0)
  | VBoolean b => inl (if b then int 1 else int 0)
  | VNumber n => inl n
  | VString s => inl (StringToNumber s)
  | VArray _ | VObject _ =>
      match ToString v with
      | Some s => inl (StringToNumber s)
      | None => inr cannotConvert
      end
  end.

End Conversions.

End Js.

Import Js.

(** The payload of a request, and any object that is spread from it. *)
Abbreviation object := (gmap string value).

(** [o.k] *)
Definition prop (o : object) (k : string) : value :=
  default VUndefined (o !! k).

(** ['k' in o] *)
Definition has (k : string) (o : object) : bool :=
  bool_decide (is_Some (o !! k)).

(** ** [src/models/User.ts] *)

Module USER_VALIDATION.
Definition NAME_MIN_LENGTH : Z := 2.
Definition NAME_MAX_LENGTH : Z := 100.
Definition EMAIL_MAX_LENGTH : Z := 255.
Definition AGE_MIN : Z := 0.
Definition AGE_MAX : Z := 100.
Definition DEFAULT_PAGE : Z := 1.
Definition DEFAULT_LIMIT : Z := 10.
Definition MAX_LIMIT : Z := 100.
End USER_VALIDATION.

(** [s.length] *)
Definition str_length (s : string) : Z := Z.of_nat (String.length s).

(** The three blocks of [validateUserData], each returning what it pushes
    on [errors]. *)
Definition nameErrors (userData : object) (isUpdate : bool) : list string :=
  if negb isUpdate || has "name" userData then
    let name := prop userData "name" in
    if negb (ToBoolean name) then ["Name is required."]
    else match name with
         | VString name =>
             if str_length name <? USER_VALIDATION.NAME_MIN_LENGTH then
               ["Name must be at least " ++ pretty USER_VALIDATION.NAME_MIN_LENGTH]
             else if USER_VALIDATION.NAME_MAX_LENGTH <? str_length name then
               ["Name must be no more than "
                  ++ pretty USER_VALIDATION.NAME_MAX_LENGTH ++ " characters long"]
             else []
         | _ => ["Name must be a string"]
         end
  else [].

Definition emailErrors (userData : object) (isUpdate : bool) : list string :=
  if negb isUpdate || has "email" userData then
    let email := prop userData "email" in
    if negb (ToBoolean email) then ["Email is required."]
    else match email with
         | VString email =>
             if USER_VALIDATION.EMAIL_MAX_LENGTH <? str_length email then
               ["Email must be no more than "
                  ++ pretty USER_VALIDATION.EMAIL_MAX_LENGTH ++ " characters long"]
             else []
         | _ => ["Email must be a string"]
         end
  else [].

Definition ageErrors (userData : object) (isUpdate : bool) : list string :=
  if negb isUpdate || has "age" userData then
    let age := prop userData "age" in
    if negb (ToBoolean age) then ["Age is required."]
    else match age with
         | VNumber age =>
             if lt age (int USER_VALIDATION.AGE_MIN) then
               ["Age must be at least " ++ pretty USER_VALIDATION.AGE_MIN]
             else if gt age (int USER_VALIDATION.AGE_MIN) then
               ["Age must be no more than "
                  ++ pretty USER_VALIDATION.AGE_MIN ++ " characters long"]
             else []
         | _ => ["Age must be a number"]
         end
  else [].

Definition validateUserData (userData : object) (isUpdate : bool) : list string :=
  (nameErrors userData isUpdate
     ++ emailErrors userData isUpdate
     ++ ageErrors userData isUpdate)%list.

(** Calling [.trim()] on a truthy value that is not a string throws. *)
Definition notAFunction (what : string) : exn :=
  Error (what ++ " is not a function").

Section Sanitize.
Context `{Host}.

Definition sanitizeName (sanitized : object) : object + exn :=
  if has "name" sanitized && ToBoolean (prop sanitized "name") then
    match prop sanitized "name" with
    | VString name => inl (<["name" := VString (trim name)]> sanitized)
    | _ => inr (notAFunction "sanitized.name.trim")
    end
  else inl sanitized.

Definition sanitizeEmail (sanitized : object) : object + exn :=
  if has "email" sanitized && ToBoolean (prop sanitized "email") then
    match prop sanitized "email" with
    | VString email =>
        inl (<["email" := VString (toLowerCase (trim email))]> sanitized)
    | _ => inr (notAFunction "sanitized.email.trim")
    end
  else inl sanitized.

Definition sanitizeAge (sanitized : object) : object + exn :=
  if has "age" sanitized && ToBoolean (prop sanitized "age") then
    match ToNumber (prop sanitized "age") with
    | inl age => inl (<["age" := VNumber (Math_floor age)]> sanitized)
    | inr e => inr e
    end
  else inl sanitized.

Definition sanitizeUserData (userData : object) : object + exn :=
  match sanitizeName userData with
  | inr e => inr e
  | inl sanitized =>
      match sanitizeEmail sanitized with
      | inr e => inr e
      | inl sanitized => sanitizeAge sanitized
      end
  end.

End Sanitize.

(** ** The database: the schema script and the statements sent to it

    The storage engine is an external collaborator.  It is modelled for the
    statement forms the service sends: the text is split into tokens,
    parsed into a statement over the [users] table, and run against the
    rows, with the column types, constraints and the [updated_at] trigger
    that the schema script declares.  Any other text is answered with SQLSTATE
    0A000.  Where SQL leaves the order of rows open, the model settles it:
    rows are kept in insertion order, sorting is stable, and text is
    ordered code unit by code unit.  What is stated below of a sorted
    answer does not rely on this: it holds of every order that SQL
    allows. *)

Module Pg.

(** A row of [users]; timestamps are instants on the database clock. *)
Record row : Type := {
  id : Z;
  name : string;
  email : string;
  age : option Z;
  created_at : Z;
  updated_at : Z;
}.

Inductive failure : Type :=
| ConnectionFailure
| SqlState (code : string).

Record database : Type := {
  users : list row;
  users_id_seq : Z;      (* last value of the sequence behind [id SERIAL] *)
  now : Z;               (* what [NOW()] returns *)
  faults : list bool;    (* the n-th statement to come fails to reach the server *)
}.

Inductive resultRow : Type :=
| UserRow (r : row)
| IdRow (id : Z)
| CountRow (count : string).

(** *** Tokens *)

(** White space for the server: tab, line feed, vertical tab, form feed,
    carriage return, space. *)
Definition isSpace (c : ascii) : bool :=
  let n := code c in
  ((9 <=? n) && (n <=? 13) || (n =? 32))%N.

Definition isPunctuation (c : ascii) : bool :=
  (Ascii.eqb c "(" || Ascii.eqb c ")" || Ascii.eqb c ",")%bool.

Definition flush (cur : string) : list string :=
  if String.eqb cur "" then [] else [cur].

Fixpoint lex (s : string) (cur : string) : list string :=
  match s with
  | EmptyString => flush cur
  | String c s' =>
      if isSpace c then (flush cur ++ lex s' "")%list
      else if isPunctuation c then (flush cur ++ String c "" :: lex s' "")%list
      else lex s' (cur ++ String c "")
  end.

(** Key words and unquoted identifiers are case-insensitive. *)
Definition tokens (text : string) : list string :=
  toLowerCase <$> lex text "".

(** *** Statements *)

Inductive expr : Type :=
| Param (n : nat)
| Now.

Inductive operator : Type := ILike | Ge | Le | Eq.

Record condition : Type := {
  column : string;
  op : operator;
  operand : nat;
}.

Inductive statement : Type :=
| Insert (columns : list string) (values : list expr)
| Count (where_ : list condition)
| Select (where_ : list condition)
         (orderBy : option (string * bool))      (* column, descending? *)
         (limitOffset : option (nat * nat))
| Update (set : list (string * expr)) (where_ : list condition)
| Delete (where_ : list condition).

Fixpoint allDigits (s : string) : bool :=
  match s with
  | EmptyString => true
  | String c s' =>
      let n := code c in ((48 <=? n) && (n <=? 57))%N && allDigits s'
  end.

(** [$n] *)
Definition parseParam (tok : string) : option nat :=
  match tok with
  | String "$" ds =>
      if negb (String.eqb ds "") && allDigits ds
      then Z.to_nat <$> digits 10 ds None
      else None
  | _ => None
  end.

Definition parseOperator (tok : string) : option operator :=
  if String.eqb tok "ilike" then Some ILike
  else if String.eqb tok ">=" then Some Ge
  else if String.eqb tok "<=" then Some Le
  else if String.eqb tok "=" then Some Eq
  else None.

Definition isColumn (tok : string) : bool :=
  bool_decide (tok ∈ ["id"; "name"; "email"; "age"; "created_at"; "updated_at"]).

(** [c1 op $a AND c2 op $b ...], and what follows it. *)
Fixpoint parseConditions (toks : list string)
  : option (list condition * list string) :=
  match toks with
  | col :: o :: p :: rest =>
      if isColumn col then
        match parseOperator o, parseParam p with
        | Some o, Some p =>
            let c := {| column := col; op := o; operand := p |} in
            match rest with
            | "and" :: rest' =>
                match parseConditions rest' with
                | Some (cs, rest'') => Some (c :: cs, rest'')
                | None => None
                end
            | _ => Some ([c], rest)
            end
        | _, _ => None
        end
      else None
  | _ => None
  end.

(** An optional [WHERE] clause. *)
Definition parseWhere (toks : list string)
  : option (list condition * list string) :=
  match toks with
  | "where" :: rest => parseConditions rest
  | _ => Some ([], toks)
  end.

(** [$n] or [NOW()], and what follows it. *)
Definition parseExpr (toks : list string) : option (expr * list string) :=
  match toks with
  | "now" :: "(" :: ")" :: rest => Some (Now, rest)
  | p :: rest => (fun n => (Param n, rest)) <$> parseParam p
  | [] => None
  end.

(** [e1, e2, ...)] up to the closing parenthesis. *)
Fixpoint parseExprs (fuel : nat) (toks : list string)
  : option (list expr * list string) :=
  match fuel with
  | O => None
  | S fuel =>
      match parseExpr toks with
      | Some (e, "," :: rest) =>
          match parseExprs fuel rest with
          | Some (es, rest') => Some (e :: es, rest')
          | None => None
          end
      | Some (e, ")" :: rest) => Some ([e], rest)
      | _ => None
      end
  end.

(** [c1, c2, ...)] up to the closing parenthesis. *)
Fixpoint parseColumns (toks : list string)
  : option (list string * list string) :=
  match toks with
  | col :: sep :: rest =>
      if isColumn col then
        if String.eqb sep ")" then Some ([col], rest)
        else if String.eqb sep "," then
          match parseColumns rest with
          | Some (cs, rest') => Some (col :: cs, rest')
          | None => None
          end
        else None
      else None
  | _ => None
  end.

(** [c1 = e1, c2 = e2, ...] *)
Fixpoint parseAssignments (fuel : nat) (toks : list string)
  : option (list (string * expr) * list string) :=
  match fuel with
  | O => None
  | S fuel =>
      match toks with
      | col :: "=" :: rest =>
          if isColumn col then
            match parseExpr rest with
            | Some (e, "," :: rest') =>
                match parseAssignments fuel rest' with
                | Some (as_, rest'') => Some ((col, e) :: as_, rest'')
                | None => None
                end
            | Some (e, rest') => Some ([(col, e)], rest')
            | None => None
            end
          else None
      | _ => None
      end
  end.

Definition parseOrderBy (toks : list string)
  : option (option (string * bool) * list string) :=
  match toks with
  | "order" :: "by" :: col :: rest =>
      if isColumn col then
        match rest with
        | "asc" :: rest' => Some (Some (col, false), rest')
        | "desc" :: rest' => Some (Some (col, true), rest')
        | _ => Some (Some (col, false), rest)
        end
      else None
  | _ => Some (None, toks)
  end.

Definition parseLimitOffset (toks : list string) : option (option (nat * nat)) :=
  match toks with
  | [] => Some None
  | ["limit"; l; "offset"; o] =>
      match parseParam l, parseParam o with
      | Some l, Some o => Some (Some (l, o))
      | _, _ => None
      end
  | _ => None
  end.

Definition parse (text : string) : option statement :=
  let toks := tokens text in
  match toks with
  | "insert" :: "into" :: "users" :: "(" :: rest =>
      match parseColumns rest with
      | Some (cols, "values" :: "(" :: rest') =>
          match parseExprs (List.length rest') rest' with
          | Some (vals, ["returning"; "*"]) =>
              if Nat.eqb (List.length cols) (List.length vals)
              then Some (Insert cols vals) else None
          | _ => None
          end
      | _ => None
      end
  | "select" :: "count" :: "(" :: "*" :: ")" :: "from" :: "users" :: rest =>
      match parseWhere rest with
      | Some (w, []) => Some (Count w)
      | _ => None
      end
  | "select" :: "*" :: "from" :: "users" :: rest =>
      match parseWhere rest with
      | Some (w, rest') =>
          match parseOrderBy rest' with
          | Some (o, rest'') => Select w o <$> parseLimitOffset rest''
          | None => None
          end
      | None => None
      end
  | "update" :: "users" :: "set" :: rest =>
      match parseAssignments (List.length rest) rest with
      | Some (as_, "where" :: rest') =>
          match parseConditions rest' with
          | Some (w, ["returning"; "*"]) => Some (Update as_ w)
          | _ => None
          end
      | _ => None
      end
  | "delete" :: "from" :: "users" :: "where" :: rest =>
      match parseConditions rest with
      | Some (w, ["returning"; "id"]) => Some (Delete w)
      | _ => None
      end
  | _ => None
  end.

(** *** Running a statement *)

Definition bindF {A B : Type} (x : A + failure) (k : A -> B + failure)
  : B + failure :=
  match x with
  | inl a => k a
  | inr e => inr e
  end.

Notation "'let*' x := e 'in' k" := (bindF e (fun x => k))
  (at level 10, x name, e at level 100, k at level 200, only parsing).

Fixpoint mapF {A B : Type} (f : A -> B + failure) (l : list A)
  : list B + failure :=
  match l with
  | [] => inl []
  | a :: l' =>
      let* b := f a in
      let* bs := mapF f l' in
      inl (b :: bs)
  end.

Definition int4 : Z * Z := (- 2 ^ 31, 2 ^ 31 - 1).
Definition int8 : Z * Z := (- 2 ^ 63, 2 ^ 63 - 1).

Definition inRange (range : Z * Z) (z : Z) : option Z + failure :=
  if (fst range <=? z) && (z <=? snd range) then inl (Some z)
  else inr (SqlState "22003").

Fixpoint skipSpaces (s : string) : string :=
  match s with
  | EmptyString => EmptyString
  | String c s' => if isSpace c then skipSpaces s' else s
  end.

(** The value of the leading decimal digits, and what follows them. *)
Fixpoint spanDigits (s : string) (acc : option Z) : option Z * string :=
  match s with
  | EmptyString => (acc, s)
  | String c s' =>
      match digitValue 10 c with
      | Some d => spanDigits s' (Some (10 * default 0 acc + d))
      | None => (acc, s)
      end
  end.

(** The decimal syntax of an integer: optional sign, digits, surrounded by
    optional white space. *)
Definition integerOfString (s : string) : option Z :=
  let s := skipSpaces s in
  let '(sign, ds) :=
    match s with
    | String "-" s' => (-1, s')
    | String "+" s' => (1, s')
    | _ => (1, s)
    end in
  match spanDigits ds None with
  | (Some z, rest) =>
      if String.eqb (skipSpaces rest) "" then Some (sign * z) else None
  | (None, _) => None
  end.

Fixpoint hasNul (s : string) : bool :=
  match s with
  | EmptyString => false
  | String c s' => (code c =? 0)%N || hasNul s'
  end.

(** [LIKE]: [%] stands for any sequence, [_] for any character and a
    backslash makes the next character literal.  [None] when matching
    runs into a pattern that ends in the escape character. *)
Fixpoint like (p : string) : string -> option bool :=
  match p with
  | EmptyString => fun s => Some (String.eqb s "")
  | String c p' =>
      if Ascii.eqb c "%" then
        fix star (s : string) : option bool :=
          match like p' s with
          | Some false =>
              match s with
              | EmptyString => Some false
              | String _ s' => star s'
              end
          | r => r
          end
      else if Ascii.eqb c "_" then
        fun s =>
          match s with
          | EmptyString => Some false
          | String _ s' => like p' s'
          end
      else if Ascii.eqb c "\" then
        match p' with
        | EmptyString => fun _ => None
        | String c' p'' =>
            fun s =>
              match s with
              | EmptyString => Some false
              | String d s' => if Ascii.eqb d c' then like p'' s' else Some false
              end
        end
      else
        fun s =>
          match s with
          | EmptyString => Some false
          | String d s' => if Ascii.eqb d c then like p' s' else Some false
          end
  end.

Definition ilike (text pattern : string) : bool + failure :=
  match like (toLowerCase pattern) (toLowerCase text) with
  | Some b => inl b
  | None => inr (SqlState "22025")
  end.

(** Strictly before, by one column; NULL is the largest value. *)
Definition keyLt (col : string) (a b : row) : bool :=
  if String.eqb col "id" then id a <? id b
  else if String.eqb col "name" then String.ltb (name a) (name b)
  else if String.eqb col "email" then String.ltb (email a) (email b)
  else if String.eqb col "age" then
    match age a, age b with
    | Some x, Some y => x <? y
    | Some _, None => true
    | None, _ => false
    end
  else if String.eqb col "created_at" then created_at a <? created_at b
  else updated_at a <? updated_at b.

Fixpoint insertSorted (lt : row -> row -> bool) (x : row) (l : list row)
  : list row :=
  match l with
  | [] => [x]
  | y :: l' => if lt y x then y :: insertSorted lt x l' else x :: l
  end.

Definition sortRows (order : option (string * bool)) (l : list row) : list row :=
  match order with
  | None => l
  | Some (col, descending) =>
      let lt := if descending then (fun a b => keyLt col b a) else keyLt col in
      foldr (insertSorted lt) [] l
  end.

(** A row while it is being built: every column may still be NULL. *)
Record draft : Type := {
  d_id : option Z;
  d_name : option string;
  d_email : option string;
  d_age : option Z;
  d_created_at : option Z;
  d_updated_at : option Z;
}.

Definition draftOf (r : row) : draft :=
  {| d_id := Some (id r); d_name := Some (name r); d_email := Some (email r);
     d_age := age r; d_created_at := Some (created_at r);
     d_updated_at := Some (updated_at r) |}.

(** [VARCHAR(n)]: excess characters are dropped when they are all spaces. *)
Definition varchar (n : nat) (s : string) : string + failure :=
  if (String.length s <=? n)%nat then inl s
  else if forallb (fun c => Ascii.eqb c " ") (list_ascii_of_string (String.substring n (String.length s - n) s))
       then inl (String.substring 0 n s)
       else inr (SqlState "22001").

(** The column constraints of the schema script, in the order the server applies
    them: length, NOT NULL, CHECK. *)
Definition constrain (d : draft) : row + failure :=
  match d_id d, d_name d, d_email d, d_created_at d, d_updated_at d with
  | Some i, Some n, Some e, Some c, Some u =>
      let* n := varchar 100 n in
      let* e := varchar 255 e in
      if (String.length n <? 2)%nat then inr (SqlState "23514")
      else if match d_age d with
              | Some a => negb ((0 <=? a) && (a <=? 100))
              | None => false
              end then inr (SqlState "23514")
      else inl {| id := i; name := n; email := e; age := d_age d;
                  created_at := c; updated_at := u |}
  | _, _, _, _, _ => inr (SqlState "23502")
  end.

(** [PRIMARY KEY (id)] and [UNIQUE (email)]. *)
Definition unique (rows : list row) : bool :=
  bool_decide (NoDup (id <$> rows)) && bool_decide (NoDup (email <$> rows)).

Definition maxParam (ns : list nat) : nat := foldr Nat.max 0%nat ns.

Definition exprParams (e : expr) : list nat :=
  match e with Param n => [n] | Now => [] end.

Definition statementParams (st : statement) : list nat :=
  match st with
  | Insert _ vals => vals ≫= exprParams
  | Count w => operand <$> w
  | Select w _ lo =>
      ((operand <$> w) ++ match lo with Some (l, o) => [l; o] | None => [] end)%list
  | Update set w => ((set ≫= (fun a => exprParams (snd a))) ++ (operand <$> w))%list
  | Delete w => operand <$> w
  end.

(** The bind message must supply exactly the parameters [$1 .. $n] that
    the statement mentions. *)
Definition checkParams (st : statement) (params : list value) : unit + failure :=
  let ns := statementParams st in
  if bool_decide (0%nat ∈ ns) then inr (SqlState "42P02")
  else if negb (Nat.eqb (List.length params) (maxParam ns)) then inr (SqlState "08P01")
  else if forallb (fun i => bool_decide (i ∈ ns)) (seq 1 (maxParam ns)) then inl tt
  else inr (SqlState "42P18").

(** [LIMIT l OFFSET o]; NULL stands for no limit and for no offset. *)
Definition window (limit offset : option Z) (rows : list row)
  : list row + failure :=
  if default 0 limit <? 0 then inr (SqlState "2201W")
  else if default 0 offset <? 0 then inr (SqlState "2201X")
  else
    let rest := drop (Z.to_nat (default 0 offset)) rows in
    inl (match limit with
         | Some l => take (Z.to_nat l) rest
         | None => rest
         end).

(** What the driver reports; the service never looks inside. *)
Definition describe (f : failure) : exn :=
  match f with
  | ConnectionFailure => Error "connect ECONNREFUSED"
  | SqlState code => Error ("SQLSTATE " ++ code)
  end.

Section Execute.
Context `{Host}.

(** A bound parameter read as an integer of the given range.  The driver
    sends [null] and [undefined] as NULL and everything else as text; the
    text of an array or of an object starts with a brace. *)
Definition pgInteger (range : Z * Z) (v : value) : option Z + failure :=
  match v with
  | VUndefined | VNull => inl None
  | VBoolean _ => inr (SqlState "22P02")
  | VNumber (Fin q) =>
      let r := Qred q in
      if Pos.eqb (Qden r) 1 && (Z.abs (Qnum r) <? 10 ^ 21)
      then inRange range (Qnum r)
      else inr (SqlState "22P02")
  | VNumber _ => inr (SqlState "22P02")
  | VString s =>
      match integerOfString s with
      | Some z => inRange range z
      | None => inr (SqlState "22P02")
      end
  | VArray _ | VObject _ => inr (SqlState "22P02")
  end.

(** A bound parameter read as text.  How the driver writes an array or an
    object is not modelled: the service never binds one (lemmas
    [getUsers_binds], [updateUser_binds] and their like below). *)
Definition pgText (v : value) : option string + failure :=
  match v with
  | VUndefined | VNull => inl None
  | VBoolean b => inl (Some (if b then "true" else "false"))
  | VNumber n => inl (Some (NumberToString n))
  | VString s => if hasNul s then inr (SqlState "22021") else inl (Some s)
  | VArray _ | VObject _ => inr (SqlState "0A000")
  end.

Definition param (params : list value) (n : nat) : value :=
  default VNull (params !! pred n).

(** SQL comparison of integers: unknown ([None]) when a side is NULL. *)
Definition compareInt (o : operator) (a b : option Z) : option bool + failure :=
  match o with
  | ILike => inr (SqlState "42883")
  | Ge => inl (a' ← a; b' ← b; Some (b' <=? a'))
  | Le => inl (a' ← a; b' ← b; Some (a' <=? b'))
  | Eq => inl (a' ← a; b' ← b; Some (a' =? b'))
  end.

Definition compareText (o : operator) (a : string) (b : option string)
  : option bool + failure :=
  match b with
  | None => inl None
  | Some b =>
      match o with
      | ILike => let* m := ilike a b in inl (Some m)
      | Eq => inl (Some (String.eqb a b))
      | Ge => inl (Some (negb (String.ltb a b)))
      | Le => inl (Some (negb (String.ltb b a)))
      end
  end.

(** One condition, with its parameter already converted to the type of
    its column, as a test on rows. *)
Definition compileCondition (params : list value) (c : condition)
  : (row -> option bool + failure) + failure :=
  let v := param params (operand c) in
  if String.eqb (column c) "id" then
    let* z := pgInteger int4 v in
    inl (fun r => compareInt (op c) (Some (id r)) z)
  else if String.eqb (column c) "age" then
    let* z := pgInteger int4 v in
    inl (fun r => compareInt (op c) (age r) z)
  else if String.eqb (column c) "name" then
    let* t := pgText v in
    inl (fun r => compareText (op c) (name r) t)
  else if String.eqb (column c) "email" then
    let* t := pgText v in
    inl (fun r => compareText (op c) (email r) t)
  else inr (SqlState "0A000").

(** Does the row pass all the tests?  Unknown counts as no. *)
Fixpoint passes (tests : list (row -> option bool + failure)) (r : row)
  : bool + failure :=
  match tests with
  | [] => inl true
  | t :: tests' =>
      let* b := t r in
      match b with
      | Some true => passes tests' r
      | _ => inl false
      end
  end.

(** The rows split into those that pass and those that do not, in order. *)
Fixpoint partitionRows (tests : list (row -> option bool + failure))
    (rows : list row) : (list row * list row) + failure :=
  match rows with
  | [] => inl ([], [])
  | r :: rows' =>
      let* b := passes tests r in
      let* rest := partitionRows tests rows' in
      inl (if b then (r :: fst rest, snd rest) else (fst rest, r :: snd rest))
  end.

Definition assign (params : list value) (now : Z) (d : draft)
    (a : string * expr) : draft + failure :=
  let '(col, e) := a in
  match e with
  | Now =>
      if String.eqb col "created_at" then
        inl {| d_id := d_id d; d_name := d_name d; d_email := d_email d;
               d_age := d_age d; d_created_at := Some now;
               d_updated_at := d_updated_at d |}
      else if String.eqb col "updated_at" then
        inl {| d_id := d_id d; d_name := d_name d; d_email := d_email d;
               d_age := d_age d; d_created_at := d_created_at d;
               d_updated_at := Some now |}
      else inr (SqlState "42804")
  | Param n =>
      let v := param params n in
      if String.eqb col "id" then
        let* z := pgInteger int4 v in
        inl {| d_id := z; d_name := d_name d; d_email := d_email d;
               d_age := d_age d; d_created_at := d_created_at d;
               d_updated_at := d_updated_at d |}
      else if String.eqb col "name" then
        let* t := pgText v in
        inl {| d_id := d_id d; d_name := t; d_email := d_email d;
               d_age := d_age d; d_created_at := d_created_at d;
               d_updated_at := d_updated_at d |}
      else if String.eqb col "email" then
        let* t := pgText v in
        inl {| d_id := d_id d; d_name := d_name d; d_email := t;
               d_age := d_age d; d_created_at := d_created_at d;
               d_updated_at := d_updated_at d |}
      else if String.eqb col "age" then
        let* z := pgInteger int4 v in
        inl {| d_id := d_id d; d_name := d_name d; d_email := d_email d;
               d_age := z; d_created_at := d_created_at d;
               d_updated_at := d_updated_at d |}
      else inr (SqlState "0A000")
  end.

Fixpoint assignAll (params : list value) (now : Z) (d : draft)
    (as_ : list (string * expr)) : draft + failure :=
  match as_ with
  | [] => inl d
  | a :: as' =>
      let* d' := assign params now d a in
      assignAll params now d' as'
  end.

(** The trigger [updated_users_updated_at]: [BEFORE UPDATE], for each row. *)
Definition update_updated_at_column (now : Z) (d : draft) : draft :=
  {| d_id := d_id d; d_name := d_name d; d_email := d_email d;
     d_age := d_age d; d_created_at := d_created_at d;
     d_updated_at := Some now |}.

Definition withUsers (db : database) (rows : list row) : database :=
  {| users := rows; users_id_seq := users_id_seq db; now := now db;
     faults := faults db |}.

(** A statement that fails leaves the table as it was. *)
Definition run (st : statement) (params : list value) (db : database)
  : list resultRow * database + failure * database :=
  match checkParams st params with
  | inr e => inr (e, db)
  | inl _ =>
      match st with
      | Count w =>
          match (let* tests := mapF (compileCondition params) w in
                 partitionRows tests (users db)) with
          | inl (yes, _) =>
              inl ([CountRow (pretty (Z.of_nat (List.length yes)))], db)
          | inr e => inr (e, db)
          end
      | Select w order lo =>
          match (let* tests := mapF (compileCondition params) w in
                 let* split := partitionRows tests (users db) in
                 let sorted := sortRows order (fst split) in
                 match lo with
                 | None => inl sorted
                 | Some (l, o) =>
                     let* l := pgInteger int8 (param params l) in
                     let* o := pgInteger int8 (param params o) in
                     window l o sorted
                 end) with
          | inl rows => inl (UserRow <$> rows, db)
          | inr e => inr (e, db)
          end
      | Delete w =>
          match (let* tests := mapF (compileCondition params) w in
                 partitionRows tests (users db)) with
          | inl (yes, no) => inl (IdRow <$> (id <$> yes), withUsers db no)
          | inr e => inr (e, db)
          end
      | Update set w =>
          if negb (bool_decide (NoDup (fst <$> set))) then inr (SqlState "42601", db) else
          match (let* tests := mapF (compileCondition params) w in
                 let change (r : row) : (row * bool) + failure :=
                   let* b := passes tests r in
                   if b then
                     let* d := assignAll params (now db) (draftOf r) set in
                     let* r' := constrain (update_updated_at_column (now db) d) in
                     inl (r', true)
                   else inl (r, false) in
                 let* rows := mapF change (users db) in
                 if unique (fst <$> rows) then inl rows
                 else inr (SqlState "23505")) with
          | inl rows =>
              inl (UserRow <$> (fst <$> filter (fun x => snd x = true) rows),
                   withUsers db (fst <$> rows))
          | inr e => inr (e, db)
          end
      | Insert cols vals =>
          if negb (bool_decide (NoDup cols)) then inr (SqlState "42701", db) else
          let fresh := negb (bool_decide ("id" ∈ cols)) in
          let seq' := if fresh then users_id_seq db + 1 else users_id_seq db in
          let db' := {| users := users db; users_id_seq := seq'; now := now db;
                        faults := faults db |} in
          let start := {| d_id := if fresh then Some seq' else None;
                          d_name := None; d_email := None; d_age := None;
                          d_created_at := Some (now db);
                          d_updated_at := Some (now db) |} in
          match assignAll params (now db) start (zip cols vals) with
          | inr e => inr (e, db)
          | inl d =>
              match (let* r := constrain d in
                     if unique (users db ++ [r]) then inl r
                     else inr (SqlState "23505")) with
              | inl r => inl ([UserRow r], withUsers db' (users db ++ [r]))
              | inr e => inr (e, db')
              end
          end
      end
  end.

(** What [pool.query(text, params)] does to the database. *)
Definition execute (text : string) (params : list value) (db : database)
  : list resultRow * database + failure * database :=
  let db' := {| users := users db; users_id_seq := users_id_seq db;
                now := now db; faults := tail (faults db) |} in
  match faults db with
  | true :: _ => inr (ConnectionFailure, db')
  | _ =>
      match parse text with
      | Some st => run st params db'
      | None => inr (SqlState "0A000", db')
      end
  end.

End Execute.

End Pg.

(** ** Asynchronous methods: state of the world, completions *)

Module UserQueryParams.
Record t : Type := {
  page : option number;
  limit : option number;
  name : option string;
  email : option string;
  minAge : option number;
  maxAge : option number;
  sortBy : option string;
  sortOrder : option string;
}.
End UserQueryParams.

(** The entries of the service layer, as they are called. *)
Inductive call : Type :=
| CreateUser (userData : object)
| GetUsers (queryParams : UserQueryParams.t)
| GetUserById (id : number)
| UpdateUser (id : number) (updateData : object)
| DeleteUser (id : number).

(** The world a request runs in: the database, and two records kept for
    the statements below, of every statement handed to [db.query] and of
    every entry into a service method. *)
Record world : Type := {
  db : Pg.database;
  queries : list (string * list value);
  calls : list call;
}.

Inductive completion (A : Type) : Type :=
| Return (a : A)
| Throw (e : exn).
Arguments Return {A} a.
Arguments Throw {A} e.

Definition M (A : Type) : Type := world -> completion A * world.

Definition ret {A : Type} (a : A) : M A := fun w => (Return a, w).

Definition throw {A : Type} (e : exn) : M A := fun w => (Throw e, w).

Definition bind {A B : Type} (m : M A) (k : A -> M B) : M B :=
  fun w =>
    match m w with
    | (Return a, w') => k a w'
    | (Throw e, w') => (Throw e, w')
    end.

(** [try { m } catch (error) { handler }] *)
Definition try_catch {A : Type} (m : M A) (handler : exn -> M A) : M A :=
  fun w =>
    match m w with
    | (Return a, w') => (Return a, w')
    | (Throw e, w') => handler e w'
    end.

Notation "'let!' x := m 'in' k" := (bind m (fun x => k))
  (at level 10, x name, m at level 100, k at level 200, only parsing).

Definition entered (c : call) : M unit :=
  fun w => (Return tt, {| db := db w; queries := queries w; calls := calls w ++ [c] |}).

(** ** [src/models/User.ts], continued: the response shape *)

Module UserResponse.
(** [created_at] and [updated_at] are the ISO renderings of the instants,
    kept here as the instants. *)
Record t : Type := {
  id : Z;
  name : string;
  email : string;
  age : option Z;
  created_at : Z;
  updated_at : Z;
}.
End UserResponse.

Module Pagination.
Record t : Type := {
  page : number;
  limit : number;
  total : number;
  totalPages : number;
  hasNext : bool;
  hasPrev : bool;
}.
End Pagination.

Module PaginatedUsersResponse.
Record t : Type := {
  users : list UserResponse.t;
  pagination : Pagination.t;
}.
End PaginatedUsersResponse.

(** Reading a property of [undefined], or calling a method of it. *)
Definition cannotRead : exn :=
  Error "Cannot read properties of undefined".

(** [userToResponse(rows[0] as User)]: throws unless there is a full row. *)
Definition userToResponse (user : option Pg.resultRow) : M UserResponse.t :=
  match user with
  | Some (Pg.UserRow user) =>
      ret {| UserResponse.id := Pg.id user;
             UserResponse.name := Pg.name user;
             UserResponse.email := Pg.email user;
             UserResponse.age := Pg.age user;
             UserResponse.created_at := Pg.created_at user;
             UserResponse.updated_at := Pg.updated_at user |}
  | _ => throw cannotRead
  end.

Fixpoint mapM {A B : Type} (f : A -> M B) (l : list A) : M (list B) :=
  match l with
  | [] => ret []
  | a :: l' => let! b := f a in let! bs := mapM f l' in ret (b :: bs)
  end.

Definition lift {A : Type} (r : A + exn) : M A :=
  match r with
  | inl a => ret a
  | inr e => throw e
  end.

(** ** [src/config/database.ts]: [DatabaseConnection.query] *)

Section DatabaseConnection.
Context `{Host}.

Definition db_query (text : string) (params : list value)
  : M (list Pg.resultRow) :=
  fun w =>
    let sent := (queries w ++ [(text, params)])%list in
    match Pg.execute text params (db w) with
    | inl (rows, db') =>
        (Return rows, {| db := db'; queries := sent; calls := calls w |})
    | inr (error, db') =>
        (Throw (Pg.describe error),
         {| db := db'; queries := sent; calls := calls w |})
    end.

End DatabaseConnection.

(** ** [src/services/UserService.ts] *)

Module UserService.

Import USER_VALIDATION.

(** [v || d] on an optional number and on an optional string. *)
Definition numberOr (v : option number) (d : number) : number :=
  match v with
  | Some n => if ToBoolean (VNumber n) then n else d
  | None => d
  end.

Definition stringOr (v : option string) (d : string) : string :=
  match v with
  | Some s => if ToBoolean (VString s) then s else d
  | None => d
  end.

(** [if (v)] on an optional string. *)
Definition given (v : option string) : bool :=
  match v with
  | Some s => ToBoolean (VString s)
  | None => false
  end.

Section UserService.
Context `{Host}.

Definition findUserByEmail (email : value) : M (option Pg.resultRow) :=
  try_catch
    (let query := "SELECT * FROM users WHERE email = $1" in
     let! rows := db_query query [email] in
     ret (if (0 <? List.length rows)%nat then head rows else None))
    (fun _ => ret None).

Definition createUser (userData : object) : M UserResponse.t :=
  let! _ := entered (CreateUser userData) in
  let! sanitizedData := lift (sanitizeUserData userData) in
  let validationErrors := validateUserData sanitizedData false in
  if (0 <? List.length validationErrors)%nat then
    throw (Error ("Validation failed: " ++ join ", " validationErrors))
  else
    let! existingUser :=
      findUserByEmail (or_else (prop sanitizedData "email") (VString "")) in
    match existingUser with
    | Some _ => throw (Error "User with this email already exists")
    | None =>
        try_catch
          (let query := "
        INSERT INTO users (name, email, age, created_at, updated_at)
        VALUES ($1, $2, $3, NOW(), NOW())
        RETURNING *
        " in
           let values := [prop sanitizedData "name";
                          prop sanitizedData "email";
                          or_else (prop sanitizedData "age") VNull] in
           let! rows := db_query query values in
           userToResponse (head rows))
          (fun _ => throw (Error "Failed to create user"))
    end.

(** The constants that [getUsers] computes before it talks to the
    database, under the names they have there. *)
Definition getUsers_page (queryParams : UserQueryParams.t) : number :=
  Math_max (int 1)
    (numberOr (UserQueryParams.page queryParams) (int DEFAULT_PAGE)).

Definition getUsers_limit (queryParams : UserQueryParams.t) : number :=
  Math_min (int MAX_LIMIT)
    (Math_max (int 1)
       (numberOr (UserQueryParams.limit queryParams) (int DEFAULT_LIMIT))).

Definition getUsers_offset (queryParams : UserQueryParams.t) : number :=
  mul (sub (getUsers_page queryParams) (int 1)) (getUsers_limit queryParams).

(** [whereConditions], [queryValues] and [paramIndex] after the four
    [if] blocks. *)
Definition getUsers_filters (queryParams : UserQueryParams.t)
  : list string * list value * Z :=
  let '(whereConditions, queryValues, paramIndex) :=
    (@nil string, @nil value, 1) in
  let '(whereConditions, queryValues, paramIndex) :=
    if given (UserQueryParams.name queryParams) then
      (push whereConditions ("name ILIKE $" ++ pretty paramIndex),
       push queryValues (VString ("%" ++ default "" (UserQueryParams.name queryParams) ++ "%")),
       paramIndex + 1)
    else (whereConditions, queryValues, paramIndex) in
  let '(whereConditions, queryValues, paramIndex) :=
    if given (UserQueryParams.email queryParams) then
      (push whereConditions ("email ILIKE $" ++ pretty paramIndex),
       push queryValues (VString ("%" ++ default "" (UserQueryParams.email queryParams) ++ "%")),
       paramIndex + 1)
    else (whereConditions, queryValues, paramIndex) in
  let '(whereConditions, queryValues, paramIndex) :=
    match UserQueryParams.minAge queryParams with
    | Some minAge =>
      (push whereConditions ("age >= $" ++ pretty paramIndex),
       push queryValues (VString ("%" ++ NumberToString minAge ++ "%")),
       paramIndex + 1)
    | None => (whereConditions, queryValues, paramIndex)
    end in
  let '(whereConditions, queryValues, paramIndex) :=
    match UserQueryParams.maxAge queryParams with
    | Some maxAge =>
      (push whereConditions ("age <= $" ++ pretty paramIndex),
       push queryValues (VString ("%" ++ NumberToString maxAge ++ "%")),
       paramIndex + 1)
    | None => (whereConditions, queryValues, paramIndex)
    end in
  (whereConditions, queryValues, paramIndex).

Definition getUsers_whereConditions (queryParams : UserQueryParams.t) : list string :=
  fst (fst (getUsers_filters queryParams)).

Definition getUsers_queryValues (queryParams : UserQueryParams.t) : list value :=
  snd (fst (getUsers_filters queryParams)).

Definition getUsers_paramIndex (queryParams : UserQueryParams.t) : Z :=
  snd (getUsers_filters queryParams).

Definition getUsers_whereClause (queryParams : UserQueryParams.t) : string :=
  let whereConditions := getUsers_whereConditions queryParams in
  if (0 <? List.length whereConditions)%nat
  then "WHERE " ++ join " AND " whereConditions
  else "".

Definition getUsers_orderByClause (queryParams : UserQueryParams.t) : string :=
  let sortBy := stringOr (UserQueryParams.sortBy queryParams) "created_at" in
  let sortOrder := stringOr (UserQueryParams.sortOrder queryParams) "DESC" in
  "ORDER BY " ++ sortBy ++ " " ++ sortOrder.

Definition getUsers_countQuery (queryParams : UserQueryParams.t) : string :=
  "SELECT COUNT(*) FROM users " ++ getUsers_whereClause queryParams.

Definition getUsers_usersQuery (queryParams : UserQueryParams.t) : string :=
  let paramIndex := getUsers_paramIndex queryParams in
  "
        SELECT * FROM users
        " ++ getUsers_whereClause queryParams ++ "
        " ++ getUsers_orderByClause queryParams ++ "
        LIMIT $" ++ pretty paramIndex ++ " OFFSET $" ++ pretty (paramIndex + 1) ++ "
        ".

Definition getUsers_usersValues (queryParams : UserQueryParams.t) : list value :=
  (getUsers_queryValues queryParams
     ++ [VNumber (getUsers_limit queryParams);
         VNumber (getUsers_offset queryParams)])%list.

Definition getUsers (queryParams : UserQueryParams.t)
  : M PaginatedUsersResponse.t :=
  let! _ := entered (GetUsers queryParams) in
  let page := getUsers_page queryParams in
  let limit := getUsers_limit queryParams in
  try_catch
    (let! countResult :=
       db_query (getUsers_countQuery queryParams)
                (getUsers_queryValues queryParams) in
     let! total :=
       match head countResult with
       | Some (Pg.CountRow count) => ret (parseInt count)
       | Some _ => ret NaN
       | None => throw cannotRead
       end in
     let! usersResult :=
       db_query (getUsers_usersQuery queryParams)
                (getUsers_usersValues queryParams) in
     let totalPages := Math_ceil (div total limit) in
     let hasNext := lt page totalPages in
     let hasPrev := gt page (int 1) in
     let! users := mapM (fun user => userToResponse (Some user)) usersResult in
     ret {| PaginatedUsersResponse.users := users;
            PaginatedUsersResponse.pagination :=
              {| Pagination.page := page;
                 Pagination.limit := limit;
                 Pagination.total := total;
                 Pagination.totalPages := totalPages;
                 Pagination.hasNext := hasNext;
                 Pagination.hasPrev := hasPrev |} |})
    (fun _ => throw (Error "Failed to fetch users")).

(** [!id || id <= 0] *)
Definition invalidId (id : number) : bool :=
  negb (ToBoolean (VNumber id)) || le id (int 0).

Definition getUserById (id : number) : M (option UserResponse.t) :=
  let! _ := entered (GetUserById id) in
  if invalidId id then throw (Error "Invalid user ID")
  else
    try_catch
      (let query := "SELECT * FROM users WHERE id = $1" in
       let! rows := db_query query [VNumber id] in
       if (List.length rows =? 0)%nat then ret None
       else
         let! user := userToResponse (head rows) in
         ret (Some user))
      (fun _ => throw (Error "Failed to fetch user")).

(** [updateFields], [values] and [paramIndex] when the statement is put
    together. *)
Definition updateUser_fields (id : number) (sanitizedData : object)
  : list string * list value * Z :=
  let '(updateFields, values, paramIndex) :=
    (@nil string, @nil value, 1) in
  let '(updateFields, values, paramIndex) :=
    if negb (isUndefined (prop sanitizedData "name")) then
      (push updateFields ("name = $" ++ pretty paramIndex),
       push values (prop sanitizedData "name"),
       paramIndex + 1)
    else (updateFields, values, paramIndex) in
  let '(updateFields, values, paramIndex) :=
    if negb (isUndefined (prop sanitizedData "email")) then
      (push updateFields ("email = $" ++ pretty paramIndex),
       push values (prop sanitizedData "email"),
       paramIndex + 1)
    else (updateFields, values, paramIndex) in
  let '(updateFields, values, paramIndex) :=
    if negb (isUndefined (prop sanitizedData "age")) then
      (push updateFields ("age = $" ++ pretty paramIndex),
       push values (prop sanitizedData "age"),
       paramIndex + 1)
    else (updateFields, values, paramIndex) in
  let updateFields := push updateFields "updated_at = NOW()" in
  let values := push values (VNumber id) in
  (updateFields, values, paramIndex).

Definition updateUser_query (id : number) (sanitizedData : object) : string :=
  let '(updateFields, _, paramIndex) := updateUser_fields id sanitizedData in
  "
        UPDATE users
        SET " ++ join ", " updateFields ++ "
        WHERE id = $" ++ pretty paramIndex ++ "
        RETURNING *
      ".

Definition updateUser_values (id : number) (sanitizedData : object) : list value :=
  snd (fst (updateUser_fields id sanitizedData)).

(** The pre-check of [updateUser] when the email changes. *)
Definition updateUser_emailCheck (sanitizedData : object)
    (existingUser : UserResponse.t) : M unit :=
  let email := prop sanitizedData "email" in
  if ToBoolean email
     && negb (strictEquals email (VString (UserResponse.email existingUser)))
  then
    let! emailExists := findUserByEmail email in
    match emailExists with
    | Some _ => throw (Error "User with this email already exists")
    | None => ret tt
    end
  else ret tt.

Definition updateUser (id : number) (updateData : object)
  : M (option UserResponse.t) :=
  let! _ := entered (UpdateUser id updateData) in
  if invalidId id then throw (Error "Invalid user ID")
  else
    let! sanitizedData := lift (sanitizeUserData updateData) in
    let validationErrors := validateUserData sanitizedData true in
    if (0 <? List.length validationErrors)%nat then
      throw (Error ("Validation failed: " ++ join ", " validationErrors))
    else
      let! existingUser := getUserById id in
      match existingUser with
      | None => ret None
      | Some existingUser =>
          let! _ := updateUser_emailCheck sanitizedData existingUser in
          try_catch
            (let! rows :=
               db_query (updateUser_query id sanitizedData)
                        (updateUser_values id sanitizedData) in
             if (List.length rows =? 0)%nat then ret None
             else
               let! updatedUser := userToResponse (head rows) in
               ret (Some updatedUser))
            (fun _ => throw (Error "Failed to update user"))
      end.

Definition deleteUser (id : number) : M bool :=
  let! _ := entered (DeleteUser id) in
  if invalidId id then throw (Error "Invalid user ID")
  else
    try_catch
      (let query := "DELETE FROM users WHERE id = $1 RETURNING id" in
       let! rows := db_query query [VNumber id] in
       if (List.length rows =? 0)%nat then ret false
       else ret true)
      (fun _ => throw (Error "Failed to delete user")).

End UserService.

End UserService.

(** ** [src/routes/userRoutes.ts] *)

Module userRoutes.

Import UserService.

(** What a handler reads of the request: the query string, the route
    parameters, and the parsed JSON body. *)
Record Request : Type := {
  query : gmap string string;
  params : gmap string string;
  body : object;
}.

Inductive Data : Type :=
| Listed (result : PaginatedUsersResponse.t)
| OneUser (user : UserResponse.t)
| OneId (id : number).

(** The three shapes of [res.json(...)]. *)
Inductive Json : Type :=
| Succeeded (message : string) (data : Data)
| Failed (message : string) (error : string)
| Missing (message : string) (errors : list string).

Record Response : Type := {
  status : Z;
  json : Json;
}.

Definition respond (status : Z) (json : Json) : M Response :=
  ret {| status := status; json := json |}.

(** [req.query.k ? parseInt(req.query.k) : undefined] *)
Definition parsed (req : Request) (k : string) : option number :=
  if given (query req !! k) then parseInt <$> query req !! k else None.

Section Handlers.
Context `{Host}.

(** [router.get('/')] *)
Definition listUsers (req : Request) : M Response :=
  try_catch
    (let queryParams :=
       {| UserQueryParams.page := parsed req "page";
          UserQueryParams.limit := parsed req "limit";
          UserQueryParams.name := query req !! "name";
          UserQueryParams.email := query req !! "email";
          UserQueryParams.minAge := parsed req "minAge";
          UserQueryParams.maxAge := parsed req "maxAge";
          UserQueryParams.sortBy := query req !! "sortBy";
          UserQueryParams.sortOrder := query req !! "sortOrder" |} in
     let! result := getUsers queryParams in
     respond 200 (Succeeded "Users retrieved successfully" (Listed result)))
    (fun error =>
       respond 500 (Failed "Internal server error" (message error))).

(** The [catch] block shared by [POST] and [PUT]. *)
Definition mutationFailed (error : exn) : M Response :=
  if includes (message error) "Validation failed" then
    respond 400 (Failed "Validation failed" (message error))
  else if includes (message error) "already exists" then
    respond 409 (Failed "User with this email already exists" (message error))
  else
    respond 500 (Failed "Internal server error" (message error)).

(** [router.post('/')] *)
Definition postUser (req : Request) : M Response :=
  try_catch
    (let userData := body req in
     if negb (ToBoolean (prop userData "name"))
        || negb (ToBoolean (prop userData "email"))
     then
       respond 400
         (Missing "Name and email are required"
            (List.filter (fun field => negb (ToBoolean (prop userData field)))
               ["name"; "email"]))
     else
       let! newUser := createUser userData in
       respond 201 (Succeeded "User created successfully" (OneUser newUser)))
    mutationFailed.

(** [isNaN(userId) || userId <= 0] *)
Definition rejectedId (userId : number) : bool :=
  isNaN userId || le userId (int 0).

Definition invalidUserId : M Response :=
  respond 400
    (Failed "Invalid user ID. Must be a positive integer." "INVALID_USER_ID").

Definition userNotFound : M Response :=
  respond 404 (Failed "User not found" "USER_NOT_FOUND").

Definition internalError (error : exn) : M Response :=
  respond 500 (Failed "Internal server error" (message error)).

(** [req.params.id] *)
Definition idParam (req : Request) : string :=
  default "undefined" (params req !! "id").

(** [router.get('/:id')] *)
Definition getUser (req : Request) : M Response :=
  try_catch
    (let userId := parseInt (idParam req) in
     if rejectedId userId then invalidUserId
     else
       let! user := getUserById userId in
       match user with
       | None => userNotFound
       | Some user =>
           respond 200 (Succeeded "User retrieved successfully" (OneUser user))
       end)
    internalError.

(** [router.put('/:id')] *)
Definition putUser (req : Request) : M Response :=
  try_catch
    (let userId := parseInt (idParam req) in
     if rejectedId userId then invalidUserId
     else
       let updateData := body req in
       if (size updateData =? 0)%nat then
         respond 400
           (Failed "At least one field must be provided for update"
              "NO_UPDATE_FIELDS")
       else
         let! updatedUser := updateUser userId updateData in
         match updatedUser with
         | None => userNotFound
         | Some updatedUser =>
             respond 200
               (Succeeded "User updated successfully" (OneUser updatedUser))
         end)
    mutationFailed.

(** [router.delete('/:id')] *)
Definition deleteUserRoute (req : Request) : M Response :=
  try_catch
    (let userId := parseInt (idParam req) in
     if rejectedId userId then invalidUserId
     else
       let! deleted := deleteUser userId in
       if negb deleted then userNotFound
       else
         respond 200 (Succeeded "User deleted successfully" (OneId userId)))
    internalError.

End Handlers.

End userRoutes.

(** ** [src/utils/logger.ts] *)

Module LogLevel.
Definition ERROR : Z := 0.
Definition WARN : Z := 1.
Definition INFO : Z := 2.
Definition DEBUG : Z := 3.
End LogLevel.

(** [process.env.NODE_ENV === name]; the variable may be unset. *)
Definition envIs (NODE_ENV : option string) (name : string) : bool :=
  match NODE_ENV with
  | Some v => String.eqb v name
  | None => false
  end.

Module logger.

Module config.
Record t : Type := {
  level : Z;
  includeTimestamp : bool;
  useColors : bool;
}.
End config.

(** [config] as it is when the module has been loaded. *)
Definition initial (NODE_ENV : option string) : config.t :=
  {| config.level :=
       if envIs NODE_ENV "production" then LogLevel.INFO else LogLevel.DEBUG;
     config.includeTimestamp := true;
     config.useColors := negb (envIs NODE_ENV "production") |}.

Module colors.
Definition reset : string := String "027" "[0m".
Definition bright : string := String "027" "[1m".
Definition dim : string := String "027" "[2m".
Definition red : string := String "027" "[31m".
Definition green : string := String "027" "[32m".
Definition yellow : string := String "027" "[33m".
Definition cyan : string := String "027" "[36m".
End colors.

(** The methods of [console] that the logger calls. *)
Inductive channel : Type :=
| console_error
| console_warn
| console_info
| console_debug
| console_log.

(** What is handed to the console: a text, or the function
    [formatMessage] itself. *)
Inductive printed : Type :=
| Text (text : string)
| FormatMessage.

(** The configuration, which [setLevel] changes, and what has been
    written so far. *)
Record state : Type := {
  cfg : config.t;
  console : list (channel * printed);
}.

Definition getColorForLevel (cfg : config.t) (level : Z) : string :=
  if negb (config.useColors cfg) then ""
  else if level =? LogLevel.ERROR then colors.red
  else if level =? LogLevel.WARN then colors.yellow
  else if level =? LogLevel.INFO then colors.green
  else if level =? LogLevel.DEBUG then colors.cyan
  else colors.bright.

Definition getLevelName (level : Z) : string :=
  if level =? LogLevel.ERROR then "ERROR"
  else if level =? LogLevel.WARN then "WARN"
  else if level =? LogLevel.INFO then "INFO"
  else if level =? LogLevel.DEBUG then "DEBUG"
  else "UNKNOWN".

Section Log.
(** The data logged, [JSON.stringify(data, null, 2)] on it, and the text
    that a template literal makes of the method [toISOString]. *)
Context {Data : Type} (JSON_stringify : Data -> string) (nativeCode : string).

(** [timestamp] is the method itself, never called, or [''];
    [logMessage] is assigned, not appended to, after the time stamp. *)
Definition formatMessage (cfg : config.t) (level : Z) (message : string)
    (data : option Data) : string :=
  let timestamp :=
    if config.includeTimestamp cfg then Some nativeCode else None in
  let levelName := getLevelName level in
  let color := getColorForLevel cfg level in
  let reset := if config.useColors cfg then colors.reset else "" in
  let logMessage := "" in
  let logMessage :=
    match timestamp with
    | Some timestamp =>
        logMessage ++ colors.dim ++ "[" ++ timestamp ++ "]" ++ reset ++ " "
    | None => logMessage
    end in
  let logMessage :=
    color ++ colors.bright ++ "[" ++ levelName ++ "]" ++ reset ++ " " ++ message in
  let logMessage :=
    match data with
    | Some data => " " ++ colors.dim ++ JSON_stringify data ++ reset
    | None => logMessage
    end in
  logMessage.

Definition write (c : channel) (p : printed) (s : state) : state :=
  {| cfg := cfg s; console := console s ++ [(c, p)] |}.

Definition log (level : Z) (message : string) (data : option Data)
    (s : state) : state :=
  if config.level (cfg s) <? level then s
  else
    let formattedMessage := formatMessage (cfg s) level message data in
    if level =? LogLevel.ERROR then write console_error (Text formattedMessage) s
    else if level =? LogLevel.WARN then write console_warn (Text formattedMessage) s
    else if level =? LogLevel.INFO then write console_info (Text formattedMessage) s
    else if level =? LogLevel.DEBUG then write console_debug (Text formattedMessage) s
    else write console_log FormatMessage s.

Definition error (message : string) (data : option Data) : state -> state :=
  log LogLevel.ERROR message data.

Definition warn (message : string) (data : option Data) : state -> state :=
  log LogLevel.WARN message data.

Definition info (message : string) (data : option Data) : state -> state :=
  log LogLevel.INFO message data.

Definition debug (message : string) (data : option Data) : state -> state :=
  log LogLevel.DEBUG message data.

End Log.

Definition setLevel (level : Z) (s : state) : state :=
  {| cfg := {| config.level := level;
               config.includeTimestamp := config.includeTimestamp (cfg s);
               config.useColors := config.useColors (cfg s) |};
     console := console s |}.

Definition getLevel (s : state) : Z := config.level (cfg s).

Definition isLevelEnabled (level : Z) (s : state) : bool :=
  level <=? config.level (cfg s).

End logger.

(** ** [src/middleware/errorHandler.ts] *)

Module AppError.
Record t : Type := {
  message : string;
  stack : option string;
  statusCode : option number;
  isOperational : option bool;
}.
End AppError.

(** The object that [errorHandler] logs. *)
Module ErrorLog.
Record t : Type := {
  message : string;
  stack : option string;
  url : string;
  method : string;
}.
End ErrorLog.

(** The body that [errorHandler] sends; [timeStamp] is the ISO rendering
    of an instant, kept here as the instant. *)
Module ErrorResponse.
Record t : Type := {
  success : bool;
  message : string;
  timeStamp : Z;
  path : string;
  method : string;
  stack : option string;
  error : option AppError.t;
}.
End ErrorResponse.

Module errorHandler.

(** What the middleware reads of the request. *)
Record Request : Type := {
  url : string;
  method : string;
  originalUrl : string;
}.

Section ErrorHandler.
(** [JSON.stringify] on the logged object, the text of [toISOString] in a
    template literal, and the stack that [new Error(message)] captures. *)
Context (JSON_stringify : ErrorLog.t -> string) (nativeCode : string)
        (captureStack : string -> string).

(** [res.status(statusCode).json(errorResponse)], with the clock at [now]. *)
Definition errorHandler (NODE_ENV : option string) (now : Z)
    (error : AppError.t) (req : Request) (s : logger.state)
  : logger.state * (number * ErrorResponse.t) :=
  let s :=
    logger.error JSON_stringify nativeCode "Error occurred:"
      (Some {| ErrorLog.message := AppError.message error;
               ErrorLog.stack := AppError.stack error;
               ErrorLog.url := url req;
               ErrorLog.method := method req |}) s in
  let statusCode := UserService.numberOr (AppError.statusCode error) (int 500) in
  let isOperational := default false (AppError.isOperational error) in
  let errorResponse :=
    {| ErrorResponse.success := false;
       ErrorResponse.message :=
         if ToBoolean (VString (AppError.message error))
         then AppError.message error else "Internal Server Error";
       ErrorResponse.timeStamp := now;
       ErrorResponse.path := url req;
       ErrorResponse.method := method req;
       ErrorResponse.stack := None;
       ErrorResponse.error := None |} in
  let errorResponse :=
    if envIs NODE_ENV "development" then
      {| ErrorResponse.success := ErrorResponse.success errorResponse;
         ErrorResponse.message := ErrorResponse.message errorResponse;
         ErrorResponse.timeStamp := ErrorResponse.timeStamp errorResponse;
         ErrorResponse.path := ErrorResponse.path errorResponse;
         ErrorResponse.method := ErrorResponse.method errorResponse;
         ErrorResponse.stack := AppError.stack error;
         ErrorResponse.error := Some error |}
    else errorResponse in
  let errorResponse :=
    if envIs NODE_ENV "production" then
      {| ErrorResponse.success := ErrorResponse.success errorResponse;
         ErrorResponse.message :=
           if isOperational then AppError.message error
           else "Something went wrong";
         ErrorResponse.timeStamp := ErrorResponse.timeStamp errorResponse;
         ErrorResponse.path := ErrorResponse.path errorResponse;
         ErrorResponse.method := ErrorResponse.method errorResponse;
         ErrorResponse.stack := ErrorResponse.stack errorResponse;
         ErrorResponse.error := ErrorResponse.error errorResponse |}
    else errorResponse in
  (s, (statusCode, errorResponse)).

(** [statusCode: number = 500]: the default stands in for [undefined]. *)
Definition createError (message : string) (statusCode : option number)
  : AppError.t :=
  {| AppError.message := message;
     AppError.stack := Some (captureStack message);
     AppError.statusCode := Some (default (int 500) statusCode);
     AppError.isOperational := Some true |}.


Definition handleValidationError (errors : list string) : AppError.t :=
  let error := createError "Validation failed" (Some (int 400)) in
  {| AppError.message := join ", " errors;
     AppError.stack := AppError.stack error;
     AppError.statusCode := AppError.statusCode error;
     AppError.isOperational := AppError.isOperational error |}.

(** The error that [notFoundHandler] hands to [next]. *)
Definition notFoundHandler (req : Request) : AppError.t :=
  createError ("Route " ++ originalUrl req ++ " not found") (Some (int 404)).

End ErrorHandler.

End errorHandler.

(** ** A host and a database to run examples on *)

Module Example.

(** [Number(s)] on decimal integers, [NaN] on everything this host does
    not read; a fraction is printed with its first digits.  The theorems
    below hold for every host; this one only serves to run the code. *)
Definition readInteger (s : string) : number :=
  if String.eqb (trim s) "" then int 0
  else match Pg.integerOfString s with
       | Some z => int z
       | None => NaN
       end.

Definition printFraction (q : Q) : string :=
  let whole := Qfloor q in
  let thousandths := Qfloor ((q - inject_Z whole) * 1000) in
  pretty whole ++ "." ++ pretty thousandths.

#[export] Instance host : Host :=
  {| StringToNumber := readInteger; FractionToString := printFraction |}.

(** The rows that the schema script inserts, at instant 1000. *)
Definition sampleUsers : list Pg.row :=
  [ {| Pg.id := 1; Pg.name := "John Doe"; Pg.email := "john@john.com";
       Pg.age := Some 30; Pg.created_at := 1000; Pg.updated_at := 1000 |};
    {| Pg.id := 2; Pg.name := "Jane Smith"; Pg.email := "jane@jane.com";
       Pg.age := Some 25; Pg.created_at := 1000; Pg.updated_at := 1000 |};
    {| Pg.id := 3; Pg.name := "Bob Bobertson"; Pg.email := "bob@bob.com";
       Pg.age := Some 35; Pg.created_at := 1000; Pg.updated_at := 1000 |} ].

Definition sampleDb : Pg.database :=
  {| Pg.users := sampleUsers; Pg.users_id_seq := 3; Pg.now := 2000;
     Pg.faults := [] |}.

Definition sampleWorld : world :=
  {| db := sampleDb; queries := []; calls := [] |}.

Definition request (query : list (string * string)) (id : option string)
    (body : list (string * value)) : userRoutes.Request :=
  {| userRoutes.query := list_to_map query;
     userRoutes.params := match id with
                          | Some id => {[ "id" := id ]}
                          | None => ∅
                          end;
     userRoutes.body := list_to_map body |}.

End Example.

(** ** Vocabulary of the statements *)

(** A string that does not begin with white space. *)
Definition startsClean (s : string) : Prop :=
  match s with
  | EmptyString => True
  | String c _ => isWhiteSpace c = false
  end.

(** A field that a further pass of [sanitizeUserData] leaves alone. *)
Definition nameSettled (o : object) : Prop :=
  forall v, o !! "name" = Some v -> ToBoolean v = true ->
    exists s, v = VString s /\ trim s = s.

Definition emailSettled (o : object) : Prop :=
  forall v, o !! "email" = Some v -> ToBoolean v = true ->
    exists s, v = VString s /\ toLowerCase (trim s) = s.

Definition ageSettled (o : object) : Prop :=
  forall v, o !! "age" = Some v -> ToBoolean v = true ->
    exists n, v = VNumber n /\ Math_floor n = n.

(** The creation input of the scenario in the specification. *)
Definition annLee : object :=
  {[ "name" := VString "Ann Lee";
     "email" := VString "ANN@Example.com ";
     "age" := VNumber (int 29) ]}.

(** The test [id = z] on rows. *)
Definition idIs (z : Z) : Pg.row -> option bool + Pg.failure :=
  fun r => Pg.compareInt Pg.Eq (Some (Pg.id r)) (Some z).

(** The two answers of the handlers that the statements name. *)
Definition userNotFoundResponse : userRoutes.Response :=
  {| userRoutes.status := 404;
     userRoutes.json := userRoutes.Failed "User not found" "USER_NOT_FOUND" |}.

Definition invalidUserIdResponse : userRoutes.Response :=
  {| userRoutes.status := 400;
     userRoutes.json :=
       userRoutes.Failed "Invalid user ID. Must be a positive integer."
         "INVALID_USER_ID" |}.

(** A path id that is a positive integer, written in decimal: this is how
    the specification words the ids that are let through. *)
Definition isPositiveInteger (id : string) : bool :=
  negb (String.eqb id "") && Pg.allDigits id
  && (0 <? default 0 (digits 10 id None)).

(** [v !== undefined] on an optional number. *)
Definition defined (v : option number) : bool :=
  match v with Some _ => true | None => false end.

(** The sort fields are of the type that [UserQueryParams] declares. *)
Definition declaredSort (q : UserQueryParams.t) : Prop :=
  UserQueryParams.sortBy q
    ∈ [None; Some "name"; Some "email"; Some "age"; Some "created_at"]
  /\ UserQueryParams.sortOrder q ∈ [None; Some "ASC"; Some "DESC"].

(** Two list requests that supply the same fields, with any values. *)
Definition sameFields (p q : UserQueryParams.t) : Prop :=
  defined (UserQueryParams.page p) = defined (UserQueryParams.page q)
  /\ defined (UserQueryParams.limit p) = defined (UserQueryParams.limit q)
  /\ UserService.given (UserQueryParams.name p)
     = UserService.given (UserQueryParams.name q)
  /\ UserService.given (UserQueryParams.email p)
     = UserService.given (UserQueryParams.email q)
  /\ defined (UserQueryParams.minAge p) = defined (UserQueryParams.minAge q)
  /\ defined (UserQueryParams.maxAge p) = defined (UserQueryParams.maxAge q)
  /\ UserService.given (UserQueryParams.sortBy p)
     = UserService.given (UserQueryParams.sortBy q)
  /\ UserService.given (UserQueryParams.sortOrder p)
     = UserService.given (UserQueryParams.sortOrder q).

Definition listRequest (page limit : option number) (name email : option string)
    (minAge maxAge : option number) (sortBy sortOrder : option string)
  : UserQueryParams.t :=
  {| UserQueryParams.page := page; UserQueryParams.limit := limit;
     UserQueryParams.name := name; UserQueryParams.email := email;
     UserQueryParams.minAge := minAge; UserQueryParams.maxAge := maxAge;
     UserQueryParams.sortBy := sortBy; UserQueryParams.sortOrder := sortOrder |}.

(** The list scenario of the specification:
    [minAge=30&maxAge=40&sortBy=age&sortOrder=ASC]. *)
Definition byAge : UserQueryParams.t :=
  listRequest None None None None (Some (int 30)) (Some (int 40))
    (Some "age") (Some "ASC").

(** The rows of the table satisfy the column constraints of the schema
    script. *)
Definition wellFormed (db : Pg.database) : Prop :=
  Forall (fun r => Pg.constrain (Pg.draftOf r) = inl r) (Pg.users db).

(** The fields of a sanitized payload that are defined, in the order in
    which [updateUser] looks at them, and the SET clause they make. *)
Definition presentFields (sanitizedData : object) : list string :=
  List.filter (fun field => negb (isUndefined (prop sanitizedData field)))
    ["name"; "email"; "age"].

Definition setClause (sanitizedData : object) : list string :=
  push (imap (fun i field => field ++ " = $" ++ pretty (Z.of_nat i + 1))
          (presentFields sanitizedData))
       "updated_at = NOW()".

(** The database a statement leaves behind, whether it succeeds or fails. *)
Definition after {A B : Type} (r : A * Pg.database + B * Pg.database)
  : Pg.database :=
  match r with
  | inl (_, d) | inr (_, d) => d
  end.

(** The answer that carries a row. *)
Definition responseOf (user : Pg.row) : UserResponse.t :=
  {| UserResponse.id := Pg.id user; UserResponse.name := Pg.name user;
     UserResponse.email := Pg.email user; UserResponse.age := Pg.age user;
     UserResponse.created_at := Pg.created_at user;
     UserResponse.updated_at := Pg.updated_at user |}.

Definition hasId (z : Z) (r : Pg.row) : bool := Pg.id r =? z.

Definition hasEmail (e : string) (r : Pg.row) : bool := String.eqb (Pg.email r) e.

(** A row before and after an update with the payload [updateData] at the
    instant [now]: the id and the instant of creation are kept, the instant
    of the last update is [now], and a field that the payload omits is
    kept. *)
Definition refreshed (updateData : object) (now : Z) (before after : Pg.row)
  : Prop :=
  Pg.id after = Pg.id before
  /\ Pg.created_at after = Pg.created_at before
  /\ Pg.updated_at after = now
  /\ (updateData !! "name" = None -> Pg.name after = Pg.name before)
  /\ (updateData !! "email" = None -> Pg.email after = Pg.email before)
  /\ (updateData !! "age" = None -> Pg.age after = Pg.age before).

(** The next [n] statements reach the server. *)
Definition reaches (n : nat) (w : world) : Prop :=
  Forall (fun fault => fault = false) (take n (Pg.faults (db w))).

(** The database once a statement has reached it. *)
Definition next (d : Pg.database) : Pg.database :=
  {| Pg.users := Pg.users d; Pg.users_id_seq := Pg.users_id_seq d;
     Pg.now := Pg.now d; Pg.faults := tail (Pg.faults d) |}.

(** The world after [db.query(text, params)] has left the database as [d]. *)
Definition sent (text : string) (params : list value) (d : Pg.database)
    (w : world) : world :=
  {| db := d; queries := queries w ++ [(text, params)]; calls := calls w |}.

Definition called (c : call) (w : world) : world :=
  {| db := db w; queries := queries w; calls := calls w ++ [c] |}.

(** A field that is absent, or a string whose length is within bounds. *)
Definition absentOrText (o : object) (k : string) (lo hi : Z) : Prop :=
  match o !! k with
  | None => True
  | Some (VString s) => lo <= str_length s <= hi
  | Some _ => False
  end.

(** The column a list request sorts by, and whether it sorts downwards. *)
Definition ordering (q : UserQueryParams.t) : string * bool :=
  (UserService.stringOr (UserQueryParams.sortBy q) "created_at",
   String.eqb (UserService.stringOr (UserQueryParams.sortOrder q) "DESC") "DESC").

(** What [ORDER BY] compares in the two declared columns that hold
    numbers, the age and the instant of creation; [None] is NULL. *)
Definition sortKey (column : string) (r : Pg.row) : option Z :=
  if String.eqb column "age" then Pg.age r else Some (Pg.created_at r).

(** In ascending order [a] may stand before [b]: NULL counts as the
    largest value. *)
Definition notAfter (a b : option Z) : Prop :=
  match a, b with
  | Some x, Some y => x <= y
  | _, None => True
  | None, Some _ => False
  end.

(** The rows are in the order asked for, as far as SQL settles it.  By
    age and by instant of creation every row stands before the rows whose
    key comes after its own; rows with the same key may stand in any
    order.  Nothing is said of the order by name or by email, which is
    that of the collation of the database. *)
Definition inOrder (order : string * bool) (rows : list Pg.row) : Prop :=
  fst order ∈ ["age"; "created_at"] ->
  StronglySorted
    (fun a b =>
       if snd order
       then notAfter (sortKey (fst order) b) (sortKey (fst order) a)
       else notAfter (sortKey (fst order) a) (sortKey (fst order) b))
    rows.

(** The rows of one page. *)
Definition pageOf {A : Type} (page limit : Z) (rows : list A) : list A :=
  take (Z.to_nat limit) (drop (Z.to_nat ((page - 1) * limit)) rows).

(** The row that an update of the name and of the email leaves. *)
Definition updated (s : object) (now : Z) (r : Pg.row) : Pg.row :=
  {| Pg.id := Pg.id r;
     Pg.name := match s !! "name" with
                | Some (VString name) => name
                | _ => Pg.name r
                end;
     Pg.email := match s !! "email" with
                 | Some (VString email) => email
                 | _ => Pg.email r
                 end;
     Pg.age := Pg.age r;
     Pg.created_at := Pg.created_at r;
     Pg.updated_at := now |}.

(** The email of the payload, if any, is the user's own or nobody's. *)
Definition emailFree (s : object) (user : Pg.row) (rows : list Pg.row) : Prop :=
  match s !! "email" with
  | Some (VString e) => e = Pg.email user \/ existsb (hasEmail e) rows = false
  | _ => True
  end.

(** No string of the payload holds the code unit 0, which the server
    refuses in text. *)
Definition noNul (s : object) : Prop :=
  forall k t, s !! k = Some (VString t) -> Pg.hasNul t = false.

(** The draft that the [SET] clause and the trigger make of a row. *)
Definition updatedDraft (s : object) (now : Z) (r : Pg.row) : Pg.draft :=
  {| Pg.d_id := Some (Pg.id r);
     Pg.d_name := Some (Pg.name (updated s now r));
     Pg.d_email := Some (Pg.email (updated s now r));
     Pg.d_age := Pg.age r;
     Pg.d_created_at := Some (Pg.created_at r);
     Pg.d_updated_at := Some now |}.

(** A search text that [LIKE] reads letter by letter: it has no [%], no
    [_], no backslash and no code unit 0. *)
Definition plainChar (c : ascii) : bool :=
  negb (Ascii.eqb c "%" || Ascii.eqb c "_" || Ascii.eqb c "\"
        || (code c =? 0)%N).

Fixpoint plainText (s : string) : bool :=
  match s with
  | EmptyString => true
  | String c s' => plainChar c && plainText s'
  end.

(** Does the text occur in the field, letter case aside?  No text is
    given: every field will do. *)
Definition contains (field : string) (text : option string) : bool :=
  if UserService.given text
  then includes (toLowerCase field) (toLowerCase (default "" text))
  else true.

(** The rows that a list request without age bounds asks for. *)
Definition matching (q : UserQueryParams.t) (r : Pg.row) : bool :=
  contains (Pg.name r) (UserQueryParams.name q)
  && contains (Pg.email r) (UserQueryParams.email q).

(** A list request that searches by name and email only, with texts that
    [LIKE] reads letter by letter. *)
Definition searchable (q : UserQueryParams.t) : Prop :=
  UserQueryParams.minAge q = None
  /\ UserQueryParams.maxAge q = None
  /\ plainText (default "" (UserQueryParams.name q)) = true
  /\ plainText (default "" (UserQueryParams.email q)) = true.

(** The conditions of the [WHERE] clause of such a request. *)
Definition searchConditions (q : UserQueryParams.t) : list Pg.condition :=
  let byName :=
    if UserService.given (UserQueryParams.name q)
    then [{| Pg.column := "name"; Pg.op := Pg.ILike; Pg.operand := 1 |}]
    else [] in
  let byEmail :=
    if UserService.given (UserQueryParams.email q)
    then [{| Pg.column := "email"; Pg.op := Pg.ILike;
             Pg.operand := S (List.length byName) |}]
    else [] in
  (byName ++ byEmail)%list.

(** A value that is neither an array nor an object, and statements that
    bind such values only. *)
Definition primitive (v : value) : bool :=
  match v with
  | VArray _ | VObject _ => false
  | _ => true
  end.

Definition bindsPrimitives (new : list (string * list value)) : Prop :=
  Forall (fun statement => forallb primitive (snd statement) = true) new.

(** The property [k] holds a truthy value that is not a string. *)
Definition notText (o : object) (k : string) : Prop :=
  exists v, o !! k = Some v /\ ToBoolean v = true /\ forall s, v <> VString s.

(** An object with a [toString] property of its own, or an array that
    holds one, at any depth. *)
Fixpoint hidesToString (v : value) : bool :=
  match v with
  | VArray items => existsb hidesToString items
  | VObject fields => bool_decide (is_Some (fields !! "toString"))
  | _ => false
  end.

(** Two more answers of the handlers: the [catch] blocks. *)
Definition internalErrorResponse (error : string) : userRoutes.Response :=
  {| userRoutes.status := 500;
     userRoutes.json := userRoutes.Failed "Internal server error" error |}.


(** The list request that [GET /] reads off the query string. *)
Definition queryParams (req : userRoutes.Request) : UserQueryParams.t :=
  {| UserQueryParams.page := userRoutes.parsed req "page";
     UserQueryParams.limit := userRoutes.parsed req "limit";
     UserQueryParams.name := userRoutes.query req !! "name";
     UserQueryParams.email := userRoutes.query req !! "email";
     UserQueryParams.minAge := userRoutes.parsed req "minAge";
     UserQueryParams.maxAge := userRoutes.parsed req "maxAge";
     UserQueryParams.sortBy := userRoutes.query req !! "sortBy";
     UserQueryParams.sortOrder := userRoutes.query req !! "sortOrder" |}.

(** The examples below run on the example host; the theorems stated for
    every host keep their own. *)
#[global] Existing Instance Example.host | 100.

(** * Properties *)

(** ** Strings *)

Lemma trimStart_idempotent (s : string) : trimStart (trimStart s) = trimStart s.
Proof.
  induction s as [|c s IH]; simpl; [reflexivity|].
  destruct (isWhiteSpace c) eqn:E; [exact IH|].
  simpl. now rewrite E.
Qed.

Lemma trimEnd_idempotent (s : string) : trimEnd (trimEnd s) = trimEnd s.
Proof.
  induction s as [|c s IH]; simpl; [reflexivity|].
  destruct (trimEnd s) as [|d r] eqn:E.
  - destruct (isWhiteSpace c) eqn:W; simpl; [reflexivity|]. now rewrite W.
  - change (trimEnd (String c (String d r))) with
      (match trimEnd (String d r) with
       | EmptyString => if isWhiteSpace c then EmptyString else String c EmptyString
       | r' => String c r'
       end).
    now rewrite IH.
Qed.

Lemma trimStart_startsClean (s : string) : startsClean (trimStart s).
Proof.
  induction s as [|c s IH]; simpl; [exact I|].
  destruct (isWhiteSpace c) eqn:E; [exact IH|exact E].
Qed.

Lemma trimEnd_startsClean (s : string) : startsClean s -> startsClean (trimEnd s).
Proof.
  destruct s as [|c s]; simpl; [trivial|]. intros E.
  destruct (trimEnd s); [now rewrite E|exact E].
Qed.

Lemma trimStart_clean (s : string) : startsClean s -> trimStart s = s.
Proof. destruct s as [|c s]; simpl; [trivial|]. now intros ->. Qed.

Lemma trim_idempotent (s : string) : trim (trim s) = trim s.
Proof.
  unfold trim.
  rewrite (trimStart_clean (trimEnd (trimStart s))).
  - apply trimEnd_idempotent.
  - apply trimEnd_startsClean, trimStart_startsClean.
Qed.

Lemma toLowerCaseChar_idempotent (c : ascii) :
  toLowerCaseChar (toLowerCaseChar c) = toLowerCaseChar c.
Proof. destruct c as [[] [] [] [] [] [] [] []]; reflexivity. Qed.

Lemma isWhiteSpace_toLowerCaseChar (c : ascii) :
  isWhiteSpace (toLowerCaseChar c) = isWhiteSpace c.
Proof. destruct c as [[] [] [] [] [] [] [] []]; reflexivity. Qed.

Lemma toLowerCase_idempotent (s : string) :
  toLowerCase (toLowerCase s) = toLowerCase s.
Proof.
  induction s as [|c s IH]; simpl; [reflexivity|].
  now rewrite toLowerCaseChar_idempotent, IH.
Qed.

Lemma trimStart_toLowerCase (s : string) :
  trimStart (toLowerCase s) = toLowerCase (trimStart s).
Proof.
  induction s as [|c s IH]; simpl; [reflexivity|].
  rewrite isWhiteSpace_toLowerCaseChar.
  destruct (isWhiteSpace c); [exact IH|reflexivity].
Qed.

Lemma trimEnd_toLowerCase (s : string) :
  trimEnd (toLowerCase s) = toLowerCase (trimEnd s).
Proof.
  induction s as [|c s IH]; simpl; [reflexivity|].
  rewrite IH, isWhiteSpace_toLowerCaseChar.
  destruct (trimEnd s); simpl; [|reflexivity].
  now destruct (isWhiteSpace c).
Qed.

Lemma trim_toLowerCase (s : string) : trim (toLowerCase s) = toLowerCase (trim s).
Proof. unfold trim. now rewrite trimStart_toLowerCase, trimEnd_toLowerCase. Qed.

(** What [sanitizeUserData] leaves in [email] is left alone by a second pass. *)
Lemma normalized_email (s : string) :
  toLowerCase (trim (toLowerCase (trim s))) = toLowerCase (trim s).
Proof. now rewrite trim_toLowerCase, trim_idempotent, toLowerCase_idempotent. Qed.

Lemma Math_floor_idempotent (n : number) : Math_floor (Math_floor n) = Math_floor n.
Proof.
  destruct n as [| |q]; [reflexivity..|].
  cbv [Math_floor int]. now rewrite Qfloor_Z.
Qed.

(** ** Validation: the age block *)

Lemma has_true (k : string) (o : object) (v : value) : o !! k = Some v -> has k o = true.
Proof. intros E. unfold has. apply bool_decide_eq_true. eauto. Qed.

Lemma prop_lookup (k : string) (o : object) (v : value) :
  o !! k = Some v -> prop o k = v.
Proof. intros E. unfold prop. now rewrite E. Qed.

Lemma has_false (k : string) (o : object) : o !! k = None -> has k o = false.
Proof.
  intros E. unfold has. apply bool_decide_eq_false. rewrite E. apply is_Some_None.
Qed.

Lemma lt_gt_zero (n : number) :
  ToBoolean (VNumber n) = true -> lt n (int 0) = false -> gt n (int 0) = true.
Proof.
  destruct n as [|[]|q]; simpl; try discriminate; try reflexivity.
  unfold gt, lt, int. simpl. intros Hnz Hlt.
  apply negb_true_iff in Hnz. apply negb_false_iff in Hlt.
  apply negb_true_iff. apply not_true_is_false. intros Hle.
  apply Qle_bool_iff in Hlt, Hle.
  assert (Heq : (q == 0)%Q) by (apply Qle_antisym; assumption).
  apply Qeq_bool_iff in Heq. congruence.
Qed.

(** Whenever the age block runs, it pushes an error: a falsy age is
    "required", a negative one is below the minimum, and every other
    number is above [AGE_MIN]. *)
Lemma ageErrors_nonempty (userData : object) (isUpdate : bool) :
  isUpdate = false \/ has "age" userData = true ->
  ageErrors userData isUpdate <> [].
Proof.
  intros Hrun. unfold ageErrors.
  replace (negb isUpdate || has "age" userData) with true
    by (destruct Hrun as [-> | ->]; [reflexivity|now rewrite orb_true_r]).
  destruct (ToBoolean (prop userData "age")) eqn:T; cbn [negb]; [|discriminate].
  destruct (prop userData "age") as [| | |age| | |]; try discriminate.
  change (int USER_VALIDATION.AGE_MIN) with (int 0).
  destruct (lt age (int 0)) eqn:L; [discriminate|].
  now rewrite (lt_gt_zero age T L).
Qed.

Lemma validateUserData_create_nonempty (userData : object) :
  validateUserData userData false <> [].
Proof.
  unfold validateUserData. intros E.
  apply app_eq_nil in E as [_ E]. apply app_eq_nil in E as [_ E].
  revert E. apply ageErrors_nonempty. now left.
Qed.

(** C1 (as the code has it).  In update mode an in-range age (29), an age
    above the maximum (150) and the smallest legal age (0) are all
    reported: the first two with a message about the bound 0, not 100,
    and the last as missing.  The comparison and the message use
    [AGE_MIN] where [AGE_MAX] was meant, and [!age] takes 0 for absent. *)
Theorem validateUserData_age_bound :
  validateUserData {[ "age" := VNumber (int 29) ]} true
    = ["Age must be no more than 0 characters long"]
  /\ validateUserData {[ "age" := VNumber (int 150) ]} true
    = ["Age must be no more than 0 characters long"]
  /\ validateUserData {[ "age" := VNumber (int 0) ]} true
    = ["Age is required."]
  /\ forall (age : number) (isUpdate : bool),
       ageErrors {[ "age" := VNumber age ]} isUpdate <> [].
Proof.
  repeat split; try reflexivity.
  intros age isUpdate. apply ageErrors_nonempty. right. reflexivity.
Qed.

(** ** Sanitization *)

Section SanitizeProperties.
Context `{Host}.

Lemma sanitizeName_settled (o : object) : nameSettled o -> sanitizeName o = inl o.
Proof.
  intros Hs. unfold sanitizeName.
  destruct (o !! "name") as [v|] eqn:E.
  - rewrite (has_true _ _ _ E), (prop_lookup _ _ _ E). cbn [andb].
    destruct (ToBoolean v) eqn:T; [|reflexivity].
    destruct (Hs v E T) as (s & -> & Hs'). rewrite Hs'.
    f_equal. now apply insert_id.
  - now rewrite (has_false _ _ E).
Qed.

Lemma sanitizeEmail_settled (o : object) : emailSettled o -> sanitizeEmail o = inl o.
Proof.
  intros Hs. unfold sanitizeEmail.
  destruct (o !! "email") as [v|] eqn:E.
  - rewrite (has_true _ _ _ E), (prop_lookup _ _ _ E). cbn [andb].
    destruct (ToBoolean v) eqn:T; [|reflexivity].
    destruct (Hs v E T) as (s & -> & Hs'). rewrite Hs'.
    f_equal. now apply insert_id.
  - now rewrite (has_false _ _ E).
Qed.

Lemma sanitizeAge_settled (o : object) : ageSettled o -> sanitizeAge o = inl o.
Proof.
  intros Hs. unfold sanitizeAge.
  destruct (o !! "age") as [v|] eqn:E.
  - rewrite (has_true _ _ _ E), (prop_lookup _ _ _ E). cbn [andb].
    destruct (ToBoolean v) eqn:T; [|reflexivity].
    destruct (Hs v E T) as (n & -> & Hn). cbn [ToNumber]. rewrite Hn.
    f_equal. now apply insert_id.
  - now rewrite (has_false _ _ E).
Qed.

(** Each step rewrites its own key and nothing else. *)
Lemma sanitizeName_spec (o o' : object) :
  sanitizeName o = inl o' ->
  nameSettled o' /\ dom o' = dom o /\ forall k, k <> "name" -> o' !! k = o !! k.
Proof.
  unfold sanitizeName. intros E.
  destruct (o !! "name") as [v|] eqn:L.
  - rewrite (has_true _ _ _ L), (prop_lookup _ _ _ L) in E. cbn [andb] in E.
    destruct (ToBoolean v) eqn:T.
    + destruct v as [| | | |s| |]; try discriminate E.
      injection E as <-. split; [|split].
      * intros v. rewrite lookup_insert_eq. intros Hv _.
        injection Hv as <-.
        eexists; split; [reflexivity|apply trim_idempotent].
      * apply dom_insert_lookup_L. now rewrite L.
      * intros k Hk. now rewrite lookup_insert_ne.
    + injection E as <-. split; [|split; [reflexivity|reflexivity]].
      intros v' Hv' T'. rewrite L in Hv'. injection Hv' as <-. congruence.
  - rewrite (has_false _ _ L) in E. cbn [andb] in E. injection E as <-.
    split; [|split; [reflexivity|reflexivity]].
    intros v Hv. rewrite L in Hv. discriminate Hv.
Qed.

Lemma sanitizeEmail_spec (o o' : object) :
  sanitizeEmail o = inl o' ->
  emailSettled o' /\ dom o' = dom o /\ forall k, k <> "email" -> o' !! k = o !! k.
Proof.
  unfold sanitizeEmail. intros E.
  destruct (o !! "email") as [v|] eqn:L.
  - rewrite (has_true _ _ _ L), (prop_lookup _ _ _ L) in E. cbn [andb] in E.
    destruct (ToBoolean v) eqn:T.
    + destruct v as [| | | |s| |]; try discriminate E.
      injection E as <-. split; [|split].
      * intros v. rewrite lookup_insert_eq. intros Hv _.
        injection Hv as <-.
        eexists; split; [reflexivity|apply normalized_email].
      * apply dom_insert_lookup_L. now rewrite L.
      * intros k Hk. now rewrite lookup_insert_ne.
    + injection E as <-. split; [|split; [reflexivity|reflexivity]].
      intros v' Hv' T'. rewrite L in Hv'. injection Hv' as <-. congruence.
  - rewrite (has_false _ _ L) in E. cbn [andb] in E. injection E as <-.
    split; [|split; [reflexivity|reflexivity]].
    intros v Hv. rewrite L in Hv. discriminate Hv.
Qed.

Lemma sanitizeAge_spec (o o' : object) :
  sanitizeAge o = inl o' ->
  ageSettled o' /\ dom o' = dom o /\ forall k, k <> "age" -> o' !! k = o !! k.
Proof.
  unfold sanitizeAge. intros E.
  destruct (o !! "age") as [v|] eqn:L.
  - rewrite (has_true _ _ _ L), (prop_lookup _ _ _ L) in E. cbn [andb] in E.
    destruct (ToBoolean v) eqn:T.
    + destruct (ToNumber v) as [age|]; [|discriminate E].
      injection E as <-. split; [|split].
      * intros v'. rewrite lookup_insert_eq. intros Hv _.
        injection Hv as <-.
        eexists; split; [reflexivity|apply Math_floor_idempotent].
      * apply dom_insert_lookup_L. now rewrite L.
      * intros k Hk. now rewrite lookup_insert_ne.
    + injection E as <-. split; [|split; [reflexivity|reflexivity]].
      intros v' Hv' T'. rewrite L in Hv'. injection Hv' as <-. congruence.
  - rewrite (has_false _ _ L) in E. cbn [andb] in E. injection E as <-.
    split; [|split; [reflexivity|reflexivity]].
    intros v Hv. rewrite L in Hv. discriminate Hv.
Qed.

(** The one error that [Number] throws. *)
Lemma ToNumber_throws (v : value) (e : exn) : ToNumber v = inr e -> e = cannotConvert.
Proof.
  destruct v as [| | | | |items|fields]; try discriminate; unfold ToNumber;
    destruct (ToString _) as [s|]; try discriminate; now intros [= <-].
Qed.

Lemma sanitizeAge_throws (o : object) (e : exn) :
  sanitizeAge o = inr e -> e = cannotConvert.
Proof.
  unfold sanitizeAge. destruct (_ && _); [|discriminate].
  destruct (ToNumber _) as [n|e'] eqn:N; [discriminate|].
  intros [= <-]. exact (ToNumber_throws _ _ N).
Qed.

Lemma sanitizeUserData_spec (x y : object) :
  sanitizeUserData x = inl y ->
  nameSettled y /\ emailSettled y /\ ageSettled y /\ dom y = dom x.
Proof.
  unfold sanitizeUserData. intros E.
  destruct (sanitizeName x) as [x1|] eqn:E1; [|discriminate].
  destruct (sanitizeEmail x1) as [x2|] eqn:E2; [|discriminate].
  destruct (sanitizeName_spec _ _ E1) as (N1 & D1 & F1).
  destruct (sanitizeEmail_spec _ _ E2) as (N2 & D2 & F2).
  destruct (sanitizeAge_spec _ _ E) as (N3 & D3 & F3).
  repeat split.
  - intros v. rewrite F3, F2 by done. apply N1.
  - intros v. rewrite F3 by done. apply N2.
  - exact N3.
  - congruence.
Qed.

(** C10.  [sanitizeUserData] is idempotent: a second pass over its result
    returns that result (and where the first pass throws, so does the
    composition); the result has exactly the keys of the input. *)
Theorem sanitizeUserData_idempotent (x : object) :
  match sanitizeUserData x with
  | inl y => sanitizeUserData y = inl y /\ dom y = dom x
  | inr e => True
  end
  /\ (match sanitizeUserData x with
      | inl y => sanitizeUserData y
      | inr e => inr e
      end) = sanitizeUserData x.
Proof.
  assert (Hfix : forall y, sanitizeUserData x = inl y ->
                   sanitizeUserData y = inl y /\ dom y = dom x).
  { intros y E. destruct (sanitizeUserData_spec _ _ E) as (N & M & A & D).
    split; [|exact D]. unfold sanitizeUserData.
    rewrite (sanitizeName_settled _ N), (sanitizeEmail_settled _ M).
    apply (sanitizeAge_settled _ A). }
  destruct (sanitizeUserData x) as [y|e] eqn:E.
  - destruct (Hfix y eq_refl) as [F D]. repeat split; assumption.
  - split; [exact I|reflexivity].
Qed.

End SanitizeProperties.

(** ** Numbers that are integers *)

Lemma Qeq_bool_inject_Z (a b : Z) : Qeq_bool (inject_Z a) (inject_Z b) = (a =? b).
Proof.
  destruct (Z.eqb_spec a b) as [->|Hne].
  - apply Qeq_bool_iff. apply Qeq_refl.
  - apply not_true_is_false. intros E. apply Qeq_bool_iff in E.
    apply Hne, inject_Z_injective, E.
Qed.

Lemma Qle_bool_inject_Z (a b : Z) : Qle_bool (inject_Z a) (inject_Z b) = (a <=? b).
Proof. unfold Qle_bool, inject_Z. cbn [Qnum Qden]. now rewrite !Z.mul_1_r. Qed.

Lemma ToBoolean_int (z : Z) : ToBoolean (VNumber (int z)) = negb (z =? 0).
Proof. exact (f_equal negb (Qeq_bool_inject_Z z 0)). Qed.

Lemma le_int (a b : Z) : le (int a) (int b) = (a <=? b).
Proof. apply Qle_bool_inject_Z. Qed.

Lemma lt_int (a b : Z) : lt (int a) (int b) = (a <? b).
Proof.
  unfold lt, int. rewrite Qle_bool_inject_Z.
  rewrite Z.ltb_antisym. reflexivity.
Qed.

Lemma Qred_inject_Z (z : Z) : Qred (inject_Z z) = inject_Z z.
Proof.
  unfold Qred, inject_Z.
  generalize (Z.ggcd_gcd z 1) (Z.ggcd_correct_divisors z 1).
  destruct (Z.ggcd z 1) as [g [aa bb]]. cbn [fst snd].
  intros Hg [Ha Hb]. rewrite Z.gcd_1_r in Hg. subst g.
  rewrite Z.mul_1_l in Ha, Hb. subst aa bb. reflexivity.
Qed.

(** ** Creation never gets past validation *)

Import UserService userRoutes.

Section CreateProperties.
Context `{Host}.

Lemma includes_prefix (s t : string) : includes (s ++ t) s = true.
Proof.
  assert (P : String.prefix s (s ++ t) = true).
  { induction s as [|c s IH]; simpl; [now destruct t|].
    destruct (ascii_dec c c) as [_|N]; [exact IH|now destruct N]. }
  destruct s; simpl in *; [now destruct t|]. now rewrite P.
Qed.

(** [createUser] throws on every input, before any statement is sent:
    [trim] is missing on a field that is not a string, or the age cannot
    be converted to a number, or the age block of the validation reports
    an error. *)
Lemma createUser_throws (userData : object) (w : world) :
  exists e,
    createUser userData w
    = (Throw e, {| db := db w; queries := queries w;
                   calls := calls w ++ [CreateUser userData] |})
    /\ (includes (message e) "Validation failed" = true
        \/ e = notAFunction "sanitized.name.trim"
        \/ e = notAFunction "sanitized.email.trim"
        \/ e = cannotConvert).
Proof.
  unfold createUser, bind, entered.
  destruct (sanitizeUserData userData) as [sanitizedData|e] eqn:E; cbn [lift].
  - unfold ret.
    destruct (validateUserData sanitizedData false) as [|msg errors] eqn:V.
    + now destruct (validateUserData_create_nonempty sanitizedData).
    + cbn [List.length Nat.ltb Nat.leb]. unfold throw.
      eexists; split; [reflexivity|]. left.
      cbn [message].
      apply (includes_prefix "Validation failed"
               (": " ++ join ", " (msg :: errors))).
  - unfold throw. eexists; split; [reflexivity|]. right.
    unfold sanitizeUserData in E.
    destruct (sanitizeName userData) as [x1|e1] eqn:E1.
    + destruct (sanitizeEmail x1) as [x2|e2] eqn:E2.
      * right. right. exact (sanitizeAge_throws _ _ E).
      * injection E as <-. right. left. unfold sanitizeEmail in E2.
        destruct (has "email" x1 && ToBoolean (prop x1 "email")); [|discriminate].
        destruct (prop x1 "email"); congruence.
    + injection E as <-. left. unfold sanitizeName in E1.
      destruct (has "name" userData && ToBoolean (prop userData "name"));
        [|discriminate].
      destruct (prop userData "name"); congruence.
Qed.

(** [POST /users] answers 400 or 500, whatever the body and the state. *)
Lemma postUser_never_creates (req : Request) (w : world) :
  exists r w',
    postUser req w = (Return r, w')
    /\ (status r = 400 \/ status r = 500)
    /\ db w' = db w /\ queries w' = queries w.
Proof.
  unfold postUser, try_catch.
  destruct (negb (ToBoolean (prop (body req) "name"))
            || negb (ToBoolean (prop (body req) "email"))).
  - unfold respond, ret. do 2 eexists. split; [reflexivity|]. cbn. auto.
  - unfold bind.
    destruct (createUser_throws (body req) w) as (e & -> & He).
    unfold mutationFailed.
    destruct He as [-> | [-> | [-> | ->]]]; unfold respond, ret;
      do 2 eexists; (split; [reflexivity|]); cbn; auto.
Qed.

End CreateProperties.

(** C2 (as the code has it).  The input of the scenario is sanitized as the
    specification says, to ["Ann Lee"], ["ann@example.com"], 29, and then
    rejected: [createUser] throws "Validation failed" because the age
    block compares with [AGE_MIN], and nothing is sent to the database.
    No input at all gets through [createUser]. *)
Theorem createUser_ann_lee `{Host} (w : world) :
  sanitizeUserData annLee
    = inl {[ "name" := VString "Ann Lee";
             "email" := VString "ann@example.com";
             "age" := VNumber (int 29) ]}
  /\ createUser annLee w
     = (Throw (Error "Validation failed: Age must be no more than 0 characters long"),
        {| db := db w; queries := queries w;
           calls := calls w ++ [CreateUser annLee] |})
  /\ forall userData, exists e, fst (createUser userData w) = Throw e.
Proof.
  split; [vm_compute; reflexivity|]. split.
  - destruct (createUser_throws annLee w) as (e & E & _).
    rewrite E. f_equal. revert E. vm_compute. congruence.
  - intros userData. destruct (createUser_throws userData w) as (e & -> & _).
    now exists e.
Qed.

(** C6 (as the code has it).  Posting a record whose sanitized email is the
    email of an existing row is answered 400 "Validation failed", not 409:
    the age block of the validation rejects it before the duplicate check,
    and the statement looking the email up is never sent.  [POST /users]
    answers 409 on no request. *)
Theorem postUser_duplicate_email `{Host} :
  let req := Example.request [] None
               [("name", VString "Johnny"); ("email", VString " JOHN@john.com");
                ("age", VNumber (int 31))] in
  postUser req Example.sampleWorld
  = (Return {| status := 400;
               json := Failed "Validation failed"
                 "Validation failed: Age must be no more than 0 characters long" |},
     {| db := Example.sampleDb; queries := [];
        calls := [CreateUser (body req)] |})
  /\ forall req w, exists r w',
       postUser req w = (Return r, w') /\ status r <> 409 /\ status r <> 201.
Proof.
  split; [vm_compute; reflexivity|].
  intros req' w. destruct (postUser_never_creates req' w) as (r & w' & E & S & _).
  exists r, w'. split; [exact E|]. destruct S as [-> | ->]; split; discriminate.
Qed.

(** ** Deleting an id that no row has *)

Section DeleteProperties.
Context `{Host}.

Lemma pgInteger_int (range : Z * Z) (z : Z) :
fst range <= z <= snd range -> Z.abs z < 10 ^ 21 ->
Pg.pgInteger range (VNumber (int z)) = inl (Some z).
Proof.
intros R A. unfold Pg.pgInteger, int. rewrite Qred_inject_Z.
cbn [Qden Qnum inject_Z Pos.eqb andb].
apply Z.ltb_lt in A. rewrite A.
unfold Pg.inRange.
destruct R as [R1 R2]. apply Z.leb_le in R1, R2. now rewrite R1, R2.
Qed.

Lemma partitionRows_absent (z : Z) (rows : list Pg.row) :
Forall (fun r => Pg.id r <> z) rows ->
Pg.partitionRows [idIs z] rows = inl ([], rows).
Proof.
induction 1 as [|r rows Hr _ IH]; [reflexivity|].
cbn [Pg.partitionRows]. rewrite IH.
unfold Pg.passes, idIs, Pg.compareInt. cbn.
apply Z.eqb_neq in Hr. now rewrite Hr.
Qed.

Lemma execute_delete_absent (z : Z) (db : Pg.database) :
1 <= z <= 2147483647 ->
Forall (fun r => Pg.id r <> z) (Pg.users db) ->
head (Pg.faults db) <> Some true ->
Pg.execute "DELETE FROM users WHERE id = $1 RETURNING id" [VNumber (int z)] db
= inl ([], {| Pg.users := Pg.users db; Pg.users_id_seq := Pg.users_id_seq db;
              Pg.now := Pg.now db; Pg.faults := tail (Pg.faults db) |}).
Proof.
intros R A F. unfold Pg.execute.
assert (P : Pg.parse "DELETE FROM users WHERE id = $1 RETURNING id"
            = Some (Pg.Delete [{| Pg.column := "id"; Pg.op := Pg.Eq; Pg.operand := 1 |}]))
  by (vm_compute; reflexivity).
rewrite P.
assert (E : forall db', Pg.users db' = Pg.users db ->
   Pg.run (Pg.Delete [{| Pg.column := "id"; Pg.op := Pg.Eq; Pg.operand := 1 |}])
          [VNumber (int z)] db' = inl ([], Pg.withUsers db' (Pg.users db))).
{ intros db' U. unfold Pg.run.
  change (Pg.checkParams _ _) with (@inl unit Pg.failure tt). cbv iota.
  cbn [Pg.mapF Pg.bindF]. unfold Pg.compileCondition. 
  cbn [Pg.column String.eqb Ascii.eqb Bool.eqb Pg.operand Pg.op].
  change (Pg.param [VNumber (int z)] 1) with (VNumber (int z)).
  rewrite pgInteger_int.
  2:{ cbn. lia. } 2:{ change (10^21) with 1000000000000000000000. lia. }
  cbn [Pg.bindF]. rewrite U.
  change (fun r : Pg.row => Pg.compareInt Pg.Eq (Some (Pg.id r)) (Some z)) with (idIs z).
  rewrite (partitionRows_absent z _ A). reflexivity. }
destruct (Pg.faults db) as [|[] fs] eqn:Fs.
- rewrite E by reflexivity. reflexivity.
- now destruct F.
- rewrite E by reflexivity. reflexivity.
Qed.


Lemma invalidId_positive (z : Z) : 1 <= z -> invalidId (int z) = false.
Proof.
  intros Hz. unfold invalidId. rewrite ToBoolean_int, le_int.
  destruct (Z.eqb_spec z 0); [lia|]. destruct (Z.leb_spec z 0); [lia|reflexivity].
Qed.

(** C9, amended.  For an id in the range of the [id] column (1 to
    2^31 - 1) that no row has, and when the statement reaches the server,
    [deleteUser] returns [false] without throwing, the table is left as it
    was, and [DELETE /users/:id] answers 404. *)
Theorem deleteUser_absent (z : Z) (w : world) :
  1 <= z <= 2147483647 ->
  Forall (fun r => Pg.id r <> z) (Pg.users (db w)) ->
  head (Pg.faults (db w)) <> Some true ->
  fst (deleteUser (int z) w) = Return false
  /\ Pg.users (db (snd (deleteUser (int z) w))) = Pg.users (db w)
  /\ forall req, parseInt (idParam req) = int z ->
       fst (deleteUserRoute req w) = Return userNotFoundResponse.
Proof.
  intros R A F.
  assert (E : deleteUser (int z) w
              = (Return false,
                 {| db := {| Pg.users := Pg.users (db w);
                             Pg.users_id_seq := Pg.users_id_seq (db w);
                             Pg.now := Pg.now (db w);
                             Pg.faults := tail (Pg.faults (db w)) |};
                    queries := queries w ++
                      [("DELETE FROM users WHERE id = $1 RETURNING id",
                        [VNumber (int z)])];
                    calls := calls w ++ [DeleteUser (int z)] |})).
  { unfold deleteUser, bind, entered. rewrite invalidId_positive by lia.
    unfold try_catch, bind, db_query. cbn [db queries calls].
    rewrite (execute_delete_absent z (db w) R A F). reflexivity. }
  rewrite E. repeat split.
  intros req Hid. unfold deleteUserRoute, try_catch, bind. rewrite Hid.
  unfold rejectedId. rewrite le_int. cbn [isNaN int orb].
  destruct (Z.leb_spec z 0); [lia|]. rewrite E. reflexivity.
Qed.

End DeleteProperties.

Lemma deleteUser_absent_witness :
  fst (deleteUser (int 999999) Example.sampleWorld) = Return false
  /\ fst (deleteUserRoute (Example.request [] (Some "999999") []) Example.sampleWorld)
     = Return userNotFoundResponse.
Proof.
  assert (T := deleteUser_absent 999999 Example.sampleWorld).
  destruct T as (T1 & _ & T3).
  - lia.
  - repeat constructor; discriminate.
  - discriminate.
  - split; [exact T1|]. apply T3. reflexivity.
Defined.

(** C9 as stated fails beyond the range of the column: no row has id 2^31,
    and deleting it throws, which the handler answers with 500. *)
Lemma deleteUser_out_of_range :
  ~ (forall (z : Z) (w : world),
       0 < z -> Forall (fun r => Pg.id r <> z) (Pg.users (db w)) ->
       fst (deleteUser (int z) w) = Return false).
Proof.
  intros C. specialize (C 2147483648 Example.sampleWorld).
  assert (E : fst (deleteUser (int 2147483648) Example.sampleWorld)
              = Throw (Error "Failed to delete user")) by (vm_compute; reflexivity).
  rewrite E in C. discriminate C; [lia|].
  repeat constructor; discriminate.
Qed.

(** ** The guard on the path id *)

Section IdGuardProperties.
Context `{Host}.

(** C8, amended.  A path id that [parseInt] reads as [NaN], as zero or as
    a negative number is answered 400 by each of the three handlers that
    take an id, and the world is left untouched: no service method is
    entered and no statement is sent. *)
Theorem rejected_id_stops_at_handler (req : Request) (w : world) :
  rejectedId (parseInt (idParam req)) = true ->
  getUser req w = (Return invalidUserIdResponse, w)
  /\ putUser req w = (Return invalidUserIdResponse, w)
  /\ deleteUserRoute req w = (Return invalidUserIdResponse, w).
Proof.
  intros R. unfold getUser, putUser, deleteUserRoute, try_catch.
  rewrite R. repeat split.
Qed.

(** An id that gets past the guard enters the service with the number
    that [parseInt] read. *)
Lemma accepted_id_enters_service (req : Request) (w : world) :
  rejectedId (parseInt (idParam req)) = false ->
  exists r w',
    getUser req w = (Return r, w')
    /\ head (drop (List.length (calls w)) (calls w'))
       = Some (GetUserById (parseInt (idParam req))).
Proof.
  intros R. unfold getUser, try_catch, bind. rewrite R.
  unfold getUserById, bind, entered.
  set (w1 := {| db := db w; queries := queries w;
                calls := calls w ++ [GetUserById (parseInt (idParam req))] |}).
  assert (C : forall w2, calls w2 = calls w1 ->
            head (drop (List.length (calls w)) (calls w2))
            = Some (GetUserById (parseInt (idParam req)))).
  { intros w2 ->. unfold w1. cbn [calls]. now rewrite drop_app_length. }
  destruct (UserService.invalidId (parseInt (idParam req))).
  { unfold throw, internalError, respond, ret. do 2 eexists.
    split; [reflexivity|]. now apply C. }
  unfold try_catch, bind, db_query. cbn [db queries calls].
  destruct (Pg.execute _ _ _) as [[rows db']|[error db']].
  - destruct (List.length rows =? 0)%nat.
    + unfold ret, userNotFound, respond, ret. do 2 eexists.
      split; [reflexivity|]. now apply C.
    + unfold userToResponse.
      destruct (head rows) as [[user| |]|];
        unfold ret, throw, internalError, respond, ret; do 2 eexists;
        (split; [reflexivity|]); now apply C.
  - unfold throw, internalError, respond, ret. do 2 eexists.
    split; [reflexivity|]. now apply C.
Qed.

End IdGuardProperties.

Lemma rejected_id_stops_at_handler_witness :
  getUser (Example.request [] (Some "0") []) Example.sampleWorld
  = (Return invalidUserIdResponse, Example.sampleWorld).
Proof.
  apply (rejected_id_stops_at_handler (Example.request [] (Some "0") [])
           Example.sampleWorld).
  reflexivity.
Defined.

(** C8 as stated fails on an id with trailing text: "12abc" is not a
    positive integer, yet [GET /users/12abc] is not answered 400; it looks
    up user 12. *)
Lemma getUser_accepts_trailing_text :
  ~ (forall (req : Request) (w : world),
       isPositiveInteger (idParam req) = false ->
       getUser req w = (Return invalidUserIdResponse, w)).
Proof.
  intros C.
  specialize (C (Example.request [] (Some "12abc") []) Example.sampleWorld).
  assert (E : getUser (Example.request [] (Some "12abc") []) Example.sampleWorld
              = (Return userNotFoundResponse,
                 {| db := Example.sampleDb;
                    queries := [("SELECT * FROM users WHERE id = $1",
                                 [VNumber (int 12)])];
                    calls := [GetUserById (int 12)] |}))
    by (vm_compute; reflexivity).
  rewrite E in C. discriminate C. reflexivity.
Qed.

(** ** Listing: statement texts, age bounds, pagination *)

Section ListProperties.
Context `{Host}.

(** C4, amended.  Two list requests with the same filters present and the
    same [sortBy] and [sortOrder] send the same two statement texts,
    whatever the values of the filters, the page and the limit: those
    values travel as bound parameters only. *)
Theorem getUsers_text_fixed_by_shape (p q : UserQueryParams.t) :
  given (UserQueryParams.name p) = given (UserQueryParams.name q) ->
  given (UserQueryParams.email p) = given (UserQueryParams.email q) ->
  defined (UserQueryParams.minAge p) = defined (UserQueryParams.minAge q) ->
  defined (UserQueryParams.maxAge p) = defined (UserQueryParams.maxAge q) ->
  stringOr (UserQueryParams.sortBy p) "created_at"
    = stringOr (UserQueryParams.sortBy q) "created_at" ->
  stringOr (UserQueryParams.sortOrder p) "DESC"
    = stringOr (UserQueryParams.sortOrder q) "DESC" ->
  getUsers_countQuery p = getUsers_countQuery q
  /\ getUsers_usersQuery p = getUsers_usersQuery q.
Proof.
  intros Hn He Ha Hb Hs Ho.
  unfold getUsers_countQuery, getUsers_usersQuery, getUsers_whereClause,
    getUsers_whereConditions, getUsers_paramIndex, getUsers_orderByClause,
    getUsers_filters.
  rewrite Hn, He, Hs, Ho.
  destruct (given (UserQueryParams.name q)), (given (UserQueryParams.email q)),
    (UserQueryParams.minAge p), (UserQueryParams.minAge q),
    (UserQueryParams.maxAge p), (UserQueryParams.maxAge q);
    try discriminate Ha; try discriminate Hb; split; reflexivity.
Qed.


Lemma given_cons (c : ascii) (s : string) : given (Some (String c s)) = true.
Proof. reflexivity. Qed.

Lemma parse_usersQuery (q : UserQueryParams.t) :
  declaredSort q ->
  exists conds order l o,
    Pg.parse (getUsers_usersQuery q) = Some (Pg.Select conds order (Some (l, o)))
    /\ Pg.param (getUsers_usersValues q) l = VNumber (getUsers_limit q).
Proof.
  intros [Hs Ho].
  destruct q as [pg lm nm em mn mx sb so]. cbn [UserQueryParams.sortBy UserQueryParams.sortOrder] in Hs, Ho.
  assert (Hs' : sb = None \/ sb = Some "name" \/ sb = Some "email" \/ sb = Some "age" \/ sb = Some "created_at").
  { set_unfold. tauto. }
  assert (Ho' : so = None \/ so = Some "ASC" \/ so = Some "DESC").
  { set_unfold. tauto. }
  clear Hs Ho.
  destruct nm as [[|c1 s1]|], em as [[|c2 s2]|], mn as [mn|], mx as [mx|];
  destruct Hs' as [->|[->|[->|[->| ->]]]]; destruct Ho' as [->|[->| ->]];
  (do 4 eexists; split; [vm_compute; reflexivity|reflexivity]).
Qed.


Lemma Math_max_one (n : number) :
  isNaN n = false -> le (int 1) (Math_max (int 1) n) = true.
Proof.
  destruct n as [|[]|q]; try discriminate; intros _; try reflexivity.
  unfold Math_max, int. destruct (lt (Fin (inject_Z 1)) (Fin q)) eqn:L.
  - unfold lt in L. unfold le. apply negb_true_iff in L.
    apply Qle_bool_iff. apply Qlt_le_weak. apply Qnot_le_lt.
    intros C. apply Qle_bool_iff in C. congruence.
  - reflexivity.
Qed.

Lemma numberOr_notNaN (v : option number) (d : number) :
  isNaN d = false -> isNaN (numberOr v d) = false.
Proof.
  intros D. unfold numberOr. destruct v as [[|s|q]|]; cbn; try exact D.
  - reflexivity.
  - now destruct (negb (Qeq_bool q 0)).
Qed.

Lemma Math_max_int (a b : Z) : Math_max (int a) (int b) = int (Z.max a b).
Proof.
  change (Math_max (int a) (int b)) with (if lt (int a) (int b) then int b else int a).
  rewrite lt_int. destruct (Z.ltb_spec a b).
  - now replace (Z.max a b) with b by lia.
  - now replace (Z.max a b) with a by lia.
Qed.

Lemma Math_min_int (a b : Z) : Math_min (int a) (int b) = int (Z.min a b).
Proof.
  change (Math_min (int a) (int b)) with (if lt (int b) (int a) then int b else int a).
  rewrite lt_int. destruct (Z.ltb_spec b a).
  - now replace (Z.min a b) with b by lia.
  - now replace (Z.min a b) with a by lia.
Qed.

Lemma getUsers_page_min (q : UserQueryParams.t) :
  le (int 1) (getUsers_page q) = true.
Proof. apply Math_max_one, numberOr_notNaN. reflexivity. Qed.

Lemma Math_max_notNaN (a b : number) :
  isNaN a = false -> isNaN b = false -> isNaN (Math_max a b) = false.
Proof.
  destruct a as [|sa|qa], b as [|sb|qb]; try discriminate; intros _ _;
    unfold Math_max; match goal with |- context [if ?c then _ else _] => destruct c end;
    reflexivity.
Qed.

Lemma Math_min_range (n : number) :
  le (int 1) n = true ->
  le (int 1) (Math_min (int 100) n) = true
  /\ le (Math_min (int 100) n) (int 100) = true.
Proof.
  destruct n as [|[]|q]; try discriminate; intros L.
  - split; reflexivity.
  - unfold Math_min, int. destruct (lt (Fin q) (Fin (inject_Z 100))) eqn:C.
    + split; [exact L|]. unfold lt in C. unfold le. apply negb_true_iff in C.
      apply Qle_bool_iff. apply Qlt_le_weak. apply Qnot_le_lt.
      intros D. apply Qle_bool_iff in D. congruence.
    + split; reflexivity.
Qed.

Lemma getUsers_limit_range (q : UserQueryParams.t) :
  le (int 1) (getUsers_limit q) = true /\ le (getUsers_limit q) (int 100) = true.
Proof. apply Math_min_range, Math_max_one, numberOr_notNaN. reflexivity. Qed.

Lemma window_length (limit offset : option Z) (rows out : list Pg.row) :
  Pg.window limit offset rows = inl out ->
  forall l, limit = Some l -> (List.length out <= Z.to_nat l)%nat.
Proof.
  unfold Pg.window. intros E l ->.
  destruct (default 0 (Some l) <? 0); [discriminate|].
  destruct (default 0 offset <? 0); [discriminate|].
  injection E as <-. rewrite length_take. lia.
Qed.

Lemma run_Select_limit (conds : list Pg.condition) (order : option (string * bool))
    (l o : nat) (params : list value) (db db' : Pg.database)
    (rows : list Pg.resultRow) :
  Pg.run (Pg.Select conds order (Some (l, o))) params db = inl (rows, db') ->
  exists n, Pg.pgInteger Pg.int8 (Pg.param params l) = inl n
    /\ forall z, n = Some z -> (List.length rows <= Z.to_nat z)%nat.
Proof.
  unfold Pg.run. destruct (Pg.checkParams _ _); [|discriminate].
  destruct (Pg.mapF _ conds) as [tests|]; cbn [Pg.bindF]; [|discriminate].
  destruct (Pg.partitionRows tests (Pg.users db)) as [split|];
    cbn [Pg.bindF]; [|discriminate].
  destruct (Pg.pgInteger Pg.int8 (Pg.param params l)) as [n|];
    cbn [Pg.bindF]; [|discriminate].
  destruct (Pg.pgInteger Pg.int8 (Pg.param params o)) as [m|];
    cbn [Pg.bindF]; [|discriminate].
  destruct (Pg.window n m _) as [out|] eqn:W; [|discriminate].
  intros E. injection E as <- _. exists n. split; [reflexivity|].
  intros z ->. rewrite length_fmap. eapply window_length; eauto.
Qed.

Lemma execute_run (text : string) (params : list value) (db db' : Pg.database)
    (rows : list Pg.resultRow) :
  Pg.execute text params db = inl (rows, db') ->
  exists st db0, Pg.parse text = Some st /\ Pg.run st params db0 = inl (rows, db')
    /\ Pg.users db0 = Pg.users db /\ Pg.now db0 = Pg.now db.
Proof.
  unfold Pg.execute. intros E.
  destruct (Pg.faults db) as [|[] fs]; try discriminate;
    destruct (Pg.parse text) as [st|]; try discriminate;
    exists st; eexists; (split; [reflexivity|]); (split; [exact E|]);
    split; reflexivity.
Qed.

Lemma db_query_returns (text : string) (params : list value) (w w' : world)
    (rows : list Pg.resultRow) :
  db_query text params w = (Return rows, w') ->
  exists db', Pg.execute text params (db w) = inl (rows, db')
    /\ db w' = db' /\ calls w' = calls w.
Proof.
  unfold db_query. destruct (Pg.execute text params (db w)) as [[rs db']|[e db']];
    intros E; [|discriminate].
  injection E as <- <-. exists db'. repeat split.
Qed.

Lemma mapM_length {A B : Type} (f : A -> M B) (l : list A) (l' : list B)
    (w w' : world) :
  mapM f l w = (Return l', w') -> List.length l' = List.length l.
Proof.
  revert l' w w'. induction l as [|a l IH]; intros l' w w'; cbn [mapM].
  - unfold ret. intros [= <- _]. reflexivity.
  - unfold bind. destruct (f a w) as [[b|e] w1]; [|discriminate].
    destruct (mapM f l w1) as [[bs|e] w2] eqn:E; [|discriminate].
    unfold ret. intros [= <- _]. cbn. f_equal. eapply IH, E.
Qed.

Lemma getUsers_returns (q : UserQueryParams.t) (w w' : world)
    (resp : PaginatedUsersResponse.t) :
  getUsers q w = (Return resp, w') ->
  Pagination.page (PaginatedUsersResponse.pagination resp) = getUsers_page q
  /\ Pagination.limit (PaginatedUsersResponse.pagination resp) = getUsers_limit q
  /\ exists w1 w2 rows,
       db_query (getUsers_usersQuery q) (getUsers_usersValues q) w1
       = (Return rows, w2)
       /\ List.length (PaginatedUsersResponse.users resp) = List.length rows.
Proof.
  unfold getUsers, bind, entered, try_catch.
  destruct (db_query (getUsers_countQuery q) _ _) as [[countResult|e] w1];
    [|discriminate].
  destruct (head countResult) as [[r|i|count]|]; unfold ret, throw;
    try discriminate;
    (destruct (db_query (getUsers_usersQuery q) _ w1) as [[rows|e] w2] eqn:Q;
       [|discriminate];
     destruct (mapM _ rows w2) as [[users|e] w3] eqn:U; [|discriminate];
     intros [= <- _]; cbn; repeat split;
     exists w1, w2, rows; split; [exact Q|]; eapply mapM_length, U).
Qed.

Lemma pgInteger_number (range : Z * Z) (n : number) (r : option Z) :
  Pg.pgInteger range (VNumber n) = inl r ->
  exists q z, n = Fin q /\ r = Some z /\ (q == inject_Z z)%Q.
Proof.
  unfold Pg.pgInteger. destruct n as [| |q]; try discriminate.
  destruct (Pos.eqb (Qden (Qred q)) 1) eqn:D; cbn [andb]; [|discriminate].
  destruct (Z.abs (Qnum (Qred q)) <? 10 ^ 21); [|discriminate].
  unfold Pg.inRange. destruct (_ && _); [|discriminate].
  intros [= <-]. exists q, (Qnum (Qred q)). repeat split.
  apply Pos.eqb_eq in D. rewrite <- (Qred_correct q) at 1.
  destruct (Qred q) as [a b]. cbn in D |- *. subst b. apply Qeq_refl.
Qed.

Lemma integerOfString_pattern (s : string) : Pg.integerOfString ("%" ++ s) = None.
Proof. reflexivity. Qed.

Lemma compileCondition_age_pattern (params : list value) (o : Pg.operator)
    (k : nat) (s : string) :
  params !! pred k = Some (VString ("%" ++ s)) ->
  Pg.compileCondition params {| Pg.column := "age"; Pg.op := o; Pg.operand := k |}
  = inr (Pg.SqlState "22P02").
Proof.
  intros E. unfold Pg.compileCondition, Pg.param.
  cbn [Pg.column Pg.operand Pg.op]. rewrite E.
  change (String.eqb "age" "id") with false.
  change (String.eqb "age" "age") with true. cbv iota.
  unfold Pg.pgInteger. cbn [default from_option id].
  now rewrite integerOfString_pattern.
Qed.

Lemma mapF_fails {A B : Type} (f : A -> B + Pg.failure) (l : list A) :
  Exists (fun a => exists e, f a = inr e) l -> exists e, Pg.mapF f l = inr e.
Proof.
  induction 1 as [a l [e E]|a l _ [e IH]]; cbn [Pg.mapF].
  - rewrite E. now exists e.
  - destruct (f a) as [b|e']; cbn [Pg.bindF]; [|now exists e'].
    rewrite IH. now exists e.
Qed.

Lemma run_Count_fails (conds : list Pg.condition) (params : list value)
    (db : Pg.database) :
  Exists (fun c => exists e, Pg.compileCondition params c = inr e) conds ->
  exists e, Pg.run (Pg.Count conds) params db = inr (e, db).
Proof.
  intros X. unfold Pg.run. destruct (Pg.checkParams _ _); [|eauto].
  destruct (mapF_fails _ _ X) as [e ->]. cbn [Pg.bindF]. eauto.
Qed.

Lemma countQuery_age_fails (q : UserQueryParams.t) (db : Pg.database) :
  defined (UserQueryParams.minAge q) || defined (UserQueryParams.maxAge q) = true ->
  exists e db',
    Pg.execute (getUsers_countQuery q) (getUsers_queryValues q) db = inr (e, db').
Proof.
  intros D. unfold Pg.execute.
  destruct (Pg.faults db) as [|[] fs]; [|eauto|];
  (destruct q as [pg lm nm em mn mx sb so];
   cbn [UserQueryParams.minAge UserQueryParams.maxAge] in D;
   destruct nm as [[|c1 s1]|], em as [[|c2 s2]|], mn as [mn|], mx as [mx|];
   try discriminate D;
   match goal with
   | |- context [Pg.parse ?t] =>
       let p := eval vm_compute in (Pg.parse t) in
       change (Pg.parse t) with p
   end; cbv iota;
   match goal with
   | |- exists e db', Pg.run ?st ?ps ?d = _ =>
       destruct (run_Count_fails ltac:(match st with Pg.Count ?c => exact c end) ps d)
         as [e E]; [|exists e; eexists; exact E]
   end;
   repeat first
     [ apply Exists_cons_hd; eexists;
       eapply compileCondition_age_pattern; reflexivity
     | apply Exists_cons_tl ]).
Qed.

Lemma getUsers_age_filter_fails (q : UserQueryParams.t) (w : world) :
  defined (UserQueryParams.minAge q) || defined (UserQueryParams.maxAge q) = true ->
  fst (getUsers q w) = Throw (Error "Failed to fetch users").
Proof.
  intros D. unfold getUsers, bind, entered, try_catch, db_query.
  cbn [db queries calls].
  destruct (countQuery_age_fails q (db w) D) as (e & db' & ->). reflexivity.
Qed.

Lemma lex_app_space (s1 s2 : string) (c : ascii) (cur : string) :
  Pg.isSpace c = true ->
  Pg.lex (s1 ++ String c s2) cur = (Pg.lex s1 cur ++ Pg.lex s2 "")%list.
Proof.
  intros Sp. revert cur. induction s1 as [|d s1 IH]; intros cur.
  - change ("" ++ String c s2) with (String c s2). cbn [Pg.lex]. now rewrite Sp.
  - change (String d s1 ++ String c s2) with (String d (s1 ++ String c s2)).
    cbn [Pg.lex]. destruct (Pg.isSpace d).
    + rewrite IH. now rewrite app_assoc.
    + destruct (Pg.isPunctuation d).
      * rewrite IH. now rewrite <- app_assoc.
      * apply IH.
Qed.

Ltac split_literal :=
  repeat match goal with
         | |- context [match ?s with EmptyString => _ | String _ _ => _ end] =>
             is_var s; destruct s; try discriminate
         | |- context [match ?c with Ascii _ _ _ _ _ _ _ _ => _ end] =>
             is_var c; destruct c
         | |- context [match ?b with true => _ | false => _ end] =>
             is_var b; destruct b; try discriminate
         end.

Lemma parseLimitOffset_length (toks : list string) (lo : option (nat * nat)) :
  Pg.parseLimitOffset toks = Some lo -> toks = [] \/ List.length toks = 4%nat.
Proof.
  unfold Pg.parseLimitOffset.
  destruct toks as [|a [|b [|c [|d [|e toks]]]]]; auto; split_literal.
Qed.

Lemma drop_to_suffix {A : Type} (n : nat) (l suffix rest : list A) :
  rest = drop n (l ++ suffix) -> (n <= 2)%nat -> List.length suffix = 4%nat ->
  rest = [] \/ List.length rest = 4%nat -> rest = suffix.
Proof.
  intros -> N S L.
  assert (E : List.length l = n).
  { rewrite length_drop, length_app in L.
    destruct L as [L|L]; [apply (f_equal List.length) in L;
                          rewrite length_drop, length_app in L; cbn in L; lia|lia]. }
  subst n. apply drop_app_length.
Qed.

Lemma parseOrderBy_rest (toks rest : list string) (o : option (string * bool)) :
  Pg.parseOrderBy toks = Some (o, rest) ->
  rest = toks \/ rest = drop 3 toks \/ rest = drop 4 toks.
Proof.
  unfold Pg.parseOrderBy.
  destruct toks as [|a [|b [|c toks]]].
  - intros [= <- <-]. now left.
  - split_literal; intros [= <- <-]; now left.
  - split_literal; intros [= <- <-]; now left.
  - split_literal; try (intros [= <- <-]; now left).
    destruct (Pg.isColumn c); [|discriminate].
    destruct toks as [|d toks]; [intros [= <- <-]; right; now left|].
    split_literal; intros [= <- <-]; auto.
Qed.

Lemma select_tail (sort tail rest : list string) (order : option (string * bool))
    (lo : option (nat * nat)) :
  List.length tail = 4%nat ->
  Pg.parseOrderBy ("order" :: "by" :: sort ++ tail)%list = Some (order, rest) ->
  Pg.parseLimitOffset rest = Some lo -> rest = tail.
Proof.
  intros T O L. apply parseOrderBy_rest in O. apply parseLimitOffset_length in L.
  destruct O as [O|[O|O]].
  - exfalso. subst rest. destruct L as [L|L]; [discriminate L|].
    cbn in L. rewrite length_app in L. lia.
  - apply (drop_to_suffix 1 sort tail); [exact O|lia|exact T|exact L].
  - apply (drop_to_suffix 2 sort tail); [exact O|lia|exact T|exact L].
Qed.

(** The text of the page statement around the sort fields. *)
Lemma usersQuery_parts (q : UserQueryParams.t) :
  getUsers_usersQuery q
  = ("
        SELECT * FROM users
        " ++ getUsers_whereClause q ++ "
        ORDER BY")
    ++ String " "
         ((stringOr (UserQueryParams.sortBy q) "created_at" ++ " "
             ++ stringOr (UserQueryParams.sortOrder q) "DESC")
          ++ String "010"
               ("        LIMIT $" ++ pretty (getUsers_paramIndex q)
                  ++ " OFFSET $" ++ pretty (getUsers_paramIndex q + 1) ++ "
        ")).
Proof.
  destruct q as [pg lm nm em mn mx sb so].
  destruct nm as [[|c1 s1]|], em as [[|c2 s2]|], mn as [mn|], mx as [mx|];
    reflexivity.
Qed.

Lemma parse_usersQuery_page (q : UserQueryParams.t) (st : Pg.statement) :
  UserQueryParams.minAge q = None -> UserQueryParams.maxAge q = None ->
  Pg.parse (getUsers_usersQuery q) = Some st ->
  exists conds order l o,
    st = Pg.Select conds order (Some (l, o))
    /\ Pg.param (getUsers_usersValues q) l = VNumber (getUsers_limit q).
Proof.
  intros A B. unfold Pg.parse, Pg.tokens. rewrite usersQuery_parts.
  rewrite !lex_app_space by reflexivity. rewrite !fmap_app.
  generalize (toLowerCase
                <$> Pg.lex (stringOr (UserQueryParams.sortBy q) "created_at" ++ " "
                              ++ stringOr (UserQueryParams.sortOrder q) "DESC") "")
    as sort.
  destruct q as [pg lm nm em mn mx sb so].
  cbn [UserQueryParams.minAge UserQueryParams.maxAge] in A, B. subst mn mx.
  intros sort.
  destruct nm as [[|c1 s1]|], em as [[|c2 s2]|];
    match goal with
    | |- context [(?a ++ sort ++ ?c)%list] =>
        let a' := eval vm_compute in a in
        let c' := eval vm_compute in c in
        change a with a'; change c with c'
    end;
    cbn [app];
    match goal with
    | |- context [Pg.parseWhere ?t] =>
        let r := eval vm_compute in (Pg.parseWhere t) in
        change (Pg.parseWhere t) with r
    end; cbv iota beta;
    match goal with
    | |- context [Pg.parseOrderBy ?t] =>
        destruct (Pg.parseOrderBy t) as [[order rest]|] eqn:O; [|discriminate]
    end;
    (destruct (Pg.parseLimitOffset rest) as [lo|] eqn:L; [|discriminate]);
    intros [= <-];
    pose proof (fun T => select_tail sort _ rest order lo T O L) as R;
    specialize (R eq_refl);
    subst rest; vm_compute in L; injection L as <-;
    do 4 eexists; (split; reflexivity).
Qed.

Lemma mapM_userToResponse_world (rows : list Pg.resultRow) (w : world) :
  snd (mapM (fun user => userToResponse (Some user)) rows w) = w.
Proof.
  induction rows as [|r rows IH]; [reflexivity|].
  cbn [mapM]. unfold bind. destruct r as [u|i|c]; cbn [userToResponse];
    unfold ret at 1, throw; [|reflexivity..].
  destruct (mapM _ rows w) as [[l|e] w']; cbn [snd] in IH |- *; exact IH.
Qed.

Lemma string_app_assoc (a b c : string) : (a ++ b) ++ c = a ++ (b ++ c).
Proof.
  induction a as [|x a IH]; [reflexivity|].
  change (String x ((a ++ b) ++ c) = String x (a ++ (b ++ c))). now rewrite IH.
Qed.

(** What [getUsers] sends: the count, and then, if the count came back,
    the page statement with the limit and the offset bound last. *)
Lemma getUsers_sends (q : UserQueryParams.t) (w : world) :
  queries (snd (getUsers q w))
  = (queries w
       ++ (getUsers_countQuery q, getUsers_queryValues q)
          :: match Pg.execute (getUsers_countQuery q) (getUsers_queryValues q)
                     (db w) with
             | inl (_ :: _, _) => [(getUsers_usersQuery q, getUsers_usersValues q)]
             | _ => []
             end)%list.
Proof.
  unfold getUsers, bind, entered, try_catch, db_query. cbn [db queries calls].
  destruct (Pg.execute (getUsers_countQuery q) _ (db w)) as [[rows d]|[e d]];
    [|reflexivity].
  destruct rows as [|r rows]; [reflexivity|]. cbn [head].
  destruct r as [u|i|c]; unfold ret at 1; cbn [db queries calls];
    (destruct (Pg.execute (getUsers_usersQuery q) _ d) as [[rows' d']|[e d']];
       [|cbn [snd queries]; now rewrite <- app_assoc]);
    match goal with
    | |- context [mapM ?f rows' ?w0] =>
        pose proof (mapM_userToResponse_world rows' w0) as Mw;
        destruct (mapM f rows' w0) as [[l|e] w1]
    end; cbn [snd] in Mw; subst w1; cbn [snd queries]; now rewrite <- app_assoc.
Qed.

Lemma getUsers_returned (q : UserQueryParams.t) (w : world)
    (resp : PaginatedUsersResponse.t) :
  fst (getUsers q w) = Return resp ->
  exists r rows d,
    Pg.execute (getUsers_countQuery q) (getUsers_queryValues q) (db w)
    = inl (r :: rows, d).
Proof.
  unfold getUsers, bind, entered, try_catch, db_query. cbn [db queries calls].
  destruct (Pg.execute (getUsers_countQuery q) _ (db w)) as [[rows d]|[e d]];
    [|discriminate].
  destruct rows as [|r rows]; [discriminate|]. eauto.
Qed.

Lemma offset_int (p l : Z) : mul (sub (int p) (int 1)) (int l) = int ((p - 1) * l).
Proof.
  unfold int, sub, mul, inject_Z, Qminus, Qplus, Qopp, Qmult. cbn [Qnum Qden].
  do 2 f_equal. lia.
Qed.

Lemma paramIndex_length (q : UserQueryParams.t) :
  getUsers_paramIndex q = Z.of_nat (List.length (getUsers_queryValues q)) + 1.
Proof.
  destruct q as [pg lm nm em mn mx sb so].
  destruct nm as [[|c1 s1]|], em as [[|c2 s2]|], mn as [mn|], mx as [mx|];
    reflexivity.
Qed.

Lemma getUsers_page_size (q : UserQueryParams.t) (w w' : world)
    (resp : PaginatedUsersResponse.t) :
  getUsers q w = (Return resp, w') ->
  le (int (Z.of_nat (List.length (PaginatedUsersResponse.users resp))))
     (getUsers_limit q) = true.
Proof.
  intros R.
  destruct (getUsers_limit_range q) as [L1 L2].
  destruct (getUsers_returns _ _ _ _ R) as (_ & _ & w1 & w2 & rows & Q & ->).
  destruct (db_query_returns _ _ _ _ _ Q) as (db' & X & _).
  destruct (execute_run _ _ _ _ _ X) as (st & db0 & P & Run & _).
  destruct (defined (UserQueryParams.minAge q) || defined (UserQueryParams.maxAge q))
    eqn:D.
  { pose proof (getUsers_age_filter_fails q w D) as F. rewrite R in F.
    discriminate F. }
  apply orb_false_iff in D as [Da Db].
  destruct (parse_usersQuery_page q st) as (conds & order & l & o & -> & Par);
    [now destruct (UserQueryParams.minAge q)
    |now destruct (UserQueryParams.maxAge q)|exact P|].
  destruct (run_Select_limit _ _ _ _ _ _ _ _ Run) as (n & I & B).
  rewrite Par in I.
  destruct (pgInteger_number _ _ _ I) as (ql & z & Eq & -> & Hq).
  specialize (B z eq_refl). rewrite Eq in L1 |- *.
  unfold le, int in L1 |- *. apply Qle_bool_iff in L1. apply Qle_bool_iff.
  rewrite Hq in L1 |- *. rewrite <- Zle_Qle in L1 |- *. lia.
Qed.

(** C5, amended.  [getUsers] normalizes the pagination: the page is 1 when
    absent and never below 1; the limit is always within 1 .. 100, and is
    10 when absent and also when it is 0, which [||] takes for absent (so
    a limit below 1 is not always raised to 1); for whole pages and limits
    with page * limit up to 2^53 the offset is (page - 1) * limit.  Limit
    and offset are what [db.query] gets: the page statement ends in
    [LIMIT $n OFFSET $n+1], where n - 1 filter values come first, and
    [getUsers] sends the count statement and then, unless the count failed,
    the page statement with the filter values, the limit and the offset.
    Whenever [getUsers] returns, for every list request, both statements
    have been sent and the response carries the normalized page and limit
    and at most limit records. *)
Theorem getUsers_pagination (q : UserQueryParams.t) (w : world) :
  (* page: default 1, never below 1 *)
  le (int 1) (getUsers_page q) = true
  /\ (UserQueryParams.page q = None \/ UserQueryParams.page q = Some NaN ->
      getUsers_page q = int 1)
  /\ (forall z, UserQueryParams.page q = Some (int z) ->
        getUsers_page q = int (Z.max 1 z))
  (* limit: always within 1 .. 100; 10 when absent, and when 0 *)
  /\ le (int 1) (getUsers_limit q) = true
  /\ le (getUsers_limit q) (int 100) = true
  /\ (UserQueryParams.limit q = None \/ UserQueryParams.limit q = Some NaN
      \/ UserQueryParams.limit q = Some (int 0) ->
      getUsers_limit q = int 10)
  /\ (forall z, UserQueryParams.limit q = Some (int z) -> z <> 0 ->
        getUsers_limit q = int (Z.min 100 (Z.max 1 z)))
  (* the offset, and how limit and offset reach the database *)
  /\ exists offset,
       let count := (getUsers_countQuery q, getUsers_queryValues q) in
       let page :=
         (getUsers_usersQuery q,
          (getUsers_queryValues q
             ++ [VNumber (getUsers_limit q); VNumber offset])%list) in
       let k := Z.of_nat (List.length (getUsers_queryValues q)) in
       (forall p l,
          getUsers_page q = int p -> getUsers_limit q = int l ->
          p * l <= 9007199254740992 -> offset = int ((p - 1) * l))
       /\ (exists text,
             getUsers_usersQuery q
             = text ++ "LIMIT $" ++ pretty (k + 1)
                 ++ " OFFSET $" ++ pretty (k + 2) ++ "
        ")
       /\ queries (snd (getUsers q w))
          = (queries w
               ++ count
                  :: match Pg.execute (fst count) (snd count) (db w) with
                     | inl (_ :: _, _) => [page]
                     | _ => []
                     end)%list
       (* the page that comes back *)
       /\ forall resp,
            fst (getUsers q w) = Return resp ->
            queries (snd (getUsers q w)) = (queries w ++ [count; page])%list
            /\ Pagination.page (PaginatedUsersResponse.pagination resp)
               = getUsers_page q
            /\ Pagination.limit (PaginatedUsersResponse.pagination resp)
               = getUsers_limit q
            /\ le (int (Z.of_nat
                          (List.length (PaginatedUsersResponse.users resp))))
                  (getUsers_limit q) = true.
Proof.
  destruct (getUsers_limit_range q) as [L1 L2].
  split; [apply getUsers_page_min|].
  split; [intros [E|E]; unfold getUsers_page; now rewrite E|].
  split.
  { intros z E. unfold getUsers_page. rewrite E. unfold numberOr.
    rewrite ToBoolean_int. destruct (Z.eqb_spec z 0) as [->|Hz]; [reflexivity|].
    cbn [negb]. apply Math_max_int. }
  split; [exact L1|]. split; [exact L2|].
  split; [intros [E|[E|E]]; unfold getUsers_limit; now rewrite E|].
  split.
  { intros z E Hz. unfold getUsers_limit. rewrite E. unfold numberOr.
    rewrite ToBoolean_int. destruct (Z.eqb_spec z 0) as [?|_]; [contradiction|].
    cbn [negb]. rewrite Math_max_int. apply Math_min_int. }
  exists (getUsers_offset q). cbv zeta. cbn [fst snd].
  fold (getUsers_usersValues q).
  split.
  { intros p l Ep El _. unfold getUsers_offset. rewrite Ep, El. apply offset_int. }
  split.
  { rewrite usersQuery_parts, <- paramIndex_length.
    replace (Z.of_nat (List.length (getUsers_queryValues q)) + 2)
      with (getUsers_paramIndex q + 1) by (rewrite paramIndex_length; lia).
    eexists. rewrite <- string_app_assoc.
    change (String "010" ("        LIMIT $" ++ ?r)) with ("
        " ++ ("LIMIT $" ++ r)).
    rewrite <- (string_app_assoc _ _ ("LIMIT $" ++ _)).
    change (String " " (?a ++ ?b)) with ((String " " a) ++ b).
    rewrite <- string_app_assoc. reflexivity. }
  split; [apply getUsers_sends|].
  intros resp R. rewrite getUsers_sends.
  destruct (getUsers_returned _ _ _ R) as (r & rows & d & ->).
  split; [reflexivity|].
  destruct (getUsers q w) as [c w'] eqn:G. cbn [fst] in R. subst c.
  destruct (getUsers_returns _ _ _ _ G) as (P1 & P2 & _).
  split; [exact P1|]. split; [exact P2|]. exact (getUsers_page_size _ _ _ _ G).
Qed.

(** C3 (as the code has it).  For the scenario of the specification,
    [minAge=30&maxAge=40&sortBy=age&sortOrder=ASC], the parameters bound
    to [age >= $1] and [age <= $2] are the strings "%30%" and "%40%", not
    the numbers 30 and 40: the two age blocks wrap the bound in the [%]
    of the [ILIKE] blocks above them.  The server cannot read them as
    integers, so [getUsers] throws and the handler answers 500; the same
    holds for every request that carries an age bound. *)
Theorem getUsers_age_bounds :
  getUsers_countQuery byAge
    = "SELECT COUNT(*) FROM users WHERE age >= $1 AND age <= $2"
  /\ getUsers_queryValues byAge = [VString "%30%"; VString "%40%"]
  /\ (forall w, fst (getUsers byAge w) = Throw (Error "Failed to fetch users"))
  /\ fst (listUsers
            (Example.request
               [("minAge", "30"); ("maxAge", "40"); ("sortBy", "age");
                ("sortOrder", "ASC")] None [])
            Example.sampleWorld)
     = Return {| status := 500;
                 json := Failed "Internal server error" "Failed to fetch users" |}.
Proof.
  split; [reflexivity|]. split; [reflexivity|]. split.
  - intros w. now apply getUsers_age_filter_fails.
  - assert (R : listUsers
                  (Example.request
                     [("minAge", "30"); ("maxAge", "40"); ("sortBy", "age");
                      ("sortOrder", "ASC")] None [])
                = try_catch
                    (bind (getUsers byAge)
                       (fun result => respond 200
                          (Succeeded "Users retrieved successfully" (Listed result))))
                    (fun error => respond 500
                       (Failed "Internal server error" (message error))))
      by reflexivity.
    rewrite R. unfold try_catch, bind.
    generalize (getUsers_age_filter_fails byAge Example.sampleWorld eq_refl).
    destruct (getUsers byAge Example.sampleWorld) as [[r|e] w']; cbn [fst];
      [discriminate|]. now intros [= ->].
Qed.

End ListProperties.

Lemma getUsers_text_fixed_by_shape_witness :
  getUsers_usersQuery
    (listRequest (Some (int 2)) None (Some "ann") None (Some (int 30)) None
       (Some "name") None)
  = getUsers_usersQuery
      (listRequest None (Some (int 5)) (Some "bob") None (Some (int 18)) None
         (Some "name") (Some "DESC")).
Proof.
  apply (getUsers_text_fixed_by_shape
           (listRequest (Some (int 2)) None (Some "ann") None (Some (int 30)) None
              (Some "name") None)
           (listRequest None (Some (int 5)) (Some "bob") None (Some (int 18)) None
              (Some "name") (Some "DESC")));
    reflexivity.
Defined.

(** C4 as stated fails on the sort fields: they are spliced into the text,
    so two requests that differ in [sortBy] alone send different texts. *)
Lemma getUsers_text_depends_on_sort :
  ~ (forall p q : UserQueryParams.t,
       sameFields p q -> getUsers_usersQuery p = getUsers_usersQuery q).
Proof.
  intros C.
  specialize (C (listRequest None None None None None None (Some "name") None)
                (listRequest None None None None None None (Some "age") None)).
  discriminate C. repeat split.
Qed.

Lemma getUsers_pagination_witness :
  match getUsers (listRequest (Some (int 2)) (Some (int 2)) None None None None
                    (Some "age") (Some "ASC")) Example.sampleWorld with
  | (Return resp, w') =>
      queries w'
      = [("SELECT COUNT(*) FROM users ", []);
         ("
        SELECT * FROM users
        
        ORDER BY age ASC
        LIMIT $1 OFFSET $2
        ", [VNumber (int 2); VNumber (int 2)])]
      /\ le (int (Z.of_nat (List.length (PaginatedUsersResponse.users resp))))
            (int 2) = true
  | (Throw _, _) => False
  end.
Proof.
  destruct (getUsers_pagination
              (listRequest (Some (int 2)) (Some (int 2)) None None None None
                 (Some "age") (Some "ASC")) Example.sampleWorld)
    as (_ & _ & _ & _ & _ & _ & _ & offset & O & _ & _ & F).
  rewrite (O 2 2 eq_refl eq_refl ltac:(lia)) in F.
  destruct (getUsers _ Example.sampleWorld) as [[resp|e] w'] eqn:E.
  - destruct (F resp eq_refl) as (Q & _ & _ & L). split; [exact Q|exact L].
  - vm_compute in E. discriminate E.
Defined.

(** C5 as stated fails on a limit of 0: it is not raised to 1 but replaced
    by the default, 10. *)
Lemma getUsers_limit_zero_is_default :
  ~ (forall (q : UserQueryParams.t) (z : Z),
       UserQueryParams.limit q = Some (int z) ->
       getUsers_limit q = int (Z.min 100 (Z.max 1 z))).
Proof.
  intros C.
  specialize (C (listRequest None (Some (int 0)) None None None None None None)
                0 eq_refl).
  vm_compute in C. discriminate C.
Qed.

(** ** Updating: what the statement sets and what it leaves *)

Section UpdateProperties.
Context `{Host}.

Lemma updateUser_fields_setClause (id : number) (s : object) :
  fst (fst (updateUser_fields id s)) = setClause s.
Proof.
  unfold updateUser_fields, setClause, presentFields. cbn [List.filter].
  destruct (isUndefined (prop s "name")), (isUndefined (prop s "email")),
    (isUndefined (prop s "age")); reflexivity.
Qed.

(** The text of the [UPDATE] depends on which fields are defined, not on
    their values nor on the id. *)
Lemma updateUser_query_fixed_by_shape (id1 id2 : number) (s1 s2 : object) :
  presentFields s1 = presentFields s2 ->
  updateUser_query id1 s1 = updateUser_query id2 s2.
Proof.
  unfold presentFields, updateUser_query, updateUser_fields. cbn [List.filter].
  destruct (isUndefined (prop s1 "name")), (isUndefined (prop s1 "email")),
    (isUndefined (prop s1 "age")), (isUndefined (prop s2 "name")),
    (isUndefined (prop s2 "email")), (isUndefined (prop s2 "age"));
    cbn [negb]; intros E; try discriminate E; reflexivity.
Qed.

Lemma parse_updateUser_query (id : number) (s : object) :
  exists sets k,
    Pg.parse (updateUser_query id s)
    = Some (Pg.Update sets [{| Pg.column := "id"; Pg.op := Pg.Eq; Pg.operand := k |}])
    /\ fst <$> sets = (presentFields s ++ ["updated_at"])%list.
Proof.
  unfold updateUser_query, updateUser_fields, presentFields. cbn [List.filter].
  destruct (isUndefined (prop s "name")), (isUndefined (prop s "email")),
    (isUndefined (prop s "age")); cbn [negb];
    (do 2 eexists; split; [vm_compute; reflexivity|reflexivity]).
Qed.

Lemma mapF_Forall2 {A B : Type} (f : A -> B + Pg.failure) (l : list A) (l' : list B) :
  Pg.mapF f l = inl l' -> Forall2 (fun a b => f a = inl b) l l'.
Proof.
  revert l'. induction l as [|a l IH]; intros l'; cbn [Pg.mapF].
  - intros [= <-]. constructor.
  - destruct (f a) as [b|] eqn:E; cbn [Pg.bindF]; [|discriminate].
    destruct (Pg.mapF f l) as [bs|]; cbn [Pg.bindF]; [|discriminate].
    intros [= <-]. constructor; auto.
Qed.

Lemma assign_frame (params : list value) (now : Z) (d d' : Pg.draft)
    (a : string * Pg.expr) :
  Pg.assign params now d a = inl d' ->
  (fst a <> "id" -> Pg.d_id d' = Pg.d_id d)
  /\ (fst a <> "name" -> Pg.d_name d' = Pg.d_name d)
  /\ (fst a <> "email" -> Pg.d_email d' = Pg.d_email d)
  /\ (fst a <> "age" -> Pg.d_age d' = Pg.d_age d)
  /\ (fst a <> "created_at" -> Pg.d_created_at d' = Pg.d_created_at d).
Proof.
  destruct a as [col e]. unfold Pg.assign. cbn [fst].
  destruct e as [n|].
  - destruct (String.eqb_spec col "id") as [->|_].
    { destruct (Pg.pgInteger _ _); cbn [Pg.bindF]; [|discriminate].
      intros [= <-]. cbn. repeat split; congruence. }
    destruct (String.eqb_spec col "name") as [->|_].
    { destruct (Pg.pgText _); cbn [Pg.bindF]; [|discriminate].
      intros [= <-]. cbn. repeat split; congruence. }
    destruct (String.eqb_spec col "email") as [->|_].
    { destruct (Pg.pgText _); cbn [Pg.bindF]; [|discriminate].
      intros [= <-]. cbn. repeat split; congruence. }
    destruct (String.eqb_spec col "age") as [->|_]; [|discriminate].
    destruct (Pg.pgInteger _ _); cbn [Pg.bindF]; [|discriminate].
    intros [= <-]. cbn. repeat split; congruence.
  - destruct (String.eqb_spec col "created_at") as [->|_].
    { intros [= <-]. cbn. repeat split; congruence. }
    destruct (String.eqb_spec col "updated_at") as [->|_]; [|discriminate].
    intros [= <-]. cbn. repeat split; congruence.
Qed.

Lemma assignAll_frame (params : list value) (now : Z)
    (sets : list (string * Pg.expr)) (d d' : Pg.draft) :
  Pg.assignAll params now d sets = inl d' ->
  ("id" ∉ fst <$> sets -> Pg.d_id d' = Pg.d_id d)
  /\ ("name" ∉ fst <$> sets -> Pg.d_name d' = Pg.d_name d)
  /\ ("email" ∉ fst <$> sets -> Pg.d_email d' = Pg.d_email d)
  /\ ("age" ∉ fst <$> sets -> Pg.d_age d' = Pg.d_age d)
  /\ ("created_at" ∉ fst <$> sets -> Pg.d_created_at d' = Pg.d_created_at d).
Proof.
  revert d. induction sets as [|a sets IH]; intros d; cbn [Pg.assignAll].
  - intros [= <-]. repeat split.
  - destruct (Pg.assign params now d a) as [d1|] eqn:A; cbn [Pg.bindF];
      [|discriminate].
    intros E. destruct (IH _ E) as (I1 & I2 & I3 & I4 & I5).
    destruct (assign_frame _ _ _ _ _ A) as (A1 & A2 & A3 & A4 & A5).
    rewrite fmap_cons.
    repeat split; intros N; apply not_elem_of_cons in N as [N1 N2].
    + rewrite I1, A1; auto.
    + rewrite I2, A2; auto.
    + rewrite I3, A3; auto.
    + rewrite I4, A4; auto.
    + rewrite I5, A5; auto.
Qed.

Lemma varchar_fixed (n : nat) (s t : string) :
  Pg.varchar n s = inl s -> Pg.varchar n s = inl t -> t = s.
Proof. congruence. Qed.

Lemma constrain_fields (d : Pg.draft) (u : Pg.row) :
  Pg.constrain d = inl u ->
  Pg.d_id d = Some (Pg.id u) /\ Pg.d_age d = Pg.age u
  /\ Pg.d_created_at d = Some (Pg.created_at u)
  /\ Pg.d_updated_at d = Some (Pg.updated_at u)
  /\ (exists n, Pg.d_name d = Some n /\ Pg.varchar 100 n = inl (Pg.name u))
  /\ (exists e, Pg.d_email d = Some e /\ Pg.varchar 255 e = inl (Pg.email u)).
Proof.
  unfold Pg.constrain.
  destruct (Pg.d_id d) as [i|], (Pg.d_name d) as [n|], (Pg.d_email d) as [e|],
    (Pg.d_created_at d) as [c|], (Pg.d_updated_at d) as [t|]; try discriminate.
  destruct (Pg.varchar 100 n) as [n'|] eqn:V; cbn [Pg.bindF]; [|discriminate].
  destruct (Pg.varchar 255 e) as [e'|] eqn:X; cbn [Pg.bindF]; [|discriminate].
  destruct (_ <? _)%nat; [discriminate|].
  match goal with |- context [if ?c then _ else _] => destruct c end;
    [discriminate|].
  intros [= <-]. cbn. repeat split; eexists; (split; [reflexivity|assumption]).
Qed.

(** What the row returned by an [UPDATE] owes to the row it replaces. *)
Lemma update_frame (params : list value) (now : Z)
    (sets : list (string * Pg.expr)) (old u : Pg.row) (d : Pg.draft) :
  Pg.constrain (Pg.draftOf old) = inl old ->
  Pg.assignAll params now (Pg.draftOf old) sets = inl d ->
  Pg.constrain (Pg.update_updated_at_column now d) = inl u ->
  Pg.updated_at u = now
  /\ ("id" ∉ fst <$> sets -> Pg.id u = Pg.id old)
  /\ ("name" ∉ fst <$> sets -> Pg.name u = Pg.name old)
  /\ ("email" ∉ fst <$> sets -> Pg.email u = Pg.email old)
  /\ ("age" ∉ fst <$> sets -> Pg.age u = Pg.age old)
  /\ ("created_at" ∉ fst <$> sets -> Pg.created_at u = Pg.created_at old).
Proof.
  intros W A K.
  destruct (constrain_fields _ _ W) as (_ & _ & _ & _ & (n0 & N0 & V0) & (e0 & E0 & X0)).
  cbn in N0, E0. injection N0 as <-. injection E0 as <-.
  destruct (constrain_fields _ _ K) as (K1 & K2 & K3 & K4 & (n & N & V) & (e & E & X)).
  cbn in K1, K2, K3, K4, N, E.
  destruct (assignAll_frame _ _ _ _ _ A) as (A1 & A2 & A3 & A4 & A5).
  cbn in A1, A2, A3, A4, A5.
  split; [congruence|]. repeat split; intros M.
  - specialize (A1 M). congruence.
  - specialize (A2 M). rewrite A2 in N. injection N as <-. congruence.
  - specialize (A3 M). rewrite A3 in E. injection E as <-. congruence.
  - specialize (A4 M). congruence.
  - specialize (A5 M). congruence.
Qed.



Lemma run_Select_keeps (conds : list Pg.condition) (order : option (string * bool))
    (lo : option (nat * nat)) (params : list value) (db : Pg.database) :
  after (Pg.run (Pg.Select conds order lo) params db) = db.
Proof.
  unfold Pg.run. destruct (Pg.checkParams _ _); [|reflexivity].
  match goal with
  | |- context [match ?x with inl _ => _ | inr _ => _ end] => destruct x
  end; reflexivity.
Qed.

Lemma db_query_Select_keeps (text : string) (params : list value) (w : world)
    (conds : list Pg.condition) (order : option (string * bool))
    (lo : option (nat * nat)) :
  Pg.parse text = Some (Pg.Select conds order lo) ->
  Pg.users (db (snd (db_query text params w))) = Pg.users (db w)
  /\ Pg.now (db (snd (db_query text params w))) = Pg.now (db w).
Proof.
  intros P. unfold db_query, Pg.execute. rewrite P.
  destruct (Pg.faults (db w)) as [|[] fs];
    try (split; reflexivity);
    match goal with
    | |- context [Pg.run ?st ?ps ?d] =>
        generalize (run_Select_keeps conds order lo ps d);
        destruct (Pg.run st ps d) as [[rows d']|[e d']]
    end; cbn [after snd db]; intros ->; split; reflexivity.
Qed.

Lemma getUserById_keeps (id : number) (w : world) :
  Pg.users (db (snd (getUserById id w))) = Pg.users (db w)
  /\ Pg.now (db (snd (getUserById id w))) = Pg.now (db w).
Proof.
  unfold getUserById, bind, entered.
  destruct (UserService.invalidId id); [split; reflexivity|].
  unfold try_catch, bind.
  match goal with
  | |- context [db_query ?t ?ps ?w0] =>
      destruct (db_query_Select_keeps t ps w0 _ _ _ ltac:(vm_compute; reflexivity))
        as [U N];
      destruct (db_query t ps w0) as [[rows|e] w1]
  end; cbn [snd db] in U, N.
  - destruct (List.length rows =? 0)%nat; [split; assumption|].
    unfold userToResponse.
    destruct (head rows) as [[user| |]|]; split; assumption.
  - split; assumption.
Qed.

Lemma findUserByEmail_keeps (email : value) (w : world) :
  Pg.users (db (snd (findUserByEmail email w))) = Pg.users (db w)
  /\ Pg.now (db (snd (findUserByEmail email w))) = Pg.now (db w).
Proof.
  unfold findUserByEmail, try_catch, bind.
  match goal with
  | |- context [db_query ?t ?ps ?w0] =>
      destruct (db_query_Select_keeps t ps w0 _ _ _ ltac:(vm_compute; reflexivity))
        as [U N];
      destruct (db_query t ps w0) as [[rows|e] w1]
  end; cbn [snd db] in U, N; split; assumption.
Qed.

Lemma updateUser_emailCheck_keeps (s : object) (u : UserResponse.t) (w : world) :
  Pg.users (db (snd (updateUser_emailCheck s u w))) = Pg.users (db w)
  /\ Pg.now (db (snd (updateUser_emailCheck s u w))) = Pg.now (db w).
Proof.
  unfold updateUser_emailCheck.
  destruct (_ && _); [|split; reflexivity].
  unfold bind. destruct (findUserByEmail_keeps (prop s "email") w) as [U N].
  destruct (findUserByEmail (prop s "email") w) as [[[found|]|e] w1];
    cbn [snd] in U, N |- *; split; assumption.
Qed.

Lemma absent_undefined (updateData s : object) (field : string) :
  dom s = dom updateData -> updateData !! field = None ->
  prop s field = VUndefined.
Proof.
  intros D A. unfold prop. replace (s !! field) with (@None value); [reflexivity|].
  symmetry. apply not_elem_of_dom. rewrite D. now apply not_elem_of_dom.
Qed.

Lemma undefined_not_set (s : object) (field : string) :
  prop s field = VUndefined -> field <> "updated_at" ->
  field ∉ (presentFields s ++ ["updated_at"])%list.
Proof.
  intros P N M. apply elem_of_app in M as [M|M].
  - unfold presentFields in M.
    apply list_elem_of_In, filter_In in M as [_ M]. rewrite P in M. discriminate M.
  - apply list_elem_of_singleton in M. contradiction.
Qed.

Lemma fixed_not_set (s : object) (field : string) :
  field = "id" \/ field = "created_at" ->
  field ∉ (presentFields s ++ ["updated_at"])%list.
Proof.
  intros N M. apply elem_of_app in M as [M|M].
  - unfold presentFields in M.
    apply list_elem_of_In, filter_In in M as [M _]. cbn in M.
    destruct N as [-> | ->]; intuition discriminate.
  - apply list_elem_of_singleton in M. destruct N as [-> | ->]; discriminate M.
Qed.

Lemma userToResponse_returns (o : option Pg.resultRow) (w w' : world)
    (r : UserResponse.t) :
  userToResponse o w = (Return r, w') ->
  exists u, o = Some (Pg.UserRow u)
    /\ UserResponse.id r = Pg.id u /\ UserResponse.name r = Pg.name u
    /\ UserResponse.email r = Pg.email u /\ UserResponse.age r = Pg.age u
    /\ UserResponse.created_at r = Pg.created_at u
    /\ UserResponse.updated_at r = Pg.updated_at u.
Proof.
  unfold userToResponse. destruct o as [[u| |]|]; try discriminate.
  unfold ret. intros [= <- _]. exists u. repeat split.
Qed.

(** The [WHERE] clause of the [UPDATE] compares the id with the last
    value bound, which is the id asked for. *)
Lemma parse_updateUser_where (id : number) (s : object) :
  exists sets k,
    Pg.parse (updateUser_query id s)
    = Some (Pg.Update sets [{| Pg.column := "id"; Pg.op := Pg.Eq; Pg.operand := k |}])
    /\ Pg.param (updateUser_values id s) k = VNumber id.
Proof.
  unfold updateUser_query, updateUser_values, updateUser_fields.
  destruct (isUndefined (prop s "name")), (isUndefined (prop s "email")),
    (isUndefined (prop s "age")); cbn [negb];
    (do 2 eexists; split; [vm_compute; reflexivity|reflexivity]).
Qed.

Lemma passes_id (z : option Z) (r : Pg.row) :
  Pg.passes [fun r => Pg.compareInt Pg.Eq (Some (Pg.id r)) z] r
  = inl (match z with Some z => hasId z r | None => false end).
Proof.
  unfold Pg.passes, Pg.compareInt, hasId. cbn.
  destruct z as [z|]; cbn; [|reflexivity]. destruct (Pg.id r =? z); reflexivity.
Qed.

(** What an [UPDATE ... WHERE id = $k] that succeeds returns, and the table
    it leaves. *)
Lemma run_Update_table (sets : list (string * Pg.expr)) (k : nat)
    (params : list value) (db db' : Pg.database) (rows : list Pg.resultRow) :
  Pg.run (Pg.Update sets [{| Pg.column := "id"; Pg.op := Pg.Eq; Pg.operand := k |}])
         params db = inl (rows, db') ->
  exists z : option Z,
    Pg.pgInteger Pg.int4 (Pg.param params k) = inl z
    /\ NoDup (Pg.id <$> Pg.users db')
    /\ Forall2
         (fun old new =>
            if match z with Some z => hasId z old | None => false end
            then Pg.UserRow new ∈ rows
                 /\ exists d,
                      Pg.assignAll params (Pg.now db) (Pg.draftOf old) sets = inl d
                      /\ Pg.constrain (Pg.update_updated_at_column (Pg.now db) d)
                         = inl new
            else new = old)
         (Pg.users db) (Pg.users db')
    /\ forall u, Pg.UserRow u ∈ rows ->
         u ∈ Pg.users db'
         /\ exists old d,
              old ∈ Pg.users db
              /\ match z with Some z => hasId z old = true | None => False end
              /\ Pg.assignAll params (Pg.now db) (Pg.draftOf old) sets = inl d
              /\ Pg.constrain (Pg.update_updated_at_column (Pg.now db) d) = inl u.
Proof.
  unfold Pg.run. destruct (Pg.checkParams _ _) as [[]|]; [|discriminate].
  destruct (negb _); [discriminate|].
  cbn [Pg.mapF]. unfold Pg.compileCondition. cbn [Pg.column Pg.op Pg.operand].
  change (String.eqb "id" "id") with true. cbv iota.
  destruct (Pg.pgInteger Pg.int4 (Pg.param params k)) as [z|]; cbn [Pg.bindF];
    [|discriminate].
  match goal with
  | |- context [Pg.mapF ?f (Pg.users db)] =>
      destruct (Pg.mapF f (Pg.users db)) as [changed|] eqn:C
  end; cbn [Pg.bindF]; [|discriminate].
  destruct (Pg.unique _) eqn:U; [|discriminate].
  intros [= <- <-]. exists z. split; [reflexivity|].
  cbn [Pg.withUsers Pg.users].
  split.
  { unfold Pg.unique in U. apply andb_prop in U as [U _].
    now apply bool_decide_eq_true in U. }
  assert (In : forall u, (u, true) ∈ changed ->
                 Pg.UserRow u
                 ∈ Pg.UserRow <$> (fst <$> filter (fun x => snd x = true) changed)).
  { intros u I. apply list_elem_of_fmap_2.
    apply (list_elem_of_fmap_2 fst _ (u, true)).
    apply list_elem_of_filter. split; [reflexivity|exact I]. }
  split.
  - apply mapF_Forall2 in C. apply Forall2_fmap_r.
    set (rows := Pg.UserRow <$> (fst <$> filter (fun x => snd x = true) changed))
      in *.
    match type of C with Forall2 ?P _ _ => set (made := P) in C end.
    assert (G : forall olds some,
              Forall2 made olds some ->
              (forall x, x ∈ some -> x ∈ changed) ->
              Forall2
                (fun old x =>
                   if match z with Some z => hasId z old | None => false end
                   then Pg.UserRow (fst x) ∈ rows
                        /\ exists d,
                             Pg.assignAll params (Pg.now db) (Pg.draftOf old) sets
                             = inl d
                             /\ Pg.constrain
                                  (Pg.update_updated_at_column (Pg.now db) d)
                                = inl (fst x)
                   else fst x = old) olds some).
    { induction 1 as [|old [new b] olds some E _ IH]; intros Sub; constructor.
      + unfold made in E. rewrite passes_id in E. cbn [Pg.bindF] in E.
        destruct (match z with Some z0 => hasId z0 old | None => false end).
        * destruct (Pg.assignAll _ _ _ _) as [d|] eqn:A; cbn [Pg.bindF] in E;
            [|discriminate].
          destruct (Pg.constrain _) as [r'|] eqn:K; cbn [Pg.bindF] in E;
            [|discriminate].
          injection E as <- <-. cbn [fst]. split; [|exists d; split; [reflexivity|exact K]].
          apply In, Sub. left.
        * now injection E as <- <-.
      + apply IH. intros x I. apply Sub. now right. }
    apply G; [exact C|auto].
  - intros u I. apply list_elem_of_fmap in I as (u' & [= <-] & I).
    apply list_elem_of_fmap in I as ([u'' b] & -> & I).
    apply list_elem_of_filter in I as [B I]. cbn [snd] in B. subst b.
    split; [now apply (list_elem_of_fmap_2 fst _ (u'', true))|].
    apply mapF_Forall2 in C. apply list_elem_of_lookup in I as [i I].
    destruct (Forall2_lookup_r _ _ _ _ _ C I) as (old & Ho & E).
    cbn beta in E. rewrite passes_id in E. cbn [Pg.bindF] in E.
    exists old.
    destruct z as [z|]; [|discriminate E].
    destruct (hasId z old); [|discriminate E].
    destruct (Pg.assignAll _ _ _ _) as [d|] eqn:A; cbn [Pg.bindF] in E;
      [|discriminate].
    destruct (Pg.constrain _) as [r'|] eqn:K; cbn [Pg.bindF] in E;
      [|discriminate].
    injection E as <-. exists d. cbn [fst].
    split; [eapply list_elem_of_lookup_2, Ho|]. split; [reflexivity|].
    split; [reflexivity|exact K].
Qed.

(** C7.  When [updateUser] returns a record, on a table whose rows satisfy
    the constraints of the schema script: the last statement sent is the
    [UPDATE], whose SET clause lists exactly the fields that are defined
    in the sanitized payload, in the order name, email, age, followed by
    [updated_at = NOW()]; the record returned is the new state of a row
    [old] of the table, with the same id and [created_at]; every field
    among name, email and age that the payload omits has the value it had
    in [old]; and [updated_at] is the current instant of the database.
    The id of the record is the id asked for.  The record is a row of the
    table afterwards, and the table afterwards is the table before, row by
    row, with the rows of that id refreshed (same id and [created_at],
    omitted fields kept, [updated_at] the current instant) and every other
    row as it was. *)
Theorem updateUser_changes_given_fields (id : number) (updateData : object)
    (w w' : world) (r : UserResponse.t) :
  wellFormed (db w) ->
  updateUser id updateData w = (Return (Some r), w') ->
  exists sanitizedData old,
    sanitizeUserData updateData = inl sanitizedData
    /\ last (queries w')
       = Some (updateUser_query id sanitizedData, updateUser_values id sanitizedData)
    /\ fst (fst (updateUser_fields id sanitizedData)) = setClause sanitizedData
    /\ old ∈ Pg.users (db w)
    /\ Pg.id old = UserResponse.id r
    /\ (updateData !! "name" = None -> UserResponse.name r = Pg.name old)
    /\ (updateData !! "email" = None -> UserResponse.email r = Pg.email old)
    /\ (updateData !! "age" = None -> UserResponse.age r = Pg.age old)
    /\ UserResponse.created_at r = Pg.created_at old
    /\ UserResponse.updated_at r = Pg.now (db w)
    /\ strictEquals (VNumber id) (VNumber (int (UserResponse.id r))) = true
    /\ (exists u, u ∈ Pg.users (db w') /\ responseOf u = r)
    /\ Forall2
         (fun before after =>
            if hasId (UserResponse.id r) before
            then refreshed updateData (Pg.now (db w)) before after
            else after = before)
         (Pg.users (db w)) (Pg.users (db w')).
Proof.
  intros W R. unfold updateUser, bind, entered in R.
  destruct (UserService.invalidId id); [discriminate R|].
  destruct (sanitizeUserData updateData) as [s|e] eqn:S; cbn [lift] in R;
    unfold throw, ret in R; [|discriminate R].
  destruct (0 <? List.length (validateUserData s true))%nat; [discriminate R|].
  match type of R with
  | context [getUserById id ?w0] =>
      destruct (getUserById_keeps id w0) as [U1 N1];
      destruct (getUserById id w0) as [[[existingUser|]|e] w1]
  end; try discriminate R.
  cbn [snd db] in U1, N1.
  destruct (updateUser_emailCheck_keeps s existingUser w1) as [U2 N2].
  destruct (updateUser_emailCheck s existingUser w1) as [[[]|e] w2];
    [|discriminate R].
  cbn [snd] in U2, N2. unfold try_catch, bind in R.
  destruct (db_query (updateUser_query id s) (updateUser_values id s) w2)
    as [[rows|e] w3] eqn:Q; [|discriminate R].
  destruct (List.length rows =? 0)%nat; [discriminate R|].
  destruct (userToResponse (head rows) w3) as [[r'|e] w4] eqn:T;
    [|discriminate R].
  injection R as -> ->.
  destruct (userToResponse_returns _ _ _ _ T) as (u & Hd & R1 & R2 & R3 & R4 & R5 & R6).
  assert (Ru : responseOf u = r).
  { unfold userToResponse in T. rewrite Hd in T. unfold ret in T.
    now injection T as <- _. }
  assert (W4 : w' = w3).
  { unfold userToResponse in T. rewrite Hd in T. unfold ret in T. congruence. }
  subst w'.
  assert (Hu : Pg.UserRow u ∈ rows).
  { destruct rows as [|x rows]; [discriminate Hd|]. injection Hd as ->. left. }
  assert (Qs : queries w3 = (queries w2 ++ [(updateUser_query id s, updateUser_values id s)])%list).
  { unfold db_query in Q.
    destruct (Pg.execute _ _ (db w2)) as [[? ?]|[? ?]]; [|discriminate Q].
    injection Q as _ <-. reflexivity. }
  destruct (db_query_returns _ _ _ _ _ Q) as (db' & X & D3 & _).
  destruct (execute_run _ _ _ _ _ X) as (st & db0 & P & Run & U3 & N3).
  destruct (parse_updateUser_query id s) as (sets & k & P' & F).
  rewrite P' in P. injection P as <-.
  destruct (parse_updateUser_where id s) as (sets' & k' & P'' & Pk).
  rewrite P' in P''. injection P'' as <- <-.
  destruct (run_Update_table _ _ _ _ _ _ Run) as (z & Iz & _ & Tb & Rw).
  rewrite Pk in Iz.
  destruct (pgInteger_number _ _ _ Iz) as (q & zz & -> & -> & Hq).
  destruct (Rw u Hu) as (Iu & old & d & Ho & Zo & A & K).
  rewrite U3, U2, U1 in Ho, Tb. rewrite N3, N2, N1 in A, K, Tb.
  assert (Wold : Pg.constrain (Pg.draftOf old) = inl old).
  { unfold wellFormed in W. rewrite Forall_forall in W. now apply W. }
  destruct (update_frame _ _ _ _ _ _ Wold A K) as (F0 & F1 & F2 & F3 & F4 & F5).
  rewrite F in F1, F2, F3, F4, F5.
  destruct (sanitizeUserData_spec _ _ S) as (_ & _ & _ & D).
  assert (Idr : UserResponse.id r = zz).
  { rewrite R1, F1 by (apply fixed_not_set; now left).
    unfold hasId in Zo. now apply Z.eqb_eq in Zo. }
  exists s, old. split; [reflexivity|]. split; [rewrite Qs; apply last_snoc|].
  split; [apply updateUser_fields_setClause|]. split; [exact Ho|].
  split; [rewrite R1; symmetry; apply F1, fixed_not_set; now left|].
  split.
  { intros Ab. rewrite R2. apply F2, undefined_not_set; [|discriminate].
    eapply absent_undefined; eauto. }
  split.
  { intros Ab. rewrite R3. apply F3, undefined_not_set; [|discriminate].
    eapply absent_undefined; eauto. }
  split.
  { intros Ab. rewrite R4. apply F4, undefined_not_set; [|discriminate].
    eapply absent_undefined; eauto. }
  split; [rewrite R5; apply F5, fixed_not_set; now right|].
  split; [rewrite R6, F0; reflexivity|].
  split.
  { rewrite Idr. cbn [strictEquals int]. now apply Qeq_bool_iff. }
  split; [exists u; split; [rewrite D3; exact Iu|exact Ru]|].
  rewrite D3, Idr. unfold wellFormed in W.
  revert W Tb. generalize (Pg.users db') as news.
  generalize (Pg.users (db w)) as olds.
  intros olds news W Tb. revert W.
  induction Tb as [|b a olds' news' E _ IH]; intros W; constructor.
  - apply Forall_inv in W. destruct (hasId zz b); [|exact E].
    destruct E as (_ & d' & A' & K').
    destruct (update_frame _ _ _ _ _ _ W A' K') as (G0 & G1 & G2 & G3 & G4 & G5).
    rewrite F in G1, G2, G3, G4, G5.
    split; [apply G1, fixed_not_set; now left|].
    split; [apply G5, fixed_not_set; now right|].
    split; [exact G0|].
    repeat split; intros Ab;
      [apply G2|apply G3|apply G4];
      (apply undefined_not_set; [|discriminate]); eapply absent_undefined; eauto.
  - apply IH. now apply Forall_inv_tail in W.
Qed.
End UpdateProperties.

Lemma updateUser_changes_given_fields_witness :
  match updateUser (int 1) {[ "name" := VString " Johnny " ]}
          Example.sampleWorld with
  | (Return (Some r), w') =>
      (exists old,
         old ∈ Example.sampleUsers
         /\ Pg.id old = UserResponse.id r
         /\ UserResponse.email r = Pg.email old
         /\ UserResponse.age r = Pg.age old
         /\ UserResponse.updated_at r = 2000)
      /\ UserResponse.id r = 1
      /\ exists u, u ∈ Pg.users (db w') /\ responseOf u = r
  | _ => False
  end.
Proof.
  destruct (updateUser (int 1) {[ "name" := VString " Johnny " ]}
              Example.sampleWorld) as [[[r|]|e] w'] eqn:E;
    [|vm_compute in E; discriminate E..].
  assert (W : wellFormed (db Example.sampleWorld))
    by (repeat (constructor; [vm_compute; reflexivity|]); constructor).
  destruct (updateUser_changes_given_fields _ _ _ _ _ W E)
    as (s & old & _ & _ & _ & O & I & _ & Em & Ag & _ & Up & Id & St & _).
  split; [|split; [|exact St]].
  - exists old. split; [exact O|]. split; [exact I|].
    split; [now apply Em|]. split; [now apply Ag|exact Up].
  - cbn [strictEquals int] in Id.
    rewrite (Qeq_bool_inject_Z 1 (UserResponse.id r)) in Id.
    symmetry. now apply Z.eqb_eq.
Defined.

(** ** Decimal numbers read back *)

Lemma pretty_N_char_digit (d : N) (s : string) :
  (d < 10)%N ->
  Pg.allDigits (String (pretty_N_char d) s) = Pg.allDigits s
  /\ digitValue 10 (pretty_N_char d) = Some (Z.of_N d).
Proof.
  intros L.
  assert (E : d ∈ [0; 1; 2; 3; 4; 5; 6; 7; 8; 9]%N).
  { rewrite !elem_of_cons. lia. }
  rewrite !elem_of_cons, elem_of_nil in E.
  destruct E as [->|[->|[->|[->|[->|[->|[->|[->|[->|[->|[]]]]]]]]]]];
    split; reflexivity.
Qed.

Lemma digits_pretty_N_go (x : N) :
  forall s, (0 < x)%N -> Pg.allDigits s = true ->
  exists k,
    0 <= k
    /\ Pg.allDigits (pretty_N_go x s) = true
    /\ forall acc, digits 10 (pretty_N_go x s) acc
                   = digits 10 s (Some (10 ^ k * default 0 acc + Z.of_N x)).
Proof.
  induction (N.lt_wf_0 x) as [x _ IH]. intros s P A.
  rewrite pretty_N_go_step by exact P.
  destruct (pretty_N_char_digit (x `mod` 10)%N s) as [D V]; [apply N.mod_lt; lia|].
  pose proof (N.div_mod x 10 ltac:(lia)) as DM.
  destruct (N.eq_dec (x `div` 10)%N 0%N) as [Hz|NZ].
  - rewrite Hz, pretty_N_go_0. exists 1.
    split; [lia|]. split; [now rewrite D|].
    intros acc. cbn [digits]. rewrite V.
    apply (f_equal (fun v => digits 10 s (Some v))).
    rewrite Hz, N.mul_0_r, N.add_0_l in DM. rewrite <- DM. reflexivity.
  - destruct (IH (x `div` 10)%N ltac:(apply N.div_lt; lia)
                (String (pretty_N_char (x `mod` 10)) s)
                (proj1 (N.neq_0_lt_0 _) NZ) ltac:(now rewrite D))
      as (k & K & Dc & Hd).
    exists (k + 1). split; [lia|]. split; [exact Dc|].
    intros acc. rewrite Hd. cbn [digits]. rewrite V.
    apply (f_equal (fun v => digits 10 s (Some v))).
    cbn [default]. rewrite Z.pow_add_r by lia. change (10 ^ 1) with 10.
    rewrite DM at 3. rewrite N2Z.inj_add, N2Z.inj_mul.
    change (Z.of_N 10) with 10. unfold id. ring.
Qed.

Lemma allDigits_cons (c : ascii) (t : string) :
  Pg.allDigits (String c t) = true ->
  c ∈ ["0"; "1"; "2"; "3"; "4"; "5"; "6"; "7"; "8"; "9"]%char
  /\ Pg.allDigits t = true.
Proof.
  cbn [Pg.allDigits]. intros A. apply andb_prop in A as [C A].
  split; [|exact A]. clear A.
  destruct c as [[] [] [] [] [] [] [] []]; try discriminate C;
    rewrite !elem_of_cons; tauto.
Qed.

Lemma parseInt_decimal (s : string) :
  Pg.allDigits s = true ->
  parseInt s = match digits 10 s None with
               | None => NaN
               | Some mathInt => int mathInt
               end.
Proof.
  destruct s as [|c t]; [reflexivity|]. intros A.
  apply allDigits_cons in A as [C A].
  assert (R : forall o : option Z,
            match o with None => NaN | Some m => int (1 * m) end
            = match o with None => NaN | Some m => int m end).
  { intros [m|]; [|reflexivity]. now rewrite Z.mul_1_l. }
  rewrite !elem_of_cons, elem_of_nil in C.
  destruct C as [->|[->|[->|[->|[->|[->|[->|[->|[->|[->|[]]]]]]]]]]];
    try (unfold parseInt; cbn [trimStart]; apply R).
  destruct t as [|c2 t2]; [reflexivity|].
  apply allDigits_cons in A as [C2 _].
  rewrite !elem_of_cons, elem_of_nil in C2.
  destruct C2 as [->|[->|[->|[->|[->|[->|[->|[->|[->|[->|[]]]]]]]]]]];
    unfold parseInt; cbn [trimStart]; apply R.
Qed.

(** [parseInt] reads back what was written in decimal. *)
Lemma parseInt_pretty (z : Z) : 0 <= z -> parseInt (pretty z) = int z.
Proof.
  intros P. destruct z as [|p|p]; [reflexivity| |lia].
  change (pretty (Z.pos p)) with (pretty_N_go (N.pos p) "").
  destruct (digits_pretty_N_go (N.pos p) "" ltac:(lia) eq_refl)
    as (k & K & A & D).
  rewrite parseInt_decimal by exact A. rewrite D. cbn [digits default].
  f_equal. lia.
Qed.

(** ** Statements that reach the server *)

Section Reaching.
Context `{Host}.

Lemma reaches_head (n : nat) (w : world) :
  reaches (S n) w -> head (Pg.faults (db w)) <> Some true.
Proof.
  unfold reaches. destruct (Pg.faults (db w)) as [|f fs]; [discriminate|].
  cbn [take]. intros R E. apply Forall_cons in R as [R _].
  injection E as ->. discriminate R.
Qed.

Lemma reaches_sent (n : nat) (w : world) (text : string) (params : list value)
    (rows : list Pg.row) :
  reaches (S n) w -> reaches n (sent text params (Pg.withUsers (next (db w)) rows) w).
Proof.
  unfold reaches. cbn [sent db Pg.withUsers next Pg.faults].
  destruct (Pg.faults (db w)) as [|f fs]; [intros _; destruct n; constructor|].
  cbn [take tail]. intros R. now apply Forall_cons in R as [_ R].
Qed.

Lemma withUsers_same (d : Pg.database) : Pg.withUsers d (Pg.users d) = d.
Proof. now destruct d. Qed.

Lemma execute_reaches (text : string) (params : list value) (d : Pg.database)
    (st : Pg.statement) :
  head (Pg.faults d) <> Some true -> Pg.parse text = Some st ->
  Pg.execute text params d = Pg.run st params (next d).
Proof.
  intros F P. unfold Pg.execute, next. rewrite P.
  destruct (Pg.faults d) as [|[] fs]; [reflexivity| |reflexivity].
  now destruct F.
Qed.

Lemma partitionRows_idIs (z : Z) (rows : list Pg.row) :
  Pg.partitionRows [idIs z] rows
  = inl (List.filter (hasId z) rows,
         List.filter (fun r => negb (hasId z r)) rows).
Proof.
  induction rows as [|r rows IH]; [reflexivity|].
  cbn [Pg.partitionRows]. rewrite IH.
  unfold Pg.passes, idIs, Pg.compareInt, hasId. cbn.
  destruct (Pg.id r =? z); reflexivity.
Qed.

Lemma compile_idIs (z : Z) (k : nat) (params : list value) :
  1 <= z <= 2147483647 ->
  Pg.param params k = VNumber (int z) ->
  Pg.compileCondition params {| Pg.column := "id"; Pg.op := Pg.Eq; Pg.operand := k |}
  = inl (idIs z).
Proof.
  intros R P. unfold Pg.compileCondition. cbn [Pg.column Pg.operand Pg.op].
  change (String.eqb "id" "id") with true. cbv iota. rewrite P.
  rewrite pgInteger_int; [reflexivity|cbn; lia|].
  change (10 ^ 21) with 1000000000000000000000. lia.
Qed.

Lemma head_filter_find {A : Type} (f : A -> bool) (l : list A) :
  head (List.filter f l) = List.find f l.
Proof.
  induction l as [|a l IH]; [reflexivity|]. cbn. destruct (f a); [reflexivity|exact IH].
Qed.

Lemma filter_nil_existsb {A : Type} (f : A -> bool) (l : list A) :
  (List.length (List.filter f l) =? 0)%nat = negb (existsb f l).
Proof.
  induction l as [|a l IH]; [reflexivity|]. cbn. destruct (f a); [reflexivity|exact IH].
Qed.

Lemma filter_filter_negb {A : Type} (f : A -> bool) (l : list A) :
  List.filter f (List.filter (fun a => negb (f a)) l) = [].
Proof.
  induction l as [|a l IH]; [reflexivity|]. cbn.
  destruct (f a) eqn:E; cbn; [exact IH|]. now rewrite E.
Qed.

Lemma run_Select_idIs (z : Z) (d : Pg.database) :
  1 <= z <= 2147483647 ->
  Pg.run (Pg.Select [{| Pg.column := "id"; Pg.op := Pg.Eq; Pg.operand := 1 |}]
            None None) [VNumber (int z)] d
  = inl (Pg.UserRow <$> List.filter (hasId z) (Pg.users d), d).
Proof.
  intros R. unfold Pg.run.
  change (Pg.checkParams _ _) with (@inl unit Pg.failure tt). cbv iota.
  cbn [Pg.mapF]. rewrite (compile_idIs z) by (exact R || reflexivity).
  cbn [Pg.bindF]. rewrite partitionRows_idIs. reflexivity.
Qed.

Lemma run_Delete_idIs (z : Z) (d : Pg.database) :
  1 <= z <= 2147483647 ->
  Pg.run (Pg.Delete [{| Pg.column := "id"; Pg.op := Pg.Eq; Pg.operand := 1 |}])
         [VNumber (int z)] d
  = inl (Pg.IdRow <$> (Pg.id <$> List.filter (hasId z) (Pg.users d)),
         Pg.withUsers d (List.filter (fun r => negb (hasId z r)) (Pg.users d))).
Proof.
  intros R. unfold Pg.run.
  change (Pg.checkParams _ _) with (@inl unit Pg.failure tt). cbv iota.
  cbn [Pg.mapF]. rewrite (compile_idIs z) by (exact R || reflexivity).
  cbn [Pg.bindF]. rewrite partitionRows_idIs. reflexivity.
Qed.

Lemma getUserById_reaches (z : Z) (w : world) :
  1 <= z <= 2147483647 -> reaches 1 w ->
  getUserById (int z) w
  = (Return (responseOf <$> List.find (hasId z) (Pg.users (db w))),
     sent "SELECT * FROM users WHERE id = $1" [VNumber (int z)] (next (db w))
       (called (GetUserById (int z)) w)).
Proof.
  intros R F. apply reaches_head in F.
  unfold getUserById, bind, entered. rewrite invalidId_positive by lia.
  unfold try_catch, bind, db_query. cbn [db queries calls].
  rewrite (execute_reaches _ _ _
             (Pg.Select [{| Pg.column := "id"; Pg.op := Pg.Eq; Pg.operand := 1 |}]
                None None) F) by (vm_compute; reflexivity).
  rewrite run_Select_idIs by exact R.
  rewrite <- head_filter_find. cbn [next Pg.users].
  destruct (List.filter (hasId z) (Pg.users (db w))) as [|r rows]; reflexivity.
Qed.

Lemma deleteUser_reaches (z : Z) (w : world) :
  1 <= z <= 2147483647 -> reaches 1 w ->
  deleteUser (int z) w
  = (Return (existsb (hasId z) (Pg.users (db w))),
     sent "DELETE FROM users WHERE id = $1 RETURNING id" [VNumber (int z)]
       (Pg.withUsers (next (db w))
          (List.filter (fun r => negb (hasId z r)) (Pg.users (db w))))
       (called (DeleteUser (int z)) w)).
Proof.
  intros R F. apply reaches_head in F.
  unfold deleteUser, bind, entered. rewrite invalidId_positive by lia.
  unfold try_catch, bind, db_query. cbn [db queries calls].
  rewrite (execute_reaches _ _ _
             (Pg.Delete [{| Pg.column := "id"; Pg.op := Pg.Eq; Pg.operand := 1 |}])
             F) by (vm_compute; reflexivity).
  rewrite run_Delete_idIs by exact R.
  rewrite !length_fmap. cbn [next Pg.users]. rewrite filter_nil_existsb.
  destruct (existsb (hasId z) (Pg.users (db w))); reflexivity.
Qed.

Lemma find_absent {A : Type} (f : A -> bool) (l : list A) :
  existsb f l = false -> List.find f l = None.
Proof.
  induction l as [|a l IH]; [reflexivity|]. cbn.
  destruct (f a); [discriminate|exact IH].
Qed.

Lemma existsb_filter_negb {A : Type} (f : A -> bool) (l : list A) :
  existsb f (List.filter (fun a => negb (f a)) l) = false.
Proof.
  induction l as [|a l IH]; [reflexivity|]. cbn.
  destruct (f a) eqn:E; cbn; [exact IH|]. now rewrite E.
Qed.

End Reaching.

(** ** What validation accepts, what sanitization returns *)

Lemma nameErrors_update (d : object) :
  nameErrors d true = [] <-> absentOrText d "name" 2 100.
Proof.
  unfold nameErrors, absentOrText. cbn [negb orb].
  destruct (d !! "name") as [v|] eqn:E.
  - rewrite (has_true _ _ _ E), (prop_lookup _ _ _ E).
    destruct v as [| |b|n|s|items|fields].
    1-4, 6-7: destruct (ToBoolean _); cbn [negb]; (split; [intros [=]|tauto]).
    cbn [ToBoolean]. destruct (String.eqb_spec s "") as [->|N]; cbn [negb].
    { split; [intros [=]|]. intros B. exfalso. change (str_length "") with 0 in B. lia. }
    unfold USER_VALIDATION.NAME_MIN_LENGTH, USER_VALIDATION.NAME_MAX_LENGTH.
    destruct (Z.ltb_spec (str_length s) 2); [split; [intros [=]|lia]|].
    destruct (Z.ltb_spec 100 (str_length s)); [split; [intros [=]|lia]|].
    split; [lia|reflexivity].
  - rewrite (has_false _ _ E). tauto.
Qed.

Lemma emailErrors_update (d : object) :
  emailErrors d true = [] <-> absentOrText d "email" 1 255.
Proof.
  unfold emailErrors, absentOrText. cbn [negb orb].
  destruct (d !! "email") as [v|] eqn:E.
  - rewrite (has_true _ _ _ E), (prop_lookup _ _ _ E).
    destruct v as [| |b|n|s|items|fields].
    1-4, 6-7: destruct (ToBoolean _); cbn [negb]; (split; [intros [=]|tauto]).
    cbn [ToBoolean]. destruct (String.eqb_spec s "") as [->|N]; cbn [negb].
    { split; [intros [=]|]. intros B. exfalso. change (str_length "") with 0 in B. lia. }
    unfold USER_VALIDATION.EMAIL_MAX_LENGTH.
    assert (1 <= str_length s).
    { destruct s; [now destruct N|]. unfold str_length. cbn [String.length]. lia. }
    destruct (Z.ltb_spec 255 (str_length s)); [split; [intros [=]|lia]|].
    split; [lia|reflexivity].
  - rewrite (has_false _ _ E). tauto.
Qed.

Lemma ageErrors_update (d : object) :
  ageErrors d true = [] <-> d !! "age" = None.
Proof.
  split.
  - intros E. destruct (d !! "age") as [v|] eqn:L; [|reflexivity].
    destruct (ageErrors_nonempty d true); [right; exact (has_true _ _ _ L)|exact E].
  - intros L. unfold ageErrors. now rewrite (has_false _ _ L).
Qed.

(** X1.  In update mode a payload passes validation exactly when its name, if
    any, is a string of 2 to 100 characters, its email, if any, a string
    of 1 to 255 characters, and it has no age at all. *)
Theorem validateUserData_update_accepts (d : object) :
  validateUserData d true = []
  <-> absentOrText d "name" 2 100 /\ absentOrText d "email" 1 255
      /\ d !! "age" = None.
Proof.
  unfold validateUserData.
  rewrite <- nameErrors_update, <- emailErrors_update, <- ageErrors_update.
  split.
  - intros E. apply app_eq_nil in E as [N E]. apply app_eq_nil in E as [M A].
    tauto.
  - intros (-> & -> & ->). reflexivity.
Qed.

Section SanitizeResult.
Context `{Host}.

Lemma sanitizeName_fails (o : object) :
  (exists e, sanitizeName o = inr e)
  <-> exists v, o !! "name" = Some v /\ ToBoolean v = true
                /\ forall s, v <> VString s.
Proof.
  unfold sanitizeName. destruct (o !! "name") as [v|] eqn:L.
  - rewrite (has_true _ _ _ L), (prop_lookup _ _ _ L). cbn [andb].
    destruct (ToBoolean v) eqn:T.
    + destruct v as [| | | |s| |].
      1-4, 6-7: split; [intros _; eexists; repeat split;
                          first [exact T|discriminate]
                       |intros _; eexists; reflexivity].
      split; [intros [e E]; discriminate E|].
      intros (v & [= <-] & _ & N). now destruct (N s).
    + split; [intros [e E]; discriminate E|].
      intros (v' & [= <-] & T' & _). congruence.
  - rewrite (has_false _ _ L). cbn [andb].
    split; [intros [e E]; discriminate E|]. intros (v & E & _). discriminate E.
Qed.

Lemma sanitizeEmail_fails (o : object) :
  (exists e, sanitizeEmail o = inr e)
  <-> exists v, o !! "email" = Some v /\ ToBoolean v = true
                /\ forall s, v <> VString s.
Proof.
  unfold sanitizeEmail. destruct (o !! "email") as [v|] eqn:L.
  - rewrite (has_true _ _ _ L), (prop_lookup _ _ _ L). cbn [andb].
    destruct (ToBoolean v) eqn:T.
    + destruct v as [| | | |s| |].
      1-4, 6-7: split; [intros _; eexists; repeat split;
                          first [exact T|discriminate]
                       |intros _; eexists; reflexivity].
      split; [intros [e E]; discriminate E|].
      intros (v & [= <-] & _ & N). now destruct (N s).
    + split; [intros [e E]; discriminate E|].
      intros (v' & [= <-] & T' & _). congruence.
  - rewrite (has_false _ _ L). cbn [andb].
    split; [intros [e E]; discriminate E|]. intros (v & E & _). discriminate E.
Qed.

Lemma sanitizeName_value (o o' : object) (v : value) :
  sanitizeName o = inl o' -> o !! "name" = Some v ->
  o' !! "name" = Some (match v with VString s => VString (trim s) | _ => v end).
Proof.
  unfold sanitizeName. intros E L.
  rewrite (has_true _ _ _ L), (prop_lookup _ _ _ L) in E. cbn [andb] in E.
  destruct (ToBoolean v) eqn:T.
  - destruct v as [| | | |s| |]; try discriminate E. injection E as <-.
    now rewrite lookup_insert_eq.
  - injection E as <-. rewrite L. f_equal.
    destruct v as [| | | |s| |]; try reflexivity.
    cbn in T. apply negb_false_iff, String.eqb_eq in T. now subst s.
Qed.

Lemma sanitizeEmail_value (o o' : object) (v : value) :
  sanitizeEmail o = inl o' -> o !! "email" = Some v ->
  o' !! "email"
  = Some (match v with VString s => VString (toLowerCase (trim s)) | _ => v end).
Proof.
  unfold sanitizeEmail. intros E L.
  rewrite (has_true _ _ _ L), (prop_lookup _ _ _ L) in E. cbn [andb] in E.
  destruct (ToBoolean v) eqn:T.
  - destruct v as [| | | |s| |]; try discriminate E. injection E as <-.
    now rewrite lookup_insert_eq.
  - injection E as <-. rewrite L. f_equal.
    destruct v as [| | | |s| |]; try reflexivity.
    cbn in T. apply negb_false_iff, String.eqb_eq in T. now subst s.
Qed.

Lemma sanitizeAge_value (o o' : object) (v : value) :
  sanitizeAge o = inl o' -> o !! "age" = Some v ->
  if ToBoolean v
  then exists age, ToNumber v = inl age
                   /\ o' !! "age" = Some (VNumber (Math_floor age))
  else o' !! "age" = Some v.
Proof.
  unfold sanitizeAge. intros E L.
  rewrite (has_true _ _ _ L), (prop_lookup _ _ _ L) in E. cbn [andb] in E.
  destruct (ToBoolean v).
  - destruct (ToNumber v) as [age|]; [|discriminate E]. injection E as <-.
    exists age. now rewrite lookup_insert_eq.
  - now injection E as <-.
Qed.

Lemma sanitizeAge_fails (o : object) (e : exn) :
  sanitizeAge o = inr e
  <-> exists v, o !! "age" = Some v /\ ToBoolean v = true /\ ToNumber v = inr e.
Proof.
  unfold sanitizeAge. destruct (o !! "age") as [v|] eqn:L.
  - rewrite (has_true _ _ _ L), (prop_lookup _ _ _ L). cbn [andb].
    destruct (ToBoolean v) eqn:T.
    + destruct (ToNumber v) as [age|e'] eqn:N.
      * split; [discriminate|]. intros (v' & [= <-] & _ & N'). congruence.
      * split.
        -- intros [= <-]. now exists v.
        -- intros (v' & [= <-] & _ & N'). congruence.
    + split; [discriminate|]. intros (v' & [= <-] & T' & _). congruence.
  - rewrite (has_false _ _ L). cbn [andb].
    split; [discriminate|]. intros (v & E & _). discriminate E.
Qed.

Lemma sanitizeName_error (o : object) (e : exn) :
  sanitizeName o = inr e -> e = notAFunction "sanitized.name.trim".
Proof.
  unfold sanitizeName. destruct (_ && _); [|discriminate].
  destruct (prop o "name"); congruence.
Qed.

Lemma sanitizeEmail_error (o : object) (e : exn) :
  sanitizeEmail o = inr e -> e = notAFunction "sanitized.email.trim".
Proof.
  unfold sanitizeEmail. destruct (_ && _); [|discriminate].
  destruct (prop o "email"); congruence.
Qed.

(** Induction on a value, through the elements of an array. *)
Lemma value_array_ind (P : value -> Prop) :
  (forall v, (forall items, v <> VArray items) -> P v) ->
  (forall items, Forall P items -> P (VArray items)) ->
  forall v, P v.
Proof.
  intros Hother Harray. fix IH 1.
  intros [| | | | |items|fields]; try (apply Hother; discriminate).
  apply Harray. induction items as [|x l IHl]; constructor; [apply IH|exact IHl].
Qed.

(** [Number] throws on an object that hides [toString], and on an array
    that holds one. *)
Lemma ToString_None (v : value) : ToString v = None <-> hidesToString v = true.
Proof.
  induction v as [v N|items IH] using value_array_ind.
  - destruct v as [| | | | |items|fields]; try (split; discriminate).
    + now destruct (N items).
    + cbn [ToString hidesToString]. destruct (bool_decide _); split; congruence.
  - cbn [ToString hidesToString].
    match goal with |- ?J items = None <-> _ => set (joined := J) end.
    assert (Jc : forall x l,
               joined (x :: l)
               = match (match x with
                        | VUndefined | VNull => Some ""
                        | _ => ToString x
                        end) with
                 | None => None
                 | Some s =>
                     match l with
                     | [] => Some s
                     | _ :: _ =>
                         match joined l with
                         | None => None
                         | Some r => Some (s ++ "," ++ r)
                         end
                     end
                 end) by reflexivity.
    induction IH as [|x l Hx _ IHl]; [split; discriminate|].
    rewrite Jc. cbn [existsb]. rewrite orb_true_iff, <- IHl. clear IHl.
    assert (X : match x with VUndefined | VNull => Some "" | _ => ToString x end = None
                <-> hidesToString x = true).
    { destruct x; try (split; discriminate); exact Hx. }
    destruct (match x with VUndefined | VNull => Some "" | _ => ToString x end)
      as [s|]; [|tauto].
    destruct l as [|y l].
    + split; [discriminate|]. intros [E|E]; [now apply X in E|discriminate E].
    + destruct (joined (y :: l)).
      * split; [discriminate|]. intros [E|E]; [now apply X in E|discriminate E].
      * tauto.
Qed.

Lemma ToNumber_fails (v : value) (e : exn) :
  ToNumber v = inr e <-> hidesToString v = true /\ e = cannotConvert.
Proof.
  destruct v as [| | | | |items|fields];
    try (split; [discriminate|intros [[=] _]]).
  all: unfold ToNumber; rewrite <- ToString_None;
    destruct (ToString _) as [s|];
    (split; [intros [= <-]|intros [E ->]]); try discriminate; auto.
Qed.

(** X2.  What [sanitizeUserData] returns, field by field: the name trimmed,
    the email trimmed and in lower case, a truthy age converted to a number
    and rounded down, everything else as it was, under the same keys.  It
    throws in three cases and in no other, the first that applies deciding
    the error: the name is truthy and not a string ("sanitized.name.trim is
    not a function"); the email is ("sanitized.email.trim is not a
    function"); the age is truthy and is an object with a [toString]
    property of its own, or an array that holds such an object, which
    [Number] cannot convert ("Cannot convert object to primitive
    value"). *)
Theorem sanitizeUserData_result (x : object) :
  (forall y, sanitizeUserData x = inl y ->
     dom y = dom x
     /\ (forall s, x !! "name" = Some (VString s) ->
           y !! "name" = Some (VString (trim s)))
     /\ (forall s, x !! "email" = Some (VString s) ->
           y !! "email" = Some (VString (toLowerCase (trim s))))
     /\ (forall v, x !! "age" = Some v -> ToBoolean v = true ->
           exists age, ToNumber v = inl age
                       /\ y !! "age" = Some (VNumber (Math_floor age)))
     /\ (forall k v, x !! k = Some v ->
           ToBoolean v = false \/ k ∉ ["name"; "email"; "age"] ->
           y !! k = Some v))
  /\ (forall e, sanitizeUserData x = inr e
      <-> (notText x "name" /\ e = notAFunction "sanitized.name.trim")
          \/ (~ notText x "name" /\ notText x "email"
              /\ e = notAFunction "sanitized.email.trim")
          \/ (~ notText x "name" /\ ~ notText x "email"
              /\ (exists v, x !! "age" = Some v /\ ToBoolean v = true
                            /\ hidesToString v = true)
              /\ e = cannotConvert)).
Proof.
  split.
  - intros y E. unfold sanitizeUserData in E.
    destruct (sanitizeName x) as [x1|] eqn:E1; [|discriminate].
    destruct (sanitizeEmail x1) as [x2|] eqn:E2; [|discriminate].
    destruct (sanitizeName_spec _ _ E1) as (_ & D1 & F1).
    destruct (sanitizeEmail_spec _ _ E2) as (_ & D2 & F2).
    destruct (sanitizeAge_spec _ _ E) as (_ & D3 & F3).
    split; [congruence|]. split; [|split; [|split]].
    + intros s L. rewrite F3, F2 by done.
      exact (sanitizeName_value _ _ _ E1 L).
    + intros s L. rewrite F3 by done. rewrite <- F1 in L by done.
      exact (sanitizeEmail_value _ _ _ E2 L).
    + intros v L T. rewrite <- F1, <- F2 in L by done.
      pose proof (sanitizeAge_value _ _ _ E L) as A. now rewrite T in A.
    + intros k v L C.
      destruct (decide (k = "name")) as [->|Nn].
      { rewrite F3, F2 by done. rewrite (sanitizeName_value _ _ _ E1 L).
        destruct C as [T|C]; [|destruct C; repeat constructor].
        destruct v as [| | | |s| |]; try reflexivity.
        cbn in T. apply negb_false_iff, String.eqb_eq in T. now subst s. }
      destruct (decide (k = "email")) as [->|Ne].
      { rewrite F3 by done. rewrite <- F1 in L by done.
        rewrite (sanitizeEmail_value _ _ _ E2 L).
        destruct C as [T|C]; [|destruct C; repeat constructor].
        destruct v as [| | | |s| |]; try reflexivity.
        cbn in T. apply negb_false_iff, String.eqb_eq in T. now subst s. }
      destruct (decide (k = "age")) as [->|Na].
      { rewrite <- F1, <- F2 in L by done.
        pose proof (sanitizeAge_value _ _ _ E L) as A.
        destruct C as [T|C]; [now rewrite T in A|destruct C; repeat constructor]. }
      now rewrite F3, F2, F1.
  - intros e. unfold sanitizeUserData, notText.
    pose proof (sanitizeName_fails x) as Fn.
    destruct (sanitizeName x) as [x1|e1] eqn:E1.
    + assert (Nn : ~ exists v, x !! "name" = Some v /\ ToBoolean v = true
                               /\ forall s, v <> VString s).
      { intros C. apply Fn in C as [e' C]. discriminate C. }
      destruct (sanitizeName_spec _ _ E1) as (_ & _ & F1).
      pose proof (sanitizeEmail_fails x1) as Fe.
      rewrite F1 in Fe by done.
      destruct (sanitizeEmail x1) as [x2|e2] eqn:E2.
      * assert (Ne : ~ exists v, x !! "email" = Some v /\ ToBoolean v = true
                                 /\ forall s, v <> VString s).
        { intros C. apply Fe in C as [e' C]. discriminate C. }
        destruct (sanitizeEmail_spec _ _ E2) as (_ & _ & F2).
        rewrite sanitizeAge_fails, F2, F1 by done. split.
        -- intros (v & L & T & N). apply ToNumber_fails in N as [N ->].
           right. right. repeat split; try assumption. now exists v.
        -- intros [[C _]|[(_ & C & _)|(_ & _ & (v & L & T & N) & ->)]];
             [contradiction..|].
           exists v. repeat split; try assumption. now apply ToNumber_fails.
      * assert (Ye : exists v, x !! "email" = Some v /\ ToBoolean v = true
                               /\ forall s, v <> VString s)
          by (apply Fe; eauto).
        split.
        -- intros [= <-]. right. left. repeat split; try assumption.
           exact (sanitizeEmail_error _ _ E2).
        -- intros [[C _]|[(_ & _ & ->)|(_ & C & _)]]; [contradiction| |contradiction].
           f_equal. exact (sanitizeEmail_error _ _ E2).
    + assert (Yn : exists v, x !! "name" = Some v /\ ToBoolean v = true
                             /\ forall s, v <> VString s)
        by (apply Fn; eauto).
      split.
      * intros [= <-]. left. split; [assumption|]. exact (sanitizeName_error _ _ E1).
      * intros [[_ ->]|[(C & _)|(C & _)]]; [|contradiction..].
        f_equal. exact (sanitizeName_error _ _ E1).
Qed.

End SanitizeResult.

(** ** What the handlers check themselves *)

Section HandlerProperties.
Context `{Host}.

(** X4.  The two checks that a handler makes before it calls the service.
    [POST] without a truthy name or email is answered with 400 and the list
    of the fields that are missing, and the service is not called; with
    both, [createUser] is called once, with the body.  [PUT] with an empty
    body is answered with 400 and the service is not called. *)
Theorem incomplete_request_stops_at_handler (req : Request) (w : world) :
  (ToBoolean (prop (body req) "name") = false
   \/ ToBoolean (prop (body req) "email") = false ->
   postUser req w
   = (Return {| status := 400;
                json := Missing "Name and email are required"
                  (List.filter (fun field => negb (ToBoolean (prop (body req) field)))
                     ["name"; "email"]) |}, w))
  /\ (ToBoolean (prop (body req) "name") = true ->
      ToBoolean (prop (body req) "email") = true ->
      calls (snd (postUser req w)) = (calls w ++ [CreateUser (body req)])%list)
  /\ (rejectedId (parseInt (idParam req)) = false -> body req = ∅ ->
      putUser req w
      = (Return {| status := 400;
                   json := Failed "At least one field must be provided for update"
                             "NO_UPDATE_FIELDS" |}, w)).
Proof.
  split; [|split].
  - intros M. unfold postUser, try_catch.
    replace (negb (ToBoolean (prop (body req) "name"))
             || negb (ToBoolean (prop (body req) "email"))) with true;
      [reflexivity|].
    destruct M as [-> | ->]; [reflexivity|]. now rewrite orb_true_r.
  - intros N E. unfold postUser, try_catch, bind. rewrite N, E. cbn [negb orb].
    destruct (createUser_throws (body req) w) as (e & -> & _).
    unfold mutationFailed.
    destruct (includes (message e) "Validation failed");
      [|destruct (includes (message e) "already exists")]; reflexivity.
  - intros R E. unfold putUser, try_catch. rewrite R, E. reflexivity.
Qed.

End HandlerProperties.

(** ** Looking up and deleting by id *)

Section LookupProperties.
Context `{Host}.

Lemma rejectedId_positive (z : Z) : 1 <= z -> rejectedId (int z) = false.
Proof.
  intros P. unfold rejectedId. cbn [isNaN int orb]. rewrite le_int.
  apply Z.leb_gt. lia.
Qed.

Lemma idParam_pretty (req : Request) (z : Z) :
  params req !! "id" = Some (pretty z) -> 1 <= z ->
  parseInt (idParam req) = int z.
Proof.
  intros P R. unfold idParam. rewrite P. apply parseInt_pretty. lia.
Qed.

(** X5.  A lookup by an id in the range of the column returns the row with
    that id, if there is one, and sends one [SELECT]; the handler answers
    200 with that row or 404. *)
Theorem getUserById_finds (z : Z) (w : world) :
  1 <= z <= 2147483647 -> reaches 1 w ->
  getUserById (int z) w
  = (Return (responseOf <$> List.find (hasId z) (Pg.users (db w))),
     sent "SELECT * FROM users WHERE id = $1" [VNumber (int z)] (next (db w))
       (called (GetUserById (int z)) w))
  /\ forall req, params req !! "id" = Some (pretty z) ->
       fst (getUser req w)
       = Return match List.find (hasId z) (Pg.users (db w)) with
                | Some user =>
                    {| status := 200;
                       json := Succeeded "User retrieved successfully"
                                 (OneUser (responseOf user)) |}
                | None => userNotFoundResponse
                end.
Proof.
  intros R F. split; [exact (getUserById_reaches z w R F)|].
  intros req P. unfold getUser, try_catch, bind.
  rewrite (idParam_pretty req z P) by lia.
  rewrite rejectedId_positive by lia.
  rewrite (getUserById_reaches z w R F).
  destruct (List.find (hasId z) (Pg.users (db w))); reflexivity.
Qed.

(** X6.  Deleting by an id in the range of the column removes the rows with
    that id and no other, and tells whether there was one. *)
Theorem deleteUser_removes (z : Z) (w : world) :
  1 <= z <= 2147483647 -> reaches 1 w ->
  deleteUser (int z) w
  = (Return (existsb (hasId z) (Pg.users (db w))),
     sent "DELETE FROM users WHERE id = $1 RETURNING id" [VNumber (int z)]
       (Pg.withUsers (next (db w))
          (List.filter (fun r => negb (hasId z r)) (Pg.users (db w))))
       (called (DeleteUser (int z)) w))
  /\ forall req, params req !! "id" = Some (pretty z) ->
       fst (deleteUserRoute req w)
       = Return (if existsb (hasId z) (Pg.users (db w))
                 then {| status := 200;
                         json := Succeeded "User deleted successfully"
                                   (OneId (int z)) |}
                 else userNotFoundResponse).
Proof.
  intros R F. split; [exact (deleteUser_reaches z w R F)|].
  intros req P. unfold deleteUserRoute, try_catch, bind.
  rewrite (idParam_pretty req z P) by lia.
  rewrite rejectedId_positive by lia.
  rewrite (deleteUser_reaches z w R F).
  destruct (existsb (hasId z) (Pg.users (db w))); reflexivity.
Qed.

(** X7.  Once deleted, a user is gone: a lookup finds nothing and a second
    deletion reports that there was nothing to delete. *)
Theorem deleted_user_is_gone (z : Z) (w : world) :
  1 <= z <= 2147483647 -> reaches 2 w ->
  fst ((let! _ := deleteUser (int z) in getUserById (int z)) w) = Return None
  /\ fst ((let! _ := deleteUser (int z) in deleteUser (int z)) w) = Return false
  /\ forall req, params req !! "id" = Some (pretty z) ->
       fst ((let! _ := deleteUserRoute req in getUser req) w)
       = Return userNotFoundResponse.
Proof.
  intros R F.
  assert (F1 : reaches 1 w).
  { unfold reaches in *. destruct (Pg.faults (db w)) as [|f fs]; [constructor|].
    cbn [take] in *. apply Forall_cons in F as [F _].
    constructor; [exact F|]. rewrite take_0. constructor. }
  pose proof (deleteUser_reaches z w R F1) as D.
  set (w1 := sent _ _ _ _) in D.
  assert (F2 : reaches 1 w1).
  { exact (reaches_sent 1 (called (DeleteUser (int z)) w) _ _ _ F). }
  assert (A : existsb (hasId z) (Pg.users (db w1)) = false)
    by apply existsb_filter_negb.
  split; [|split].
  - unfold bind. rewrite D, (getUserById_reaches z w1 R F2).
    cbn [fst]. now rewrite (find_absent _ _ A).
  - unfold bind. rewrite D, (deleteUser_reaches z w1 R F2). cbn [fst].
    now rewrite A.
  - intros req P. unfold bind at 1.
    assert (E : exists r, deleteUserRoute req w = (Return r, w1)).
    { unfold deleteUserRoute, try_catch, bind.
      rewrite (idParam_pretty req z P) by lia.
      rewrite rejectedId_positive by lia. rewrite D.
      destruct (existsb (hasId z) (Pg.users (db w))); eexists; reflexivity. }
    destruct E as [r ->].
    unfold getUser, try_catch, bind.
    rewrite (idParam_pretty req z P) by lia.
    rewrite rejectedId_positive by lia.
    rewrite (getUserById_reaches z w1 R F2), (find_absent _ _ A). reflexivity.
Qed.

End LookupProperties.

(** ** Looking up by email *)

Section EmailProperties.
Context `{Host}.

Lemma partitionRows_hasEmail (e : string) (rows : list Pg.row) :
  Pg.partitionRows [fun r => Pg.compareText Pg.Eq (Pg.email r) (Some e)] rows
  = inl (List.filter (hasEmail e) rows,
         List.filter (fun r => negb (hasEmail e r)) rows).
Proof.
  induction rows as [|r rows IH]; [reflexivity|].
  cbn [Pg.partitionRows]. rewrite IH.
  unfold Pg.passes, Pg.compareText, hasEmail. cbn.
  destruct (String.eqb (Pg.email r) e); reflexivity.
Qed.

Lemma findUserByEmail_reaches (e : string) (w : world) :
  Pg.hasNul e = false -> reaches 1 w ->
  findUserByEmail (VString e) w
  = (Return (Pg.UserRow <$> List.find (hasEmail e) (Pg.users (db w))),
     sent "SELECT * FROM users WHERE email = $1" [VString e] (next (db w)) w).
Proof.
  intros N F. apply reaches_head in F.
  unfold findUserByEmail, try_catch, bind, db_query.
  rewrite (execute_reaches _ _ _
             (Pg.Select [{| Pg.column := "email"; Pg.op := Pg.Eq; Pg.operand := 1 |}]
                None None) F) by (vm_compute; reflexivity).
  unfold Pg.run. change (Pg.checkParams _ _) with (@inl unit Pg.failure tt).
  cbv iota. cbn [Pg.mapF]. unfold Pg.compileCondition.
  cbn [Pg.column Pg.operand Pg.op].
  change (Pg.param [VString e] 1) with (VString e).
  change (String.eqb "email" "id") with false.
  change (String.eqb "email" "age") with false.
  change (String.eqb "email" "name") with false.
  change (String.eqb "email" "email") with true. cbv iota.
  cbn [Pg.pgText]. rewrite N. cbn [Pg.bindF].
  rewrite partitionRows_hasEmail. cbn [Pg.bindF fst Pg.sortRows next Pg.users].
  rewrite <- head_filter_find. unfold ret, sent.
  destruct (List.filter (hasEmail e) (Pg.users (db w))) as [|r rows]; reflexivity.
Qed.

(** X8.  [findUserByEmail] never throws: a statement that fails is reported as
    no user.  When the statement reaches the server, it returns the first
    row with exactly that email. *)
Theorem findUserByEmail_finds (email : value) (w : world) :
  (exists found w', findUserByEmail email w = (Return found, w'))
  /\ (head (Pg.faults (db w)) = Some true ->
      fst (findUserByEmail email w) = Return None)
  /\ forall e, email = VString e -> Pg.hasNul e = false -> reaches 1 w ->
       findUserByEmail email w
       = (Return (Pg.UserRow <$> List.find (hasEmail e) (Pg.users (db w))),
          sent "SELECT * FROM users WHERE email = $1" [VString e]
            (next (db w)) w).
Proof.
  split; [|split].
  - unfold findUserByEmail, try_catch, bind.
    destruct (db_query _ _ w) as [[rows|e] w']; do 2 eexists; reflexivity.
  - intros F. unfold findUserByEmail, try_catch, bind, db_query, Pg.execute.
    destruct (Pg.faults (db w)) as [|[] fs]; try discriminate F. reflexivity.
  - intros e -> N F. exact (findUserByEmail_reaches e w N F).
Qed.

End EmailProperties.

(** ** Updates that change nothing *)

Section UpdateRefusals.
Context `{Host}.

Lemma reaches_le (n m : nat) (w : world) :
  (n <= m)%nat -> reaches m w -> reaches n w.
Proof.
  unfold reaches. intros L F.
  rewrite <- (Nat.min_l n m L), <- take_take. now apply Forall_take.
Qed.

(** X9.  Updating an id that no row has: nothing is written and the answer is
    404, once the payload has passed validation. *)
Theorem updateUser_absent (z : Z) (updateData s : object) (w : world) :
  1 <= z <= 2147483647 -> reaches 1 w ->
  existsb (hasId z) (Pg.users (db w)) = false ->
  sanitizeUserData updateData = inl s -> validateUserData s true = [] ->
  updateUser (int z) updateData w
  = (Return None,
     sent "SELECT * FROM users WHERE id = $1" [VNumber (int z)] (next (db w))
       (called (GetUserById (int z)) (called (UpdateUser (int z) updateData) w)))
  /\ forall req, params req !! "id" = Some (pretty z) -> body req = updateData ->
       updateData <> ∅ ->
       fst (putUser req w) = Return userNotFoundResponse.
Proof.
  intros R F A S V.
  assert (U : updateUser (int z) updateData w
              = (Return None,
                 sent "SELECT * FROM users WHERE id = $1" [VNumber (int z)]
                   (next (db w))
                   (called (GetUserById (int z))
                      (called (UpdateUser (int z) updateData) w)))).
  { unfold updateUser, bind, entered. rewrite invalidId_positive by lia.
    rewrite S. cbn [lift]. unfold ret at 1. rewrite V. cbn [List.length Nat.ltb Nat.leb].
    fold (called (UpdateUser (int z) updateData) w).
    rewrite (getUserById_reaches z (called (UpdateUser (int z) updateData) w) R F).
    cbn [called db].
    now rewrite (find_absent _ _ A). }
  split; [exact U|]. intros req P B NE.
  unfold putUser, try_catch, bind. rewrite (idParam_pretty req z P) by lia.
  rewrite rejectedId_positive by lia. rewrite B.
  destruct (Nat.eqb_spec (size updateData) 0) as [E|_].
  { now apply map_size_empty_iff in E. }
  rewrite U. reflexivity.
Qed.

End UpdateRefusals.

Section UpdateRefusals2.
Context `{Host}.

Lemma includes_no_validation :
  includes "Invalid user ID" "Validation failed" = false
  /\ includes "Invalid user ID" "already exists" = false
  /\ forall e,
       e = notAFunction "sanitized.name.trim"
       \/ e = notAFunction "sanitized.email.trim" \/ e = cannotConvert ->
       includes (message e) "Validation failed" = false
       /\ includes (message e) "already exists" = false.
Proof.
  split; [reflexivity|]. split; [reflexivity|].
  intros e [-> | [-> | ->]]; split; reflexivity.
Qed.

Lemma sanitizeUserData_throws (x : object) (e : exn) :
  sanitizeUserData x = inr e ->
  e = notAFunction "sanitized.name.trim"
  \/ e = notAFunction "sanitized.email.trim" \/ e = cannotConvert.
Proof.
  unfold sanitizeUserData. intros E.
  destruct (sanitizeName x) as [x1|e1] eqn:E1.
  - destruct (sanitizeEmail x1) as [x2|e2] eqn:E2.
    + right. right. exact (sanitizeAge_throws _ _ E).
    + injection E as <-. right. left. exact (sanitizeEmail_error _ _ E2).
  - injection E as <-. left. exact (sanitizeName_error _ _ E1).
Qed.

(** X10.  A payload that has an [age], whatever its value, is never applied:
    [updateUser] throws before any statement is sent, and the handler
    answers 400 or 500. *)
Theorem update_with_age_is_rejected (id : number) (updateData : object)
    (w : world) :
  is_Some (updateData !! "age") ->
  (exists e, updateUser id updateData w
             = (Throw e, called (UpdateUser id updateData) w))
  /\ forall req, body req = updateData ->
       exists r w', putUser req w = (Return r, w')
         /\ status r ∈ [400; 500] /\ db w' = db w /\ queries w' = queries w.
Proof.
  intros [a A].
  assert (U : forall id, exists e,
            updateUser id updateData w
            = (Throw e, called (UpdateUser id updateData) w)
            /\ (includes (message e) "Validation failed" = true
                \/ (includes (message e) "Validation failed" = false
                    /\ includes (message e) "already exists" = false))).
  { clear id. intros id. unfold updateUser, bind, entered.
    fold (called (UpdateUser id updateData) w).
    destruct includes_no_validation as (I1 & I2 & I3).
    destruct (invalidId id).
    { eexists; split; [reflexivity|]. right. split; assumption. }
    destruct (sanitizeUserData updateData) as [s|e] eqn:S; cbn [lift].
    - unfold ret at 1.
      destruct (sanitizeUserData_spec _ _ S) as (_ & _ & _ & D).
      assert (L : is_Some (s !! "age")).
      { apply elem_of_dom. rewrite D. apply elem_of_dom. eauto. }
      destruct L as [a' L].
      destruct (validateUserData s true) as [|msg errors] eqn:V.
      + exfalso. unfold validateUserData in V.
        apply app_eq_nil in V as [_ V]. apply app_eq_nil in V as [_ V].
        revert V. apply ageErrors_nonempty. right. exact (has_true _ _ _ L).
      + cbn [List.length Nat.ltb Nat.leb]. eexists; split; [reflexivity|].
        left. cbn [message].
        apply (includes_prefix "Validation failed"
                 (": " ++ join ", " (msg :: errors))).
    - eexists; split; [reflexivity|]. right.
      apply I3. exact (sanitizeUserData_throws _ _ S). }
  split; [destruct (U id) as (e & U' & _); eauto|].
  intros req B. unfold putUser, try_catch, bind.
  destruct (rejectedId _).
  { do 2 eexists. split; [reflexivity|]. split; [|split; reflexivity].
    cbn [status]. repeat constructor. }
  rewrite B. destruct (Nat.eqb_spec (size updateData) 0) as [E|_].
  { apply map_size_empty_iff in E. rewrite E in A. discriminate A. }
  destruct (U (parseInt (idParam req))) as (e & -> & M). unfold mutationFailed.
  destruct M as [-> | [-> ->]];
    (do 2 eexists; split; [reflexivity|]; split; [|split; reflexivity]);
    cbn [status]; repeat constructor.
Qed.

(** X11.  Changing the email to one that another row already has: the service
    throws after two look-ups, no [UPDATE] is sent, and the handler
    answers 409. *)
Theorem updateUser_duplicate_email (z : Z) (updateData s : object)
    (user : Pg.row) (e : string) (w : world) :
  1 <= z <= 2147483647 -> reaches 2 w ->
  List.find (hasId z) (Pg.users (db w)) = Some user ->
  sanitizeUserData updateData = inl s -> validateUserData s true = [] ->
  s !! "email" = Some (VString e) -> e <> Pg.email user ->
  Pg.hasNul e = false -> existsb (hasEmail e) (Pg.users (db w)) = true ->
  updateUser (int z) updateData w
  = (Throw (Error "User with this email already exists"),
     sent "SELECT * FROM users WHERE email = $1" [VString e]
       (next (next (db w)))
       (sent "SELECT * FROM users WHERE id = $1" [VNumber (int z)] (next (db w))
          (called (GetUserById (int z))
             (called (UpdateUser (int z) updateData) w))))
  /\ forall req, params req !! "id" = Some (pretty z) -> body req = updateData ->
       fst (putUser req w)
       = Return {| status := 409;
                   json := Failed "User with this email already exists"
                             "User with this email already exists" |}.
Proof.
  intros R F U S V L NE N X.
  assert (T : ToBoolean (VString e) = true).
  { unfold validateUserData in V.
    apply app_eq_nil in V as [_ V]. apply app_eq_nil in V as [V _].
    apply emailErrors_update in V. unfold absentOrText in V. rewrite L in V.
    cbn [ToBoolean]. destruct e; [change (str_length "") with 0 in V; lia|reflexivity]. }
  assert (Q : updateUser (int z) updateData w
              = (Throw (Error "User with this email already exists"),
                 sent "SELECT * FROM users WHERE email = $1" [VString e]
                   (next (next (db w)))
                   (sent "SELECT * FROM users WHERE id = $1" [VNumber (int z)]
                      (next (db w))
                      (called (GetUserById (int z))
                         (called (UpdateUser (int z) updateData) w))))).
  { unfold updateUser, bind, entered. rewrite invalidId_positive by lia.
    rewrite S. cbn [lift]. unfold ret at 1. rewrite V.
    cbn [List.length Nat.ltb Nat.leb].
    fold (called (UpdateUser (int z) updateData) w).
    rewrite (getUserById_reaches z (called (UpdateUser (int z) updateData) w) R
               (reaches_le 1 2 w ltac:(lia) F)).
    cbn [called db]. rewrite U. cbn [fmap option_fmap option_map].
    unfold updateUser_emailCheck, bind. rewrite (prop_lookup _ _ _ L), T.
    cbn [strictEquals responseOf UserResponse.email].
    destruct (String.eqb_spec e (Pg.email user)) as [E|_]; [now destruct NE|].
    cbn [negb andb].
    match goal with
    | |- context [findUserByEmail (VString e) ?w0] =>
        rewrite (findUserByEmail_reaches e w0 N
                   (reaches_sent 1 (called (GetUserById (int z))
                      (called (UpdateUser (int z) updateData) w)) _ _
                      (Pg.users (db w)) F))
    end.
    cbn [sent db next Pg.users].
    destruct (List.find (hasEmail e) (Pg.users (db w))) as [r|] eqn:Fe;
      [reflexivity|].
    apply existsb_exists in X as (r & I & Y).
    pose proof (List.find_none _ _ Fe r I) as Y'. congruence. }
  split; [exact Q|]. intros req P B.
  unfold putUser, try_catch, bind. rewrite (idParam_pretty req z P) by lia.
  rewrite rejectedId_positive by lia. rewrite B.
  destruct (Nat.eqb_spec (size updateData) 0) as [E|_].
  { apply map_size_empty_iff in E. rewrite E in S.
    destruct (sanitizeUserData_spec _ _ S) as (_ & _ & _ & D).
    assert (I : "email" ∈ dom s) by (apply elem_of_dom; eauto).
    rewrite D in I. apply elem_of_dom in I as [v I].
    rewrite lookup_empty in I. discriminate I. }
  rewrite Q. reflexivity.
Qed.

End UpdateRefusals2.

(** ** What the handlers answer *)

Section AnswerProperties.
Context `{Host}.

Lemma accepted_id_valid (id : number) :
  rejectedId id = false -> invalidId id = false.
Proof.
  unfold rejectedId, invalidId. intros R.
  apply orb_false_iff in R as [N L]. rewrite L, orb_false_r.
  destruct id as [|[]|q]; try discriminate; try reflexivity.
  cbn [ToBoolean]. rewrite negb_involutive.
  apply not_true_is_false. intros E. apply Qeq_bool_iff in E.
  cbn [le int] in L. apply not_true_iff_false in L. apply L.
  apply Qle_bool_iff. rewrite E. apply Qle_refl.
Qed.












End AnswerProperties.

(** ** What is bound to the statements

    Every service method hands [db.query] values that are [null], numbers
    or strings, whatever the payload holds: validation lets no array and
    no object through. *)

Section Bound.
Context `{Host}.

Lemma db_query_sends (text : string) (params : list value) (w : world) :
  queries (snd (db_query text params w)) = (queries w ++ [(text, params)])%list.
Proof.
  unfold db_query. destruct (Pg.execute _ _ _) as [[rows d]|[e d]]; reflexivity.
Qed.

Lemma try_catch_throw_world {A : Type} (m : M A) (e : exn) (w : world) :
  snd (try_catch m (fun _ => throw e) w) = snd (m w).
Proof. unfold try_catch. destruct (m w) as [[a|e'] w']; reflexivity. Qed.

Lemma userToResponse_world (o : option Pg.resultRow) (w : world) :
  snd (userToResponse o w) = w.
Proof. destruct o as [[u|i|c]|]; reflexivity. Qed.

Lemma getUserById_sends (id : number) (w : world) :
  exists new,
    queries (snd (getUserById id w)) = (queries w ++ new)%list
    /\ bindsPrimitives new.
Proof.
  unfold getUserById, bind, entered.
  destruct (invalidId id).
  { exists []. split; [cbn; now rewrite app_nil_r|constructor]. }
  rewrite try_catch_throw_world. unfold bind.
  exists [("SELECT * FROM users WHERE id = $1", [VNumber id])].
  split; [|repeat constructor].
  match goal with
  | |- context [db_query ?t ?ps ?w0] =>
      pose proof (db_query_sends t ps w0) as S;
      destruct (db_query t ps w0) as [[rows|e] w1]
  end; cbn [snd queries] in S |- *; [|exact S].
  destruct (_ =? _)%nat; [exact S|].
  pose proof (userToResponse_world (head rows) w1) as U.
  destruct (userToResponse (head rows) w1) as [[u|e] w2]; cbn [snd] in U |- *;
    subst w2; exact S.
Qed.

Lemma deleteUser_sends (id : number) (w : world) :
  exists new,
    queries (snd (deleteUser id w)) = (queries w ++ new)%list
    /\ bindsPrimitives new.
Proof.
  unfold deleteUser, bind, entered.
  destruct (invalidId id).
  { exists []. split; [cbn; now rewrite app_nil_r|constructor]. }
  rewrite try_catch_throw_world. unfold bind.
  exists [("DELETE FROM users WHERE id = $1 RETURNING id", [VNumber id])].
  split; [|repeat constructor].
  match goal with
  | |- context [db_query ?t ?ps ?w0] =>
      pose proof (db_query_sends t ps w0) as S;
      destruct (db_query t ps w0) as [[rows|e] w1]
  end; cbn [snd queries] in S |- *; [|exact S].
  destruct (_ =? _)%nat; exact S.
Qed.

Lemma queryValues_primitive (q : UserQueryParams.t) :
  forallb primitive (getUsers_queryValues q) = true.
Proof.
  destruct q as [pg lm nm em mn mx sb so].
  destruct nm as [[|c1 s1]|], em as [[|c2 s2]|], mn as [mn|], mx as [mx|];
    reflexivity.
Qed.

Lemma getUsers_binds (q : UserQueryParams.t) (w : world) :
  exists new,
    queries (snd (getUsers q w)) = (queries w ++ new)%list
    /\ bindsPrimitives new.
Proof.
  eexists. split; [apply getUsers_sends|].
  constructor; [apply queryValues_primitive|].
  destruct (Pg.execute _ _ _) as [[[|r rows] d]|[e d]]; repeat constructor.
  unfold getUsers_usersValues. cbn [snd]. rewrite forallb_app, queryValues_primitive.
  reflexivity.
Qed.

Lemma findUserByEmail_sends (email : value) (w : world) :
  queries (snd (findUserByEmail email w))
  = (queries w ++ [("SELECT * FROM users WHERE email = $1", [email])])%list.
Proof.
  unfold findUserByEmail, try_catch, bind.
  match goal with
  | |- context [db_query ?t ?ps ?w0] =>
      pose proof (db_query_sends t ps w0) as S;
      destruct (db_query t ps w0) as [[rows|e] w1]
  end; exact S.
Qed.

Lemma validated_primitive (s : object) (k : string) (lo hi : Z) :
  absentOrText s k lo hi -> primitive (prop s k) = true.
Proof.
  unfold absentOrText, prop. destruct (s !! k) as [[]|]; cbn; tauto.
Qed.

Lemma updateUser_binds (id : number) (updateData : object) (w : world) :
  exists new,
    queries (snd (updateUser id updateData w)) = (queries w ++ new)%list
    /\ bindsPrimitives new.
Proof.
  unfold updateUser, bind, entered.
  destruct (invalidId id).
  { exists []. split; [cbn; now rewrite app_nil_r|constructor]. }
  destruct (sanitizeUserData updateData) as [s|e]; cbn [lift].
  2:{ exists []. split; [cbn; now rewrite app_nil_r|constructor]. }
  unfold ret at 1.
  destruct (validateUserData s true) as [|msg errors] eqn:V.
  2:{ exists []. split; [cbn; now rewrite app_nil_r|constructor]. }
  cbn [List.length Nat.ltb Nat.leb].
  unfold validateUserData in V. apply app_eq_nil in V as [Vn V]. apply app_eq_nil in V as [Ve Va]. apply nameErrors_update in Vn. apply emailErrors_update in Ve. apply ageErrors_update in Va.
  match goal with
  | |- context [getUserById id ?w0] =>
      destruct (getUserById_sends id w0) as (n1 & S1 & P1);
      destruct (getUserById id w0) as [[[user|]|e] w1]
  end; cbn [snd queries] in S1; try (exists n1; split; [exact S1|exact P1]).
  assert (C : exists n2,
            queries (snd (updateUser_emailCheck s user w1))
            = (queries w1 ++ n2)%list /\ bindsPrimitives n2).
  { unfold updateUser_emailCheck.
    destruct (_ && _).
    - unfold bind. pose proof (findUserByEmail_sends (prop s "email") w1) as F.
      exists [("SELECT * FROM users WHERE email = $1", [prop s "email"])].
      split.
      + destruct (findUserByEmail _ w1) as [[[found|]|e] w2]; exact F.
      + repeat constructor. cbn [snd forallb].
        now rewrite (validated_primitive _ _ _ _ Ve).
    - exists []. split; [cbn; now rewrite app_nil_r|constructor]. }
  destruct C as (n2 & S2 & P2).
  destruct (updateUser_emailCheck s user w1) as [[[]|e] w2]; cbn [snd] in S2.
  2:{ exists (n1 ++ n2)%list. cbn [snd]. rewrite S2, S1, app_assoc.
      split; [reflexivity|now apply Forall_app]. }
  rewrite try_catch_throw_world. unfold bind.
  exists (n1 ++ n2 ++ [(updateUser_query id s, updateUser_values id s)])%list.
  split.
  - match goal with
    | |- context [db_query ?t ?ps ?w0] =>
        pose proof (db_query_sends t ps w0) as S;
        destruct (db_query t ps w0) as [[rows|e] w3]
    end; cbn [snd] in S |- *; rewrite S2, S1 in S; rewrite !app_assoc;
      rewrite <- !app_assoc in S |- *; [|exact S].
    destruct (_ =? _)%nat; [exact S|].
    pose proof (userToResponse_world (head rows) w3) as U.
    destruct (userToResponse (head rows) w3) as [[u|e] w4]; cbn [snd] in U |- *;
      subst w4; exact S.
  - apply Forall_app. split; [exact P1|]. apply Forall_app. split; [exact P2|].
    repeat constructor. cbn [snd].
    unfold updateUser_values, updateUser_fields.
    pose proof (validated_primitive _ _ _ _ Vn) as Pn.
    pose proof (validated_primitive _ _ _ _ Ve) as Pe.
    assert (Pa : prop s "age" = VUndefined) by (unfold prop; now rewrite Va).
    rewrite Pa.
    destruct (isUndefined (prop s "name")), (isUndefined (prop s "email"));
      cbn [negb isUndefined push app fst snd forallb primitive];
      rewrite ?Pn, ?Pe; reflexivity.
Qed.

Lemma createUser_binds (userData : object) (w : world) :
  exists new,
    queries (snd (createUser userData w)) = (queries w ++ new)%list
    /\ bindsPrimitives new.
Proof.
  destruct (createUser_throws userData w) as (e & -> & _).
  exists []. split; [cbn; now rewrite app_nil_r|constructor].
Qed.

End Bound.

(** ** When the database cannot be reached *)

Section Unreachable.
Context `{Host}.

Lemma db_query_unreachable (text : string) (params : list value) (w : world) :
  head (Pg.faults (db w)) = Some true ->
  db_query text params w
  = (Throw (Pg.describe Pg.ConnectionFailure), sent text params (next (db w)) w).
Proof.
  intros F. unfold db_query, Pg.execute.
  destruct (Pg.faults (db w)) as [|[] fs] eqn:E; try discriminate F.
  unfold sent, next. rewrite E. reflexivity.
Qed.

(** X21.  When the next statement does not reach the database, every
    handler that gets as far as the database answers 500 with the text of
    the service, and the table is as it was: [GET /], and, for an accepted
    id, [GET /:id], [DELETE /:id] and [PUT /:id] with a payload that passes
    validation. *)
Theorem unreachable_database_answers_500 (req : Request) (w : world) :
  head (Pg.faults (db w)) = Some true ->
  (fst (listUsers req w) = Return (internalErrorResponse "Failed to fetch users")
   /\ Pg.users (db (snd (listUsers req w))) = Pg.users (db w))
  /\ (rejectedId (parseInt (idParam req)) = false ->
      (fst (getUser req w) = Return (internalErrorResponse "Failed to fetch user")
       /\ Pg.users (db (snd (getUser req w))) = Pg.users (db w))
      /\ (fst (deleteUserRoute req w)
          = Return (internalErrorResponse "Failed to delete user")
          /\ Pg.users (db (snd (deleteUserRoute req w))) = Pg.users (db w))
      /\ (forall s, body req <> ∅ -> sanitizeUserData (body req) = inl s ->
            validateUserData s true = [] ->
            fst (putUser req w)
            = Return (internalErrorResponse "Failed to fetch user")
            /\ Pg.users (db (snd (putUser req w))) = Pg.users (db w))).
Proof.
  intros F. split.
  - unfold listUsers, try_catch, bind, getUsers, bind, entered, try_catch, bind.
    rewrite db_query_unreachable by exact F. split; reflexivity.
  - intros R. pose proof (accepted_id_valid _ R) as V.
    assert (G : forall w0, db w0 = db w ->
              getUserById (parseInt (idParam req)) w0
              = (Throw (Error "Failed to fetch user"),
                 sent "SELECT * FROM users WHERE id = $1"
                   [VNumber (parseInt (idParam req))] (next (db w0))
                   (called (GetUserById (parseInt (idParam req))) w0))).
    { intros w0 D. unfold getUserById, bind, entered. rewrite V.
      unfold try_catch, bind.
      rewrite db_query_unreachable by (cbn [db]; rewrite D; exact F).
      reflexivity. }
    split; [|split].
    + unfold getUser, try_catch, bind. rewrite R, (G w eq_refl).
      split; reflexivity.
    + unfold deleteUserRoute, try_catch, bind. rewrite R.
      unfold deleteUser, bind, entered. rewrite V. unfold try_catch, bind.
      rewrite db_query_unreachable by exact F. split; reflexivity.
    + intros s NE S E.
      assert (U : updateUser (parseInt (idParam req)) (body req) w
                  = (Throw (Error "Failed to fetch user"),
                     sent "SELECT * FROM users WHERE id = $1"
                       [VNumber (parseInt (idParam req))] (next (db w))
                       (called (GetUserById (parseInt (idParam req)))
                          (called (UpdateUser (parseInt (idParam req)) (body req))
                             w)))).
      { unfold updateUser, bind, entered. rewrite V, S. cbn [lift].
        unfold ret at 1. rewrite E. cbn [List.length Nat.ltb Nat.leb].
        rewrite G by reflexivity. reflexivity. }
      unfold putUser, try_catch, bind. rewrite R.
      destruct (Nat.eqb_spec (size (body req)) 0) as [Z0|_].
      { now apply map_size_empty_iff in Z0. }
      rewrite U. split; reflexivity.
Qed.

End Unreachable.

Lemma unreachable_database_answers_500_witness :
  fst (getUser (Example.request [] (Some "1") [])
         {| db := {| Pg.users := Example.sampleUsers; Pg.users_id_seq := 3;
                     Pg.now := 2000; Pg.faults := [true] |};
            queries := []; calls := [] |})
  = Return (internalErrorResponse "Failed to fetch user").
Proof.
  apply (proj2 (unreachable_database_answers_500
                  (Example.request [] (Some "1") [])
                  {| db := {| Pg.users := Example.sampleUsers;
                              Pg.users_id_seq := 3; Pg.now := 2000;
                              Pg.faults := [true] |};
                     queries := []; calls := [] |}
                  eq_refl)).
  vm_compute. reflexivity.
Defined.

(** ** Searching by name and email *)

Section Like.

Lemma like_plain (p s : string) :
  plainText p = true -> Pg.like p s = Some (String.eqb p s).
Proof.
  revert s. induction p as [|c p IH]; intros s P.
  - cbn. f_equal. destruct s; reflexivity.
  - cbn [plainText] in P. apply andb_prop in P as [C P].
    unfold plainChar in C. apply negb_true_iff in C.
    apply orb_false_iff in C as [C _]. apply orb_false_iff in C as [C C3].
    apply orb_false_iff in C as [C1 C2].
    cbn [Pg.like]. rewrite C1, C2, C3.
    destruct s as [|d s]; [reflexivity|].
    cbn [String.eqb]. rewrite (Ascii.eqb_sym c d).
    destruct (Ascii.eqb d c); [apply IH, P|reflexivity].
Qed.

Lemma like_plain_prefix (p s : string) :
  plainText p = true -> Pg.like (p ++ "%") s = Some (String.prefix p s).
Proof.
  revert s. induction p as [|c p IH]; intros s P.
  - change ("" ++ "%") with "%".
    assert (E : forall t, String.prefix "" t = true) by (now intros []).
    rewrite E. induction s as [|d s IHs]; [reflexivity|].
    rewrite <- IHs. reflexivity.
  - cbn [plainText] in P. apply andb_prop in P as [C P].
    unfold plainChar in C. apply negb_true_iff in C.
    apply orb_false_iff in C as [C _]. apply orb_false_iff in C as [C C3].
    apply orb_false_iff in C as [C1 C2].
    change (String c p ++ "%") with (String c (p ++ "%")).
    cbn [Pg.like]. rewrite C1, C2, C3.
    destruct s as [|d s]; [reflexivity|].
    cbn [String.prefix]. rewrite (Ascii.eqb_sym d c).
    destruct (ascii_dec c d) as [->|N].
    + rewrite Ascii.eqb_refl. apply IH, P.
    + rewrite (proj2 (Ascii.eqb_neq _ _) N). reflexivity.
Qed.

Lemma like_contains (p s : string) :
  plainText p = true -> Pg.like ("%" ++ p ++ "%") s = Some (includes s p).
Proof.
  intros P. change ("%" ++ p ++ "%") with (String "%" (p ++ "%")).
  cbn [Pg.like]. change (Ascii.eqb "%" "%") with true.
  cbv iota. induction s as [|d s IH].
  - rewrite (like_plain_prefix p "" P). cbn [includes].
    destruct (String.prefix p ""); reflexivity.
  - rewrite (like_plain_prefix p (String d s) P). cbn [includes].
    destruct (String.prefix p (String d s)); [reflexivity|]. exact IH.
Qed.


Lemma toLowerCase_app (s t : string) :
  toLowerCase (s ++ t) = toLowerCase s ++ toLowerCase t.
Proof.
  induction s as [|c s IH]; [reflexivity|].
  change (String c s ++ t) with (String c (s ++ t)).
  cbn [toLowerCase]. now rewrite IH.
Qed.

Lemma plainChar_toLowerCaseChar (c : ascii) :
  plainChar c = true -> plainChar (toLowerCaseChar c) = true.
Proof.
  destruct c as [[] [] [] [] [] [] [] []]; vm_compute; intros E;
    first [reflexivity | discriminate E].
Qed.

Lemma plainText_toLowerCase (s : string) :
  plainText s = true -> plainText (toLowerCase s) = true.
Proof.
  induction s as [|c s IH]; [reflexivity|]. cbn [plainText toLowerCase].
  intros P. apply andb_prop in P as [C P].
  now rewrite (plainChar_toLowerCaseChar c C), (IH P).
Qed.

Lemma ilike_contains (field text : string) :
  plainText text = true ->
  Pg.ilike field ("%" ++ text ++ "%")
  = inl (includes (toLowerCase field) (toLowerCase text)).
Proof.
  intros P. unfold Pg.ilike. rewrite !toLowerCase_app.
  change (toLowerCase "%") with "%".
  now rewrite (like_contains _ _ (plainText_toLowerCase text P)).
Qed.

Lemma hasNul_app (s t : string) :
  Pg.hasNul (s ++ t) = Pg.hasNul s || Pg.hasNul t.
Proof.
  induction s as [|c s IH]; [reflexivity|].
  change (String c s ++ t) with (String c (s ++ t)).
  cbn [Pg.hasNul]. now rewrite IH, orb_assoc.
Qed.

Lemma hasNul_plain (s : string) : plainText s = true -> Pg.hasNul s = false.
Proof.
  induction s as [|c s IH]; [reflexivity|]. cbn [plainText Pg.hasNul].
  intros P. apply andb_prop in P as [C P]. rewrite (IH P).
  unfold plainChar in C. apply negb_true_iff in C.
  apply orb_false_iff in C as [_ C]. now rewrite C.
Qed.

Lemma pgText_pattern `{Host} (text : string) :
  plainText text = true ->
  Pg.pgText (VString ("%" ++ text ++ "%")) = inl (Some ("%" ++ text ++ "%")).
Proof.
  intros P. cbn [Pg.pgText]. rewrite !hasNul_app, (hasNul_plain text P).
  reflexivity.
Qed.

End Like.

(** ** Listing *)

Section SearchList.
Context `{Host}.

Lemma parse_search (q : UserQueryParams.t) :
  searchable q -> declaredSort q ->
  let k := S (List.length (searchConditions q)) in
  Pg.parse (getUsers_countQuery q) = Some (Pg.Count (searchConditions q))
  /\ Pg.parse (getUsers_usersQuery q)
     = Some (Pg.Select (searchConditions q) (Some (ordering q)) (Some (k, S k))).
Proof.
  intros (A & B & _ & _) [S O].
  destruct q as [pg lm nm em mn mx sb so].
  cbn [UserQueryParams.minAge UserQueryParams.maxAge UserQueryParams.sortBy
       UserQueryParams.sortOrder] in A, B, S, O. subst mn mx.
  assert (S' : sb = None \/ sb = Some "name" \/ sb = Some "email"
               \/ sb = Some "age" \/ sb = Some "created_at")
    by (set_unfold; tauto).
  assert (O' : so = None \/ so = Some "ASC" \/ so = Some "DESC")
    by (set_unfold; tauto).
  clear S O.
  destruct nm as [[|c1 s1]|], em as [[|c2 s2]|];
    destruct S' as [->|[->|[->|[->| ->]]]]; destruct O' as [->|[->| ->]];
    split; vm_compute; reflexivity.
Qed.

Lemma search_tests (q : UserQueryParams.t) :
  searchable q ->
  exists tests,
    (forall extra,
       Pg.mapF (Pg.compileCondition (getUsers_queryValues q ++ extra)%list)
         (searchConditions q) = inl tests)
    /\ (forall r, Pg.passes tests r = inl (matching q r))
    /\ Pg.checkParams (Pg.Count (searchConditions q)) (getUsers_queryValues q)
       = inl tt
    /\ (forall order limit offset,
          let k := S (List.length (searchConditions q)) in
          Pg.checkParams
            (Pg.Select (searchConditions q) order (Some (k, S k)))
            (getUsers_queryValues q ++ [limit; offset])%list = inl tt
          /\ Pg.param (getUsers_queryValues q ++ [limit; offset])%list k = limit
          /\ Pg.param (getUsers_queryValues q ++ [limit; offset])%list (S k)
             = offset).
Proof.
  intros (A & B & Pn & Pe).
  destruct q as [pg lm nm em mn mx sb so].
  cbn [UserQueryParams.minAge UserQueryParams.maxAge UserQueryParams.name
       UserQueryParams.email] in A, B, Pn, Pe. subst mn mx.
  unfold getUsers_queryValues, getUsers_filters, searchConditions, matching,
    contains.
  cbn [UserQueryParams.minAge UserQueryParams.maxAge UserQueryParams.name
       UserQueryParams.email].
  destruct nm as [[|c1 s1]|], em as [[|c2 s2]|];
    cbn [given ToBoolean String.eqb negb default push app fst snd List.length]
      in Pn, Pe |- *;
    eexists;
    (split; [intros extra; cbn [Pg.mapF app]; unfold Pg.compileCondition;
             cbn [Pg.column Pg.op Pg.operand String.eqb Ascii.eqb Bool.eqb];
             unfold Pg.param; cbn [pred lookup list_lookup default];
             rewrite ?(pgText_pattern _ Pn), ?(pgText_pattern _ Pe);
             cbn [Pg.bindF]; reflexivity|]);
    (split; [intros r; cbn [Pg.passes]; unfold Pg.compareText;
             rewrite ?(ilike_contains _ _ Pn), ?(ilike_contains _ _ Pe);
             cbn [Pg.bindF];
             repeat match goal with
                    | |- context [includes ?a ?b] =>
                        destruct (includes a b); cbn [andb]
                    end; reflexivity|]);
    (split; [reflexivity|]);
    intros order limit offset; repeat split; reflexivity.
Qed.

Lemma partitionRows_filter (tests : list (Pg.row -> option bool + Pg.failure))
    (f : Pg.row -> bool) (rows : list Pg.row) :
  (forall r, Pg.passes tests r = inl (f r)) ->
  Pg.partitionRows tests rows
  = inl (List.filter f rows, List.filter (fun r => negb (f r)) rows).
Proof.
  intros P. induction rows as [|r rows IH]; [reflexivity|].
  cbn [Pg.partitionRows List.filter]. rewrite P, IH. cbn [Pg.bindF fst snd].
  destruct (f r); reflexivity.
Qed.

Lemma pgInteger_Qeq (range : Z * Z) (q : Q) (z : Z) :
  (q == inject_Z z)%Q ->
  Pg.pgInteger range (VNumber (Fin q)) = Pg.pgInteger range (VNumber (int z)).
Proof.
  intros E. unfold Pg.pgInteger, int. now rewrite (Qred_complete _ _ E).
Qed.

Lemma mapM_userToResponse (rows : list Pg.row) (w : world) :
  mapM (fun user => userToResponse (Some user)) (Pg.UserRow <$> rows) w
  = (Return (responseOf <$> rows), w).
Proof.
  revert w. induction rows as [|r rows IH]; intros w; [reflexivity|].
  rewrite !fmap_cons. cbn [mapM]. unfold bind. cbn [userToResponse].
  unfold ret at 1. rewrite IH. reflexivity.
Qed.

Lemma ceil_div (n l : Z) :
  0 < l -> Math_ceil (div (int n) (int l)) = int ((n + l - 1) / l).
Proof.
  intros L. unfold div, int.
  change (Qeq_bool (inject_Z l) 0) with (Qeq_bool (inject_Z l) (inject_Z 0)).
  rewrite (Qeq_bool_inject_Z l 0).
  destruct (Z.eqb_spec l 0) as [?|_]; [lia|].
  unfold Math_ceil, int. f_equal. f_equal.
  assert (E : (inject_Z n / inject_Z l == n # Z.to_pos l)%Q).
  { unfold Qeq, Qdiv, Qmult, Qinv, inject_Z. cbn [Qnum Qden].
    destruct l as [|lp|lp]; try lia. cbn [Qnum Qden Z.to_pos]. lia. }
  rewrite (Qceiling_comp _ _ E). unfold Qceiling, Qfloor, Qopp. cbn [Qnum Qden].
  rewrite Z2Pos.id by lia.
  pose proof (Z.div_mod (- n) l ltac:(lia)) as DM.
  pose proof (Z.mod_pos_bound (- n) l L) as B.
  replace ((n + l - 1) / l) with (- (- n / l)); [lia|].
  apply (Z.div_unique _ _ _ (l - 1 - (- n) mod l)); [lia|]. nia.
Qed.

Lemma db_query_reaches (text : string) (params : list value) (w : world)
    (st : Pg.statement) (rows : list Pg.resultRow) (d : Pg.database) :
  reaches 1 w -> Pg.parse text = Some st ->
  Pg.run st params (next (db w)) = inl (rows, d) ->
  db_query text params w = (Return rows, sent text params d w).
Proof.
  intros F P R. apply reaches_head in F. unfold db_query.
  now rewrite (execute_reaches _ _ _ st F P), R.
Qed.

Lemma reaches_next (n : nat) (w : world) (text : string) (params : list value) :
  reaches (S n) w -> reaches n (sent text params (next (db w)) w).
Proof.
  intros F. rewrite <- (withUsers_same (next (db w))).
  exact (reaches_sent n w _ _ _ F).
Qed.

Lemma run_Count_filter (conds : list Pg.condition) (params : list value)
    (tests : list (Pg.row -> option bool + Pg.failure)) (f : Pg.row -> bool)
    (d : Pg.database) :
  Pg.checkParams (Pg.Count conds) params = inl tt ->
  Pg.mapF (Pg.compileCondition params) conds = inl tests ->
  (forall r, Pg.passes tests r = inl (f r)) ->
  Pg.run (Pg.Count conds) params d
  = inl ([Pg.CountRow
            (pretty (Z.of_nat (List.length (List.filter f (Pg.users d)))))], d).
Proof.
  intros C M P. unfold Pg.run. rewrite C, M. cbn [Pg.bindF].
  now rewrite (partitionRows_filter tests f _ P).
Qed.

Lemma run_Select_filter (conds : list Pg.condition) (order : string * bool)
    (k : nat) (l o : Z) (params : list value)
    (tests : list (Pg.row -> option bool + Pg.failure)) (f : Pg.row -> bool)
    (d : Pg.database) :
  Pg.checkParams (Pg.Select conds (Some order) (Some (k, S k))) params = inl tt ->
  Pg.mapF (Pg.compileCondition params) conds = inl tests ->
  (forall r, Pg.passes tests r = inl (f r)) ->
  Pg.pgInteger Pg.int8 (Pg.param params k) = inl (Some l) ->
  Pg.pgInteger Pg.int8 (Pg.param params (S k)) = inl (Some o) ->
  0 <= l -> 0 <= o ->
  Pg.run (Pg.Select conds (Some order) (Some (k, S k))) params d
  = inl (Pg.UserRow
           <$> take (Z.to_nat l)
                 (drop (Z.to_nat o)
                    (Pg.sortRows (Some order) (List.filter f (Pg.users d)))),
         d).
Proof.
  intros C M P L O Pl Po. unfold Pg.run. rewrite C, M. cbn [Pg.bindF].
  rewrite (partitionRows_filter tests f _ P). cbn [Pg.bindF fst].
  rewrite L, O. cbn [Pg.bindF]. unfold Pg.window.
  change (default 0 (Some l)) with l. change (default 0 (Some o)) with o.
  destruct (Z.ltb_spec l 0); [lia|]. destruct (Z.ltb_spec o 0); [lia|].
  reflexivity.
Qed.

Lemma insertSorted_Permutation (lt : Pg.row -> Pg.row -> bool) (x : Pg.row)
    (l : list Pg.row) :
  Pg.insertSorted lt x l ≡ₚ x :: l.
Proof.
  induction l as [|y l IH]; [reflexivity|]. cbn [Pg.insertSorted].
  destruct (lt y x); [|reflexivity].
  rewrite IH. apply perm_swap.
Qed.

Lemma sortRows_Permutation (order : option (string * bool)) (l : list Pg.row) :
  Pg.sortRows order l ≡ₚ l.
Proof.
  destruct order as [[col desc]|]; [|reflexivity]. cbn [Pg.sortRows].
  induction l as [|x l IH]; [reflexivity|]. cbn [foldr].
  now rewrite insertSorted_Permutation, IH.
Qed.

Lemma insertSorted_sorted (lt : Pg.row -> Pg.row -> bool)
    (R : Pg.row -> Pg.row -> Prop) (x : Pg.row) (l : list Pg.row) :
  (forall a b, lt a b = true -> R a b) ->
  (forall a b, lt a b = false -> R b a) ->
  (forall a b c, R a b -> R b c -> R a c) ->
  StronglySorted R l -> StronglySorted R (Pg.insertSorted lt x l).
Proof.
  intros Strict Total Trans. induction 1 as [|y l S IH F].
  - repeat constructor.
  - cbn [Pg.insertSorted]. destruct (lt y x) eqn:E.
    + constructor; [exact IH|].
      rewrite insertSorted_Permutation. constructor; [now apply Strict|exact F].
    + pose proof (Total _ _ E) as Rxy.
      constructor; [now constructor|]. constructor; [exact Rxy|].
      eapply Forall_impl; [exact F|]. intros z Ryz. exact (Trans _ _ _ Rxy Ryz).
Qed.

Lemma sortRows_inOrder (order : string * bool) (l : list Pg.row) :
  inOrder order (Pg.sortRows (Some order) l).
Proof.
  destruct order as [col desc]. unfold inOrder. cbn [fst snd Pg.sortRows].
  intros C. induction l as [|x l IH]; [constructor|]. cbn [foldr].
  apply insertSorted_sorted; [| | |exact IH]; clear IH;
    rewrite !elem_of_cons, elem_of_nil in C;
    destruct C as [->|[->|[]]]; destruct desc;
    unfold Pg.keyLt, sortKey; cbn [String.eqb Ascii.eqb Bool.eqb];
    intros a b; try intros c;
    repeat match goal with
           | |- context [Pg.age ?r] => destruct (Pg.age r)
           end;
    cbn [notAfter]; rewrite ?Z.ltb_lt, ?Z.ltb_ge; try lia; try discriminate; try tauto.
Qed.

(** X12.  Listing, with or without a search by name and email, sorted by a
    declared column, while the table holds at most 2^53 rows and page
    times limit is at most 2^53.  The rows asked for
    are the rows whose name and email hold the given texts, letter case
    aside.  The answer holds the rows of the requested page of these, put
    in some order that is sorted by the age or by the instant of creation
    when that is the column asked for (rows with equal keys in any order,
    NULL as the largest value); by name and by email the order is the
    database's and nothing is stated of it.  The total is the number of
    rows asked for; the number of pages is the total divided by the limit
    and rounded up; there is a next page exactly when rows remain after
    this one, and a previous page exactly when this is not the first.
    The table is left as it was, and [GET /] answers 200 with that page. *)
Theorem getUsers_lists_matching (q : UserQueryParams.t) (p l : Z) (w : world) :
  searchable q -> declaredSort q -> reaches 2 w ->
  getUsers_page q = int p -> getUsers_limit q = int l ->
  p * l <= 9007199254740992 ->
  Z.of_nat (List.length (Pg.users (db w))) <= 9007199254740992 ->
  let found := List.filter (matching q) (Pg.users (db w)) in
  let n := Z.of_nat (List.length found) in
  exists sorted,
    sorted ≡ₚ found
    /\ inOrder (ordering q) sorted
    /\ fst (getUsers q w)
       = Return
           {| PaginatedUsersResponse.users := responseOf <$> pageOf p l sorted;
              PaginatedUsersResponse.pagination :=
                {| Pagination.page := int p;
                   Pagination.limit := int l;
                   Pagination.total := int n;
                   Pagination.totalPages := int ((n + l - 1) / l);
                   Pagination.hasNext := p * l <? n;
                   Pagination.hasPrev := 1 <? p |} |}
    /\ Pg.users (db (snd (getUsers q w))) = Pg.users (db w)
    /\ forall req, queryParams req = q ->
         fst (listUsers req w)
         = Return
             {| status := 200;
                json :=
                  Succeeded "Users retrieved successfully"
                    (Listed
                       {| PaginatedUsersResponse.users :=
                            responseOf <$> pageOf p l sorted;
                          PaginatedUsersResponse.pagination :=
                            {| Pagination.page := int p;
                               Pagination.limit := int l;
                               Pagination.total := int n;
                               Pagination.totalPages := int ((n + l - 1) / l);
                               Pagination.hasNext := p * l <? n;
                               Pagination.hasPrev := 1 <? p |} |}) |}.
Proof.
  intros U S F Ep El B _ found n.
  pose proof (getUsers_page_min q) as P1. rewrite Ep, le_int in P1.
  apply Z.leb_le in P1.
  destruct (getUsers_limit_range q) as [L1 L2]. rewrite El, le_int in L1, L2.
  apply Z.leb_le in L1, L2.
  destruct (parse_search q U S) as [PC PU].
  destruct (search_tests q U) as (tests & M & T & CC & CS).
  destruct (CS (Some (ordering q)) (VNumber (getUsers_limit q))
              (VNumber (getUsers_offset q))) as (CU & Kl & Ko).
  fold (getUsers_usersValues q) in CU, Kl, Ko.
  assert (O : Pg.pgInteger Pg.int8 (VNumber (getUsers_offset q))
              = inl (Some ((p - 1) * l))).
  { unfold getUsers_offset. rewrite Ep, El. unfold int at 1 2 3. cbn [sub mul].
    rewrite (pgInteger_Qeq _ _ ((p - 1) * l)).
    - apply pgInteger_int; [cbn; nia|].
      change (10 ^ 21) with 1000000000000000000000. nia.
    - rewrite inject_Z_mult. unfold Z.sub. rewrite inject_Z_plus, inject_Z_opp.
      reflexivity. }
  assert (Lm : Pg.pgInteger Pg.int8 (VNumber (getUsers_limit q)) = inl (Some l)).
  { rewrite El. apply pgInteger_int; [cbn; lia|].
    change (10 ^ 21) with 1000000000000000000000. lia. }
  set (w0 := {| db := db w; queries := queries w;
                calls := calls w ++ [GetUsers q] |}).
  assert (F0 : reaches 1 w0) by exact (reaches_le 1 2 w ltac:(lia) F).
  pose proof (M []) as M0. rewrite app_nil_r in M0.
  pose proof (db_query_reaches _ (getUsers_queryValues q) w0 _ _ _ F0 PC
                (run_Count_filter _ _ tests (matching q) _ CC M0 T)) as Q1.
  set (w1 := sent _ _ _ w0) in Q1.
  assert (F1 : reaches 1 w1) by exact (reaches_next 1 w0 _ _ F).
  pose proof (db_query_reaches _ (getUsers_usersValues q) w1 _ _ _ F1 PU
                (run_Select_filter _ (ordering q) _ l ((p - 1) * l) _ tests
                   (matching q) _ CU (M _) T
                   ltac:(rewrite Kl; exact Lm) ltac:(rewrite Ko; exact O)
                   ltac:(lia) ltac:(nia))) as Q2.
  assert (G : getUsers q w
              = (Return
                   {| PaginatedUsersResponse.users :=
                        responseOf
                          <$> pageOf p l (Pg.sortRows (Some (ordering q)) found);
                      PaginatedUsersResponse.pagination :=
                        {| Pagination.page := int p;
                           Pagination.limit := int l;
                           Pagination.total := int n;
                           Pagination.totalPages := int ((n + l - 1) / l);
                           Pagination.hasNext := p * l <? n;
                           Pagination.hasPrev := 1 <? p |} |},
                 sent (getUsers_usersQuery q) (getUsers_usersValues q)
                   (next (db w1)) w1)).
  { unfold getUsers, bind, entered, try_catch. fold w0. unfold bind.
    rewrite Q1. cbn [head]. unfold ret at 1. rewrite Q2.
    rewrite mapM_userToResponse. unfold ret. clear Q1 Q2 F0 F1.
    subst w1 w0. cbn [fst snd sent db next Pg.users]. fold found. fold n.
    rewrite El, Ep.
    rewrite (parseInt_pretty n) by lia. rewrite (ceil_div n l) by lia.
    rewrite lt_int. unfold gt. rewrite lt_int. unfold pageOf.
    do 4 f_equal.
    destruct (Z.ltb_spec p ((n + l - 1) / l)) as [A|A];
      destruct (Z.ltb_spec (p * l) n) as [C|C]; try reflexivity; exfalso.
    - assert (l * (p + 1) <= n + l - 1); [|nia].
      etransitivity; [|apply (Z.mul_div_le _ l); lia].
      apply Z.mul_le_mono_nonneg_l; lia.
    - assert (p + 1 <= (n + l - 1) / l); [|lia].
      apply Z.div_le_lower_bound; [lia|nia]. }
  exists (Pg.sortRows (Some (ordering q)) found).
  split; [apply sortRows_Permutation|]. split; [apply sortRows_inOrder|].
  rewrite G. split; [reflexivity|]. split; [reflexivity|].
  intros req Q. unfold listUsers, try_catch, bind.
  change (getUsers _ w) with (getUsers (queryParams req) w).
  rewrite Q, G. reflexivity.
Qed.

End SearchList.

(** ** Updates that are applied *)

Section UpdateApplied.
Context `{Host}.

Lemma mapF_map {A B : Type} (f : A -> B + Pg.failure) (g : A -> B) (l : list A) :
  (forall a, a ∈ l -> f a = inl (g a)) -> Pg.mapF f l = inl (g <$> l).
Proof.
  induction l as [|a l IH]; intros E; [reflexivity|].
  cbn [Pg.mapF]. rewrite (E a) by repeat constructor. cbn [Pg.bindF].
  rewrite IH by (intros b I; apply E; now constructor). reflexivity.
Qed.

Lemma passes_idIs (z : Z) (r : Pg.row) : Pg.passes [idIs z] r = inl (hasId z r).
Proof.
  unfold Pg.passes, idIs, Pg.compareInt, hasId. cbn.
  destruct (Pg.id r =? z); reflexivity.
Qed.

Lemma changed_rows (z : Z) (f : Pg.row -> Pg.row) (rows : list Pg.row) :
  fst <$> filter (fun x : Pg.row * bool => snd x = true)
            ((fun r => if hasId z r then (f r, true) else (r, false)) <$> rows)
  = f <$> List.filter (hasId z) rows.
Proof.
  induction rows as [|r rows IH]; [reflexivity|].
  rewrite fmap_cons, filter_cons. cbn [List.filter].
  destruct (hasId z r); cbn [snd].
  - rewrite decide_True by reflexivity. rewrite !fmap_cons, IH. reflexivity.
  - rewrite decide_False by discriminate. exact IH.
Qed.

Lemma run_Update_map (sets : list (string * Pg.expr)) (k : nat)
    (values : list value) (d : Pg.database) (z : Z) (f : Pg.row -> Pg.row) :
  Pg.checkParams
    (Pg.Update sets [{| Pg.column := "id"; Pg.op := Pg.Eq; Pg.operand := k |}])
    values = inl tt ->
  NoDup (fst <$> sets) ->
  Pg.compileCondition values
    {| Pg.column := "id"; Pg.op := Pg.Eq; Pg.operand := k |} = inl (idIs z) ->
  (forall r, r ∈ Pg.users d -> hasId z r = true ->
     exists dr, Pg.assignAll values (Pg.now d) (Pg.draftOf r) sets = inl dr
       /\ Pg.constrain (Pg.update_updated_at_column (Pg.now d) dr) = inl (f r)) ->
  Pg.unique ((fun r => if hasId z r then f r else r) <$> Pg.users d) = true ->
  Pg.run (Pg.Update sets [{| Pg.column := "id"; Pg.op := Pg.Eq; Pg.operand := k |}])
         values d
  = inl (Pg.UserRow <$> (f <$> List.filter (hasId z) (Pg.users d)),
         Pg.withUsers d ((fun r => if hasId z r then f r else r) <$> Pg.users d)).
Proof.
  intros C N I A U. unfold Pg.run. rewrite C.
  rewrite bool_decide_eq_true_2 by exact N. cbn [negb].
  cbn [Pg.mapF]. rewrite I. cbn [Pg.bindF].
  rewrite (mapF_map _ (fun r => if hasId z r then (f r, true) else (r, false))).
  2:{ intros r M. rewrite passes_idIs. cbn [Pg.bindF].
      destruct (hasId z r) eqn:E; [|reflexivity].
      destruct (A r M E) as (dr & -> & C'). cbn [Pg.bindF]. rewrite C'.
      reflexivity. }
  cbn [Pg.bindF].
  assert (E : fst <$> ((fun r => if hasId z r then (f r, true) else (r, false))
                         <$> Pg.users d)
              = (fun r => if hasId z r then f r else r) <$> Pg.users d).
  { rewrite <- list_fmap_compose. apply list_fmap_ext. intros _ r _.
    cbn. now destruct (hasId z r). }
  rewrite E, U, changed_rows, E. reflexivity.
Qed.


Lemma NoDup_fmap_eq {A B : Type} (f : A -> B) (l : list A) (a b : A) :
  NoDup (f <$> l) -> a ∈ l -> b ∈ l -> f a = f b -> a = b.
Proof.
  induction l as [|x l IH]; intros N Ia Ib E; [now apply elem_of_nil in Ia|].
  rewrite fmap_cons in N. apply NoDup_cons in N as [Nx N].
  apply elem_of_cons in Ia as [->|Ia]; apply elem_of_cons in Ib as [->|Ib].
  - reflexivity.
  - destruct Nx. rewrite E. now apply list_elem_of_fmap_2.
  - destruct Nx. rewrite <- E. now apply list_elem_of_fmap_2.
  - now apply IH.
Qed.

Lemma find_elem {A : Type} (f : A -> bool) (l : list A) (a : A) :
  List.find f l = Some a -> a ∈ l /\ f a = true.
Proof.
  intros E. apply List.find_some in E as [I F]. split; [|exact F].
  now apply list_elem_of_In.
Qed.

Lemma existsb_false_elem {A : Type} (f : A -> bool) (l : list A) (a : A) :
  existsb f l = false -> a ∈ l -> f a = false.
Proof.
  intros E I. destruct (f a) eqn:F; [|reflexivity].
  rewrite <- E. symmetry. apply existsb_exists. exists a.
  split; [now apply list_elem_of_In|exact F].
Qed.

Lemma NoDup_email_replaced (z : Z) (e : string) (rows : list Pg.row) :
  NoDup (Pg.id <$> rows) -> NoDup (Pg.email <$> rows) ->
  existsb (hasEmail e) rows = false ->
  NoDup ((fun r => if hasId z r then e else Pg.email r) <$> rows).
Proof.
  induction rows as [|r rows IH]; intros Ni Ne X; [constructor|].
  rewrite fmap_cons in *. apply NoDup_cons in Ni as [Ii Ni].
  apply NoDup_cons in Ne as [Ie Ne]. cbn [existsb] in X.
  apply orb_false_iff in X as [Xr X].
  apply NoDup_cons. split; [|now apply IH].
  intros M. apply list_elem_of_fmap in M as (r' & E & I).
  destruct (hasId z r) eqn:Zr.
  - destruct (hasId z r') eqn:Zr'.
    + destruct Ii. unfold hasId in Zr, Zr'. apply Z.eqb_eq in Zr, Zr'.
      rewrite Zr, <- Zr'. now apply list_elem_of_fmap_2.
    + pose proof (existsb_false_elem _ _ _ X I) as F. unfold hasEmail in F.
      apply String.eqb_neq in F. congruence.
  - destruct (hasId z r') eqn:Zr'.
    + unfold hasEmail in Xr. apply String.eqb_neq in Xr. congruence.
    + destruct Ie. rewrite E. now apply list_elem_of_fmap_2.
Qed.

Lemma unique_updated (z : Z) (s : object) (now : Z) (user : Pg.row)
    (rows : list Pg.row) :
  Pg.unique rows = true -> List.find (hasId z) rows = Some user ->
  emailFree s user rows ->
  Pg.unique ((fun r => if hasId z r then updated s now r else r) <$> rows) = true.
Proof.
  unfold Pg.unique. intros U F E. apply andb_prop in U as [Ui Ue].
  apply bool_decide_eq_true in Ui, Ue. apply find_elem in F as [Iu Zu].
  apply andb_true_intro. split; apply bool_decide_eq_true.
  - rewrite <- list_fmap_compose.
    rewrite (list_fmap_ext _ Pg.id); [exact Ui|].
    intros _ r _. cbn. now destruct (hasId z r).
  - rewrite <- list_fmap_compose. unfold emailFree in E.
    destruct (s !! "email") as [[| | | |e| |]|] eqn:L;
      try (rewrite (list_fmap_ext _ Pg.email); [exact Ue|];
           intros _ r _; cbn; destruct (hasId z r); [|reflexivity];
           cbn [updated Pg.email]; now rewrite L).
    destruct E as [E|E].
    + rewrite (list_fmap_ext _ Pg.email); [exact Ue|].
      intros i r I. apply list_elem_of_lookup_2 in I. cbn.
      destruct (hasId z r) eqn:Zr; [|reflexivity].
      cbn [updated Pg.email]. rewrite L, E. f_equal. symmetry.
      apply (NoDup_fmap_eq Pg.id rows); try assumption.
      unfold hasId in Zr, Zu. apply Z.eqb_eq in Zr, Zu. congruence.
    + rewrite (list_fmap_ext _ (fun r => if hasId z r then e else Pg.email r)).
      * now apply NoDup_email_replaced.
      * intros _ r _. cbn. destruct (hasId z r); [|reflexivity].
        cbn [updated Pg.email]. now rewrite L.
Qed.


Lemma varchar_short (n : nat) (t : string) :
  (String.length t <= n)%nat -> Pg.varchar n t = inl t.
Proof.
  intros L. unfold Pg.varchar. now rewrite (proj2 (Nat.leb_le _ _) L).
Qed.

Lemma constrain_updated (s : object) (now : Z) (r : Pg.row) :
  Pg.constrain (Pg.draftOf r) = inl r ->
  absentOrText s "name" 2 100 -> absentOrText s "email" 1 255 ->
  Pg.constrain (updatedDraft s now r) = inl (updated s now r).
Proof.
  unfold Pg.constrain, updatedDraft, Pg.draftOf, absentOrText, str_length.
  cbn [Pg.d_id Pg.d_name Pg.d_email Pg.d_age Pg.d_created_at Pg.d_updated_at
       updated Pg.name Pg.email].
  intros W N E.
  destruct (Pg.varchar 100 (Pg.name r)) as [n0|] eqn:V1; [|discriminate W].
  destruct (Pg.varchar 255 (Pg.email r)) as [e0|] eqn:V2; [|discriminate W].
  cbn [Pg.bindF] in W.
  destruct (String.length n0 <? 2)%nat eqn:L0; [discriminate W|].
  destruct (match Pg.age r with
            | Some a => negb ((0 <=? a) && (a <=? 100))
            | None => false
            end) eqn:A; [discriminate W|].
  injection W as W.
  assert (Hn : Pg.name r = n0) by (rewrite <- W; reflexivity).
  assert (He : Pg.email r = e0) by (rewrite <- W; reflexivity).
  subst n0 e0. clear W.
  assert (V1' : exists n1, Pg.varchar 100
                  match s !! "name" with
                  | Some (VString name) => name
                  | _ => Pg.name r
                  end = inl n1
                /\ n1 = match s !! "name" with
                        | Some (VString name) => name
                        | _ => Pg.name r
                        end
                /\ (String.length n1 <? 2)%nat = false).
  { destruct (s !! "name") as [[| | | |nm| |]|]; try (exfalso; exact N);
      try (exists (Pg.name r); repeat split; assumption).
    exists nm. split; [apply varchar_short; lia|]. split; [reflexivity|].
    apply Nat.ltb_ge. lia. }
  destruct V1' as (n1 & V1' & En & Ln).
  assert (V2' : Pg.varchar 255
                  match s !! "email" with
                  | Some (VString email) => email
                  | _ => Pg.email r
                  end
                = inl match s !! "email" with
                      | Some (VString email) => email
                      | _ => Pg.email r
                      end).
  { destruct (s !! "email") as [[| | | |em| |]|]; try (exfalso; exact E);
      try assumption.
    apply varchar_short. lia. }
  rewrite V1'. cbn [Pg.bindF]. rewrite V2'. cbn [Pg.bindF]. rewrite Ln.
  now rewrite En.
Qed.

Lemma update_statement (z : Z) (s : object) :
  1 <= z <= 2147483647 ->
  absentOrText s "name" 2 100 -> absentOrText s "email" 1 255 ->
  s !! "age" = None -> noNul s ->
  exists sets k,
    let where_ := {| Pg.column := "id"; Pg.op := Pg.Eq; Pg.operand := k |} in
    Pg.parse (updateUser_query (int z) s) = Some (Pg.Update sets [where_])
    /\ Pg.checkParams (Pg.Update sets [where_]) (updateUser_values (int z) s)
       = inl tt
    /\ NoDup (fst <$> sets)
    /\ Pg.compileCondition (updateUser_values (int z) s) where_ = inl (idIs z)
    /\ forall now r,
         exists dr,
           Pg.assignAll (updateUser_values (int z) s) now (Pg.draftOf r) sets
           = inl dr
           /\ Pg.update_updated_at_column now dr = updatedDraft s now r.
Proof.
  intros R N E A NN.
  assert (Pa : prop s "age" = VUndefined) by (unfold prop; now rewrite A).
  unfold updateUser_query, updateUser_values, updateUser_fields, absentOrText,
    updatedDraft, updated in *.
  rewrite !Pa.
  pose proof (NN "name") as Zn. pose proof (NN "email") as Ze.
  destruct (s !! "name") as [[| | | |nm| |]|] eqn:Ln; try (exfalso; exact N);
    destruct (s !! "email") as [[| | | |em| |]|] eqn:Le; try (exfalso; exact E);
    unfold prop; rewrite !Ln, !Le;
    cbn [default isUndefined negb push app fst snd];
    (do 2 eexists; cbv zeta;
     split; [vm_compute; reflexivity|];
     split; [reflexivity|];
     split; [apply (bool_decide_eq_true_1 _); vm_compute; reflexivity|];
     split; [apply (compile_idIs z); [exact R|reflexivity]|]);
    intros now r; eexists;
    (split; [cbn; rewrite ?(Zn _ eq_refl), ?(Ze _ eq_refl); reflexivity
            |reflexivity]).
Qed.


Lemma emailCheck_passes (s : object) (user : Pg.row) (w : world) :
  reaches 2 w -> absentOrText s "email" 1 255 -> noNul s ->
  Pg.unique (Pg.users (db w)) = true -> user ∈ Pg.users (db w) ->
  emailFree s user (Pg.users (db w)) ->
  exists w', updateUser_emailCheck s (responseOf user) w = (Return tt, w')
    /\ Pg.users (db w') = Pg.users (db w) /\ Pg.now (db w') = Pg.now (db w)
    /\ reaches 1 w'.
Proof.
  intros F E NN U I Fr. unfold updateUser_emailCheck, absentOrText, emailFree in *.
  pose proof (NN "email") as Ze. unfold prop.
  destruct (s !! "email") as [[| | | |e| |]|] eqn:L; try (exfalso; exact E).
  - change (default VUndefined (Some (VString e))) with (VString e).
    assert (T : ToBoolean (VString e) = true).
    { destruct e; [change (str_length "") with 0 in E; lia|reflexivity]. }
    rewrite T. cbn [strictEquals responseOf UserResponse.email andb].
    destruct (String.eqb_spec e (Pg.email user)) as [Q|Q]; cbn [negb].
    + exists w. repeat split. exact (reaches_le 1 2 w ltac:(lia) F).
    + destruct Fr as [Fr|Fr]; [now destruct Q|].
      unfold bind.
      rewrite (findUserByEmail_reaches e w (Ze _ eq_refl)
                 (reaches_le 1 2 w ltac:(lia) F)).
      rewrite (find_absent _ _ Fr). cbn [fmap option_fmap option_map].
      eexists. split; [reflexivity|]. repeat split.
      exact (reaches_next 1 w _ _ F).
  - change (default VUndefined None) with VUndefined.
    cbn [ToBoolean andb]. exists w. repeat split.
    exact (reaches_le 1 2 w ltac:(lia) F).
Qed.

(** X13.  An update of the name, of the email or of both, on a row that exists:
    the service returns the row with the fields of the sanitized payload
    and the time of the update, and the table holds that row in place of
    the old one; every other row is as it was. *)
Theorem updateUser_applies (z : Z) (updateData s : object) (user : Pg.row)
    (w : world) :
  1 <= z <= 2147483647 -> reaches 3 w ->
  wellFormed (db w) -> Pg.unique (Pg.users (db w)) = true ->
  List.find (hasId z) (Pg.users (db w)) = Some user ->
  sanitizeUserData updateData = inl s -> validateUserData s true = [] ->
  noNul s -> emailFree s user (Pg.users (db w)) ->
  fst (updateUser (int z) updateData w)
  = Return (Some (responseOf (updated s (Pg.now (db w)) user)))
  /\ Pg.users (db (snd (updateUser (int z) updateData w)))
     = (fun r => if hasId z r then updated s (Pg.now (db w)) r else r)
         <$> Pg.users (db w)
  /\ forall req, params req !! "id" = Some (pretty z) -> body req = updateData ->
       updateData <> ∅ ->
       fst (putUser req w)
       = Return {| status := 200;
                   json := Succeeded "User updated successfully"
                             (OneUser (responseOf
                                         (updated s (Pg.now (db w)) user))) |}.
Proof.
  intros R F W U Fu S V NN Fr.
  unfold validateUserData in V.
  apply app_eq_nil in V as [Vn V]. apply app_eq_nil in V as [Ve Va].
  apply nameErrors_update in Vn. apply emailErrors_update in Ve.
  apply ageErrors_update in Va.
  destruct (find_elem _ _ _ Fu) as [Iu Zu].
  set (w0 := called (UpdateUser (int z) updateData) w).
  pose proof (getUserById_reaches z w0 R (reaches_le 1 3 w ltac:(lia) F)) as G.
  change (Pg.users (db w0)) with (Pg.users (db w)) in G. rewrite Fu in G.
  cbn [fmap option_fmap option_map] in G.
  set (w1 := sent _ _ _ _) in G.
  assert (F1 : reaches 2 w1).
  { exact (reaches_next 2 (called (GetUserById (int z)) w0)
             "SELECT * FROM users WHERE id = $1" [VNumber (int z)] F). }
  destruct (emailCheck_passes s user w1 F1 Ve NN U Iu Fr)
    as (w2 & C & U2 & N2 & F2).
  change (Pg.users (db w1)) with (Pg.users (db w)) in U2.
  change (Pg.now (db w1)) with (Pg.now (db w)) in N2.
  destruct (update_statement z s R Vn Ve Va NN)
    as (sets & k & P & CP & ND & CC & AS).
  assert (Q : db_query (updateUser_query (int z) s) (updateUser_values (int z) s) w2
              = (Return (Pg.UserRow
                           <$> (updated s (Pg.now (db w)) 
                                  <$> List.filter (hasId z) (Pg.users (db w)))),
                 sent (updateUser_query (int z) s) (updateUser_values (int z) s)
                   (Pg.withUsers (next (db w2))
                      ((fun r => if hasId z r
                                 then updated s (Pg.now (db w)) r else r)
                         <$> Pg.users (db w)))
                   w2)).
  { apply (db_query_reaches _ _ _ _ _ _ F2 P).
    rewrite (run_Update_map sets k _ (next (db w2)) z
               (updated s (Pg.now (db w)))); cbn [next Pg.users Pg.now];
      rewrite ?U2, ?N2; try assumption; try reflexivity.
    - intros r I Zr. destruct (AS (Pg.now (db w)) r) as (dr & A1 & A2).
      exists dr. split; [exact A1|]. rewrite A2.
      apply constrain_updated; try assumption.
      exact (proj1 (Forall_forall _ _) W r I).
    - now apply unique_updated with (user := user). }
  assert (E : updateUser (int z) updateData w
              = (Return (Some (responseOf (updated s (Pg.now (db w)) user))),
                 sent (updateUser_query (int z) s) (updateUser_values (int z) s)
                   (Pg.withUsers (next (db w2))
                      ((fun r => if hasId z r
                                 then updated s (Pg.now (db w)) r else r)
                         <$> Pg.users (db w)))
                   w2)).
  { unfold updateUser, bind, entered. rewrite invalidId_positive by lia.
    rewrite S. cbn [lift]. unfold ret at 1.
    replace (validateUserData s true) with (@nil string).
    2:{ symmetry. unfold validateUserData.
        rewrite (proj2 (nameErrors_update s) Vn),
          (proj2 (emailErrors_update s) Ve), (proj2 (ageErrors_update s) Va).
        reflexivity. }
    cbn [List.length Nat.ltb Nat.leb]. fold (called (UpdateUser (int z) updateData) w).
    fold w0. rewrite G, C.
    unfold try_catch, bind. rewrite Q.
    rewrite <- head_filter_find in Fu.
    destruct (List.filter (hasId z) (Pg.users (db w))) as [|r rows];
      [discriminate Fu|].
    injection Fu as ->. reflexivity. }
  rewrite E. split; [reflexivity|]. split; [reflexivity|].
  intros req Pid B NE. unfold putUser, try_catch, bind.
  rewrite (idParam_pretty req z Pid) by lia.
  rewrite rejectedId_positive by lia. rewrite B.
  destruct (Nat.eqb_spec (size updateData) 0) as [Z0|_].
  { now apply map_size_empty_iff in Z0. }
  rewrite E. reflexivity.
Qed.

End UpdateApplied.

(** ** Reading leaves the table alone *)

Section ReadOnly.
Context `{Host}.

Lemma parse_countQuery (q : UserQueryParams.t) :
  exists conds, Pg.parse (getUsers_countQuery q) = Some (Pg.Count conds).
Proof.
  destruct q as [pg lm nm em mn mx sb so].
  destruct nm as [[|c1 s1]|], em as [[|c2 s2]|], mn as [mn|], mx as [mx|];
    eexists; vm_compute; reflexivity.
Qed.

Lemma run_Count_keeps (conds : list Pg.condition) (params : list value)
    (d : Pg.database) :
  after (Pg.run (Pg.Count conds) params d) = d.
Proof.
  unfold Pg.run. destruct (Pg.checkParams _ _); [|reflexivity].
  destruct (Pg.bindF _ _) as [[yes no]|]; reflexivity.
Qed.

Lemma db_query_Count_keeps (text : string) (params : list value) (w : world)
    (conds : list Pg.condition) :
  Pg.parse text = Some (Pg.Count conds) ->
  Pg.users (db (snd (db_query text params w))) = Pg.users (db w).
Proof.
  intros P. unfold db_query, Pg.execute. rewrite P.
  destruct (Pg.faults (db w)) as [|[] fs]; try reflexivity;
    match goal with
    | |- context [Pg.run ?st ?ps ?d] =>
        pose proof (run_Count_keeps conds ps d) as K;
        destruct (Pg.run st ps d) as [[rows d']|[e d']]
    end; cbn [after] in K; subst d'; reflexivity.
Qed.

Lemma getUsers_keeps (q : UserQueryParams.t) (w : world) :
  declaredSort q -> Pg.users (db (snd (getUsers q w))) = Pg.users (db w).
Proof.
  intros S. destruct (parse_countQuery q) as [cc PC].
  destruct (parse_usersQuery q S) as (cu & o & l & f & PU & _).
  unfold getUsers, bind, entered, try_catch, bind.
  match goal with
  | |- context [db_query ?t ?ps ?w0] =>
      pose proof (db_query_Count_keeps t ps w0 cc PC) as K1;
      destruct (db_query t ps w0) as [[rows|e] w1]
  end; cbn [snd db] in K1; [|exact K1].
  assert (K2 : forall total : number,
            Pg.users (db (snd
              ((let! usersResult :=
                  db_query (getUsers_usersQuery q) (getUsers_usersValues q) in
                let! users :=
                  mapM (fun user => userToResponse (Some user)) usersResult in
                ret (total, users)) w1)))
            = Pg.users (db w)).
  { intros total. unfold bind.
    pose proof (proj1 (db_query_Select_keeps _ (getUsers_usersValues q) w1
                         _ _ _ PU)) as K.
    destruct (db_query _ _ w1) as [[rows'|e] w2]; cbn [snd] in K |- *;
      [|congruence].
    pose proof (mapM_userToResponse_world rows' w2) as M.
    destruct (mapM _ rows' w2) as [[l'|e] w3]; cbn [snd] in M |- *;
      subst w3; unfold ret; cbn [snd]; congruence. }
  destruct (head rows) as [[| |count]|]; unfold ret at 1, throw at 1;
    try exact K1;
    match goal with
    | |- context [parseInt ?c] => specialize (K2 (parseInt c))
    | _ => specialize (K2 NaN)
    end;
    unfold bind in K2 |- *;
    destruct (db_query _ _ w1) as [[rows'|e] w2]; cbn [snd] in K2 |- *;
      try exact K2;
    destruct (mapM _ rows' w2) as [[l'|e] w3]; exact K2.
Qed.

(** X14.  The two reading endpoints never change the table: [GET /:id] for
    every request, [GET /] for every request whose sort column and
    direction are among the declared ones. *)
Theorem reads_never_write (req : Request) (w : world) :
  Pg.users (db (snd (getUser req w))) = Pg.users (db w)
  /\ (query req !! "sortBy"
        ∈ [None; Some "name"; Some "email"; Some "age"; Some "created_at"] ->
      query req !! "sortOrder" ∈ [None; Some "ASC"; Some "DESC"] ->
      Pg.users (db (snd (listUsers req w))) = Pg.users (db w)).
Proof.
  split.
  - unfold getUser, try_catch, bind. destruct (rejectedId _); [reflexivity|].
    pose proof (proj1 (getUserById_keeps (parseInt (idParam req)) w)) as K.
    destruct (getUserById _ w) as [[[user|]|e] w']; exact K.
  - intros S O. unfold listUsers, try_catch, bind.
    match goal with
    | |- context [getUsers ?q w] =>
        pose proof (getUsers_keeps q w (conj S O)) as K;
        destruct (getUsers q w) as [[result|e] w']
    end; exact K.
Qed.

End ReadOnly.

(** ** The logger *)

Section LoggerProperties.
Context {Data : Type} (JSON_stringify : Data -> string) (nativeCode : string).

(** X15.  What a log line holds.  With data, the line is a space, the dim
    escape, the data as JSON and the reset escape: neither the level nor
    the message shows.  Without data, it is the colour of the level, the
    bright escape, the name of the level in brackets, the reset escape, a
    space and the message.  The escapes for colour and reset are left out
    when colours are off.  The time stamp never shows, whatever the
    configuration says: the line is the same with and without it. *)
Theorem formatMessage_drops (cfg : logger.config.t) (level : Z)
    (message : string) (data : option Data) :
  let line := logger.formatMessage JSON_stringify nativeCode cfg in
  let reset := if logger.config.useColors cfg then logger.colors.reset else "" in
  let tint (color : string) :=
    if logger.config.useColors cfg then color else "" in
  (forall d,
     line level message (Some d)
     = " " ++ logger.colors.dim ++ JSON_stringify d ++ reset)
  /\ line LogLevel.ERROR message None
     = tint logger.colors.red ++ logger.colors.bright ++ "[ERROR]" ++ reset
         ++ " " ++ message
  /\ line LogLevel.WARN message None
     = tint logger.colors.yellow ++ logger.colors.bright ++ "[WARN]" ++ reset
         ++ " " ++ message
  /\ line LogLevel.INFO message None
     = tint logger.colors.green ++ logger.colors.bright ++ "[INFO]" ++ reset
         ++ " " ++ message
  /\ line LogLevel.DEBUG message None
     = tint logger.colors.cyan ++ logger.colors.bright ++ "[DEBUG]" ++ reset
         ++ " " ++ message
  /\ (level ∉ [LogLevel.ERROR; LogLevel.WARN; LogLevel.INFO; LogLevel.DEBUG] ->
      line level message None
      = tint logger.colors.bright ++ logger.colors.bright ++ "[UNKNOWN]" ++ reset
          ++ " " ++ message)
  /\ (forall stamped nativeCode',
        logger.formatMessage JSON_stringify nativeCode'
          {| logger.config.level := logger.config.level cfg;
             logger.config.includeTimestamp := stamped;
             logger.config.useColors := logger.config.useColors cfg |}
          level message data
        = line level message data).
Proof.
  cbv zeta. unfold logger.formatMessage, logger.getColorForLevel, logger.getLevelName.
  split; [reflexivity|].
  split; [destruct (logger.config.useColors cfg); reflexivity|].
  split; [destruct (logger.config.useColors cfg); reflexivity|].
  split; [destruct (logger.config.useColors cfg); reflexivity|].
  split; [destruct (logger.config.useColors cfg); reflexivity|].
  split.
  - intros N. rewrite !not_elem_of_cons in N. destruct N as (N0 & N1 & N2 & N3 & _).
    apply Z.eqb_neq in N0, N1, N2, N3. rewrite N0, N1, N2, N3.
    destruct (logger.config.useColors cfg); reflexivity.
  - intros stamped nativeCode'.
    cbn [logger.config.includeTimestamp logger.config.useColors].
    destruct data; reflexivity.
Qed.

(** X16.  Which calls write.  Once the level has been set to [l], a method
    writes one line, on its own channel, exactly when its level is at most
    [l], and nothing otherwise; logging never changes the configuration. *)
Theorem logger_level_filter (l : Z) (message : string) (data : option Data)
    (s : logger.state) :
  let s' := logger.setLevel l s in
  let written (level : Z) (c : logger.channel) (after : logger.state) :=
    logger.cfg after = logger.cfg s'
    /\ logger.console after
       = if logger.isLevelEnabled level s'
         then (logger.console s
                 ++ [(c, logger.Text
                           (logger.formatMessage JSON_stringify nativeCode
                              (logger.cfg s') level message data))])%list
         else logger.console s in
  written LogLevel.ERROR logger.console_error
    (logger.error JSON_stringify nativeCode message data s')
  /\ written LogLevel.WARN logger.console_warn
       (logger.warn JSON_stringify nativeCode message data s')
  /\ written LogLevel.INFO logger.console_info
       (logger.info JSON_stringify nativeCode message data s')
  /\ written LogLevel.DEBUG logger.console_debug
       (logger.debug JSON_stringify nativeCode message data s')
  /\ forall level, logger.isLevelEnabled level s' = (level <=? l).
Proof.
  cbv zeta.
  unfold logger.error, logger.warn, logger.info, logger.debug, logger.log,
    logger.isLevelEnabled, logger.setLevel.
  cbn [logger.cfg logger.console logger.config.level].
  unfold LogLevel.ERROR, LogLevel.WARN, LogLevel.INFO, LogLevel.DEBUG.
  repeat split;
    try match goal with
        | |- context [?x <? ?a] =>
            rewrite (Z.ltb_antisym a x); destruct (a <=? x); reflexivity
        end.
Qed.

End LoggerProperties.

(** ** The error middleware *)

Section ErrorHandlerProperties.
Context (JSON_stringify : ErrorLog.t -> string) (nativeCode : string)
        (captureStack : string -> string).

Lemma numberOr_truthy (v : option number) (d : number) :
  ToBoolean (VNumber d) = true ->
  ToBoolean (VNumber (UserService.numberOr v d)) = true.
Proof.
  intros D. unfold UserService.numberOr.
  destruct v as [n|]; [|exact D].
  destruct (ToBoolean (VNumber n)) eqn:T; [exact T|exact D].
Qed.

(** X17.  What the error response gives away.  The status is the
    [statusCode] of the error when that is a number other than 0 and NaN,
    and 500 otherwise, so it is never 0 or NaN; the stack and the error
    object are sent in development only; in production the message of an
    error that is not marked operational is withheld; elsewhere the message
    is never empty. *)
Theorem errorHandler_discloses (NODE_ENV : option string) (now : Z)
    (error : AppError.t) (req : errorHandler.Request) (s : logger.state) :
  let sent := snd (errorHandler.errorHandler JSON_stringify nativeCode
                     NODE_ENV now error req s) in
  ToBoolean (VNumber (fst sent)) = true
  /\ (AppError.statusCode error = None -> fst sent = int 500)
  /\ (forall statusCode, AppError.statusCode error = Some statusCode ->
        fst sent = if ToBoolean (VNumber statusCode) then statusCode else int 500)
  /\ (ErrorResponse.stack (snd sent) <> None
      \/ ErrorResponse.error (snd sent) <> None ->
      NODE_ENV = Some "development")
  /\ (NODE_ENV = Some "production" ->
      AppError.isOperational error <> Some true ->
      ErrorResponse.message (snd sent) = "Something went wrong")
  /\ (NODE_ENV <> Some "production" -> ErrorResponse.message (snd sent) <> "")
  /\ ErrorResponse.success (snd sent) = false
  /\ ErrorResponse.path (snd sent) = errorHandler.url req
  /\ ErrorResponse.method (snd sent) = errorHandler.method req.
Proof.
  cbv zeta. unfold errorHandler.errorHandler. cbn [snd fst].
  split; [apply numberOr_truthy; reflexivity|].
  split; [intros ->; reflexivity|].
  split; [intros statusCode ->; reflexivity|].
  assert (P : envIs NODE_ENV "production" = true <-> NODE_ENV = Some "production").
  { destruct NODE_ENV as [v|]; cbn [envIs]; [|split; discriminate].
    rewrite String.eqb_eq. split; congruence. }
  assert (D : envIs NODE_ENV "development" = true <-> NODE_ENV = Some "development").
  { destruct NODE_ENV as [v|]; cbn [envIs]; [|split; discriminate].
    rewrite String.eqb_eq. split; congruence. }
  destruct (envIs NODE_ENV "development") eqn:Ed;
    destruct (envIs NODE_ENV "production") eqn:Ep;
    cbn [ErrorResponse.stack ErrorResponse.error ErrorResponse.message
         ErrorResponse.success ErrorResponse.path ErrorResponse.method];
    (split; [first [intros _; now apply D | intros [C|C]; now destruct C]|]);
    (split; [intros Hp O; first [apply P in Hp; discriminate Hp
                               | destruct (AppError.isOperational error) as [[]|];
                                 [now destruct O|reflexivity|reflexivity]]|]);
    (split; [|repeat split]);
    intros Hn;
    first [destruct Hn; now apply P
          | destruct (String.eqb_spec (AppError.message error) "") as [->|N];
            cbn [ToBoolean negb]; 
            [rewrite String.eqb_refl; discriminate
            |rewrite (proj2 (String.eqb_neq _ _) N); exact N]].
Qed.



(** X19.  The error of [notFoundHandler] is answered with 404 and names the
    route, and the error of [handleValidationError] with 400 and the
    joined messages, in every environment; the text [Validation failed]
    does not show, and without messages the answer outside production
    reads [Internal Server Error]. *)
Theorem constructed_errors_keep_status (NODE_ENV : option string) (now : Z)
    (req : errorHandler.Request) (errors : list string) (s : logger.state) :
  let answer error :=
    snd (errorHandler.errorHandler JSON_stringify nativeCode NODE_ENV now
           error req s) in
  let missing := answer (errorHandler.notFoundHandler captureStack req) in
  let invalid := answer (errorHandler.handleValidationError captureStack errors) in
  fst missing = int 404
  /\ ErrorResponse.message (snd missing)
     = "Route " ++ errorHandler.originalUrl req ++ " not found"
  /\ fst invalid = int 400
  /\ ErrorResponse.message (snd invalid)
     = (if envIs NODE_ENV "production" || negb (String.eqb (join ", " errors) "")
        then join ", " errors
        else "Internal Server Error").
Proof.
  cbv zeta. unfold errorHandler.errorHandler, errorHandler.notFoundHandler,
    errorHandler.handleValidationError, errorHandler.createError.
  cbn [snd fst AppError.message AppError.statusCode AppError.isOperational
       AppError.stack default].
  repeat split;
    destruct (envIs NODE_ENV "development");
    destruct (envIs NODE_ENV "production"); cbn [orb];
    try reflexivity;
    cbn [ErrorResponse.message ToBoolean];
    destruct (String.eqb (join ", " errors) ""); reflexivity.
Qed.

(** X20.  What the middleware logs: when errors are enabled, one line on
    [console.error] that holds the logged object and neither the text
    [Error occurred:] nor the level; otherwise nothing. *)
Theorem errorHandler_log_line (NODE_ENV : option string) (now : Z)
    (error : AppError.t) (req : errorHandler.Request) (s : logger.state) :
  let s' := fst (errorHandler.errorHandler JSON_stringify nativeCode
                   NODE_ENV now error req s) in
  logger.cfg s' = logger.cfg s
  /\ logger.console s'
     = if 0 <=? logger.config.level (logger.cfg s)
       then (logger.console s
               ++ [(logger.console_error,
                    logger.Text
                      (" " ++ logger.colors.dim
                         ++ JSON_stringify
                              {| ErrorLog.message := AppError.message error;
                                 ErrorLog.stack := AppError.stack error;
                                 ErrorLog.url := errorHandler.url req;
                                 ErrorLog.method := errorHandler.method req |}
                         ++ (if logger.config.useColors (logger.cfg s)
                             then logger.colors.reset else "")))])%list
       else logger.console s.
Proof.
  cbv zeta. unfold errorHandler.errorHandler. cbn [fst].
  unfold logger.error, logger.log, LogLevel.ERROR.
  rewrite (Z.ltb_antisym 0). 
  destruct (0 <=? logger.config.level (logger.cfg s)); split; reflexivity.
Qed.

End ErrorHandlerProperties.

(** ** The statements above, on the example database *)

Lemma incomplete_request_stops_at_handler_witness :
  postUser (Example.request [] None [("email", VString "ann@example.com")])
    Example.sampleWorld
  = (Return {| status := 400;
               json := Missing "Name and email are required" ["name"] |},
     Example.sampleWorld)
  /\ putUser (Example.request [] (Some "1") []) Example.sampleWorld
     = (Return {| status := 400;
                  json := Failed "At least one field must be provided for update"
                            "NO_UPDATE_FIELDS" |},
        Example.sampleWorld).
Proof.
  split.
  - apply (proj1 (incomplete_request_stops_at_handler
                    (Example.request [] None [("email", VString "ann@example.com")])
                    Example.sampleWorld)).
    left. vm_compute. reflexivity.
  - apply (proj2 (proj2 (incomplete_request_stops_at_handler
                           (Example.request [] (Some "1") [])
                           Example.sampleWorld))).
    + vm_compute. reflexivity.
    + reflexivity.
Defined.

Lemma sanitizeUserData_result_witness :
  match sanitizeUserData annLee with
  | inl y =>
      y !! "name" = Some (VString "Ann Lee")
      /\ y !! "email" = Some (VString "ann@example.com")
      /\ y !! "age" = Some (VNumber (int 29))
  | inr _ => False
  end
  /\ sanitizeUserData
       {[ "age" := VArray [VNumber (int 29);
                           VObject {[ "toString" := VNumber (int 1) ]}] ]}
     = inr cannotConvert.
Proof.
  split.
  - destruct (sanitizeUserData annLee) as [y|e] eqn:E.
    + destruct (proj1 (sanitizeUserData_result annLee) y E) as (_ & N & M & A & _).
      split; [|split].
      * apply (N "Ann Lee"). vm_compute. reflexivity.
      * apply (M "ANN@Example.com "). vm_compute. reflexivity.
      * destruct (A (VNumber (int 29))) as (age & [= <-] & Ay);
          [vm_compute; reflexivity..|exact Ay].
    + vm_compute in E. discriminate E.
  - apply sanitizeUserData_result. right. right.
    split; [intros (v & L & _); vm_compute in L; discriminate L|].
    split; [intros (v & L & _); vm_compute in L; discriminate L|].
    split; [|reflexivity].
    eexists. split; [vm_compute; reflexivity|]. split; vm_compute; reflexivity.
Defined.

Lemma getUserById_finds_witness :
  fst (getUser (Example.request [] (Some "2") []) Example.sampleWorld)
  = Return {| status := 200;
              json := Succeeded "User retrieved successfully"
                (OneUser {| UserResponse.id := 2;
                            UserResponse.name := "Jane Smith";
                            UserResponse.email := "jane@jane.com";
                            UserResponse.age := Some 25;
                            UserResponse.created_at := 1000;
                            UserResponse.updated_at := 1000 |}) |}.
Proof.
  apply (proj2 (getUserById_finds 2 Example.sampleWorld ltac:(lia)
                  ltac:(constructor))
           (Example.request [] (Some "2") [])).
  vm_compute. reflexivity.
Defined.

Lemma deleteUser_removes_witness :
  fst (deleteUser (int 2) Example.sampleWorld) = Return true
  /\ Pg.id <$> Pg.users (db (snd (deleteUser (int 2) Example.sampleWorld)))
     = [1; 3].
Proof.
  rewrite (proj1 (deleteUser_removes 2 Example.sampleWorld ltac:(lia)
                    ltac:(constructor))).
  split; reflexivity.
Defined.

Lemma deleted_user_is_gone_witness :
  fst ((let! _ := deleteUserRoute (Example.request [] (Some "2") []) in
        getUser (Example.request [] (Some "2") [])) Example.sampleWorld)
  = Return userNotFoundResponse.
Proof.
  apply (proj2 (proj2 (deleted_user_is_gone 2 Example.sampleWorld ltac:(lia)
                         ltac:(constructor)))
           (Example.request [] (Some "2") [])).
  vm_compute. reflexivity.
Defined.

Lemma findUserByEmail_finds_witness :
  fst (findUserByEmail (VString "bob@bob.com") Example.sampleWorld)
  = Return (head (drop 2 (Pg.UserRow <$> Example.sampleUsers))).
Proof.
  rewrite (proj2 (proj2 (findUserByEmail_finds (VString "bob@bob.com")
                           Example.sampleWorld))
             "bob@bob.com" eq_refl ltac:(reflexivity) ltac:(constructor)).
  reflexivity.
Defined.

Lemma updateUser_absent_witness :
  fst (putUser (Example.request [] (Some "999") [("name", VString "Zed")])
         Example.sampleWorld)
  = Return userNotFoundResponse.
Proof.
  apply (proj2 (updateUser_absent 999 {[ "name" := VString "Zed" ]}
                  {[ "name" := VString "Zed" ]} Example.sampleWorld
                  ltac:(lia) ltac:(constructor) ltac:(reflexivity)
                  ltac:(vm_compute; reflexivity) ltac:(vm_compute; reflexivity))
           (Example.request [] (Some "999") [("name", VString "Zed")])).
  - vm_compute. reflexivity.
  - vm_compute. reflexivity.
  - intros E. apply (f_equal (fun m : object => m !! "name")) in E.
    vm_compute in E. discriminate E.
Defined.

Lemma update_with_age_is_rejected_witness :
  exists e,
    updateUser (int 1) {[ "age" := VNumber (int 30) ]} Example.sampleWorld
    = (Throw e,
       called (UpdateUser (int 1) {[ "age" := VNumber (int 30) ]})
         Example.sampleWorld).
Proof.
  apply (proj1 (update_with_age_is_rejected (int 1)
                  {[ "age" := VNumber (int 30) ]} Example.sampleWorld
                  ltac:(vm_compute; eauto))).
Defined.

Lemma updateUser_duplicate_email_witness :
  fst (putUser (Example.request [] (Some "1")
                  [("email", VString " Jane@Jane.com")])
         Example.sampleWorld)
  = Return {| status := 409;
              json := Failed "User with this email already exists"
                        "User with this email already exists" |}.
Proof.
  apply (proj2 (updateUser_duplicate_email 1
                  {[ "email" := VString " Jane@Jane.com" ]}
                  {[ "email" := VString "jane@jane.com" ]}
                  {| Pg.id := 1; Pg.name := "John Doe"; Pg.email := "john@john.com";
                     Pg.age := Some 30; Pg.created_at := 1000;
                     Pg.updated_at := 1000 |}
                  "jane@jane.com" Example.sampleWorld
                  ltac:(lia) ltac:(constructor) ltac:(reflexivity)
                  ltac:(vm_compute; reflexivity) ltac:(vm_compute; reflexivity)
                  ltac:(vm_compute; reflexivity) ltac:(discriminate)
                  ltac:(reflexivity) ltac:(reflexivity))
           (Example.request [] (Some "1") [("email", VString " Jane@Jane.com")]));
    vm_compute; reflexivity.
Defined.

Lemma getUsers_lists_matching_witness :
  match fst (listUsers
               (Example.request
                  [("page", "2"); ("limit", "1"); ("name", "O");
                   ("sortBy", "age"); ("sortOrder", "ASC")] None [])
               Example.sampleWorld) with
  | Return {| status := 200;
              json := Succeeded "Users retrieved successfully" (Listed resp) |} =>
      UserResponse.name <$> PaginatedUsersResponse.users resp = ["Bob Bobertson"]
      /\ PaginatedUsersResponse.pagination resp
         = {| Pagination.page := int 2; Pagination.limit := int 1;
              Pagination.total := int 2; Pagination.totalPages := int 2;
              Pagination.hasNext := false; Pagination.hasPrev := true |}
  | _ => False
  end.
Proof.
  destruct (getUsers_lists_matching
              (queryParams
                 (Example.request
                    [("page", "2"); ("limit", "1"); ("name", "O");
                     ("sortBy", "age"); ("sortOrder", "ASC")] None []))
              2 1 Example.sampleWorld
              ltac:(repeat split)
              ltac:(split; vm_compute; repeat constructor)
              ltac:(constructor)
              ltac:(vm_compute; reflexivity) ltac:(vm_compute; reflexivity)
              ltac:(lia) ltac:(vm_compute; discriminate))
    as (sorted & P & O & _ & _ & L).
  rewrite (L _ eq_refl). clear L.
  symmetry in P. apply Permutation_length_2_inv in P as [-> | ->].
  - split; vm_compute; reflexivity.
  - exfalso. specialize (O ltac:(vm_compute; repeat constructor)).
    apply StronglySorted_inv in O as [_ O]. apply Forall_inv in O.
    vm_compute in O. now apply O.
Defined.

Lemma updateUser_applies_witness :
  fst (putUser (Example.request [] (Some "1")
                  [("name", VString " Johnny "); ("email", VString "J@John.com")])
         Example.sampleWorld)
  = Return {| status := 200;
              json := Succeeded "User updated successfully"
                (OneUser {| UserResponse.id := 1;
                            UserResponse.name := "Johnny";
                            UserResponse.email := "j@john.com";
                            UserResponse.age := Some 30;
                            UserResponse.created_at := 1000;
                            UserResponse.updated_at := 2000 |}) |}.
Proof.
  assert (W : wellFormed Example.sampleDb)
    by (repeat (constructor; [vm_compute; reflexivity|]); constructor).
  assert (N : noNul {[ "name" := VString "Johnny";
                       "email" := VString "j@john.com" ]}).
  { intros k t L.
    destruct (decide (k = "name")) as [->|Nn];
      [vm_compute in L; injection L as <-; reflexivity|].
    destruct (decide (k = "email")) as [->|Ne];
      [vm_compute in L; injection L as <-; reflexivity|].
    rewrite lookup_insert_ne in L by congruence.
    rewrite lookup_singleton_ne in L by congruence. discriminate L. }
  apply (proj2 (proj2 (updateUser_applies 1
                  (list_to_map [("name", VString " Johnny ");
                                ("email", VString "J@John.com")])
                  {[ "name" := VString "Johnny"; "email" := VString "j@john.com" ]}
                  {| Pg.id := 1; Pg.name := "John Doe"; Pg.email := "john@john.com";
                     Pg.age := Some 30; Pg.created_at := 1000;
                     Pg.updated_at := 1000 |}
                  Example.sampleWorld
                  ltac:(lia) ltac:(constructor) W ltac:(vm_compute; reflexivity)
                  ltac:(reflexivity)
                  ltac:(vm_compute; reflexivity) ltac:(vm_compute; reflexivity)
                  N ltac:(right; vm_compute; reflexivity)))
           (Example.request [] (Some "1")
              [("name", VString " Johnny "); ("email", VString "J@John.com")])).
  - vm_compute. reflexivity.
  - reflexivity.
  - intros E. apply (f_equal (fun m : object => m !! "name")) in E.
    vm_compute in E. discriminate E.
Defined.

Lemma reads_never_write_witness :
  Pg.users (db (snd (listUsers (Example.request [("sortBy", "name")] None [])
                       Example.sampleWorld)))
  = Example.sampleUsers.
Proof.
  apply (proj2 (reads_never_write (Example.request [("sortBy", "name")] None [])
                  Example.sampleWorld)).
  - vm_compute. repeat constructor.
  - vm_compute. repeat constructor.
Defined.

Lemma formatMessage_drops_witness :
  logger.formatMessage (fun data : string => data) "" (logger.initial (Some "production"))
    LogLevel.ERROR "Error occurred:" (Some "{}")
  = " " ++ logger.colors.dim ++ "{}"
  /\ logger.formatMessage (fun data : string => data) ""
       (logger.initial (Some "production")) LogLevel.WARN "Slow query" None
     = logger.colors.bright ++ "[WARN] Slow query"
  /\ logger.formatMessage (fun data : string => data) ""
       (logger.initial (Some "production")) 7 "Slow query" None
     = logger.colors.bright ++ "[UNKNOWN] Slow query".
Proof.
  split; [|split].
  - apply (proj1 (formatMessage_drops (fun data : string => data) ""
                    (logger.initial (Some "production")) LogLevel.ERROR
                    "Error occurred:" None) "{}").
  - apply (formatMessage_drops (fun data : string => data) ""
             (logger.initial (Some "production")) LogLevel.WARN "Slow query" None).
  - apply (proj1 (proj2 (proj2 (proj2 (proj2 (proj2
             (formatMessage_drops (fun data : string => data) ""
                (logger.initial (Some "production")) 7 "Slow query" None))))))).
    rewrite !not_elem_of_cons. repeat split; try discriminate.
    apply not_elem_of_nil.
Defined.

Lemma errorHandler_discloses_witness :
  let sent :=
    snd (errorHandler.errorHandler (fun _ => "{}") ""
           (Some "production") 0
           {| AppError.message := "connect ECONNREFUSED 10.0.0.5:5432";
              AppError.stack := Some "at Pool.connect";
              AppError.statusCode := Some (int 503);
              AppError.isOperational := None |}
           {| errorHandler.url := "/api/v1/users";
              errorHandler.method := "GET";
              errorHandler.originalUrl := "/api/v1/users" |}
           {| logger.cfg := logger.initial (Some "production");
              logger.console := [] |}) in
  ErrorResponse.message (snd sent) = "Something went wrong"
  /\ fst sent = int 503.
Proof.
  cbv zeta.
  match goal with
  | |- context [errorHandler.errorHandler ?j ?c ?env ?t ?e ?r ?s] =>
      destruct (errorHandler_discloses j c env t e r s)
        as (_ & _ & St & _ & Pm & _)
  end.
  split.
  - apply Pm; [reflexivity|discriminate].
  - apply (St (int 503)). reflexivity.
Defined.

